(** * Verification of the project setup wizard

    Shallow embedding of
    [python/tank/deploy/tank_commands/setup_project_wizard.py]:
    the connection step of [SetupProjectFactoryAction] and the methods
    [preview_project_paths], [set_project_disk_name],
    [get_default_configuration_location] and [execute] of
    [SetupProjectWizard].

    Python values are modelled as follows: [str] as [string], a value that
    may be [None] as [option], a dictionary built by the wizard as a
    [gmap] keyed by strings, exceptions as values of [exn] threaded
    through a state-and-error monad. *)

From Stdlib Require Import ZArith NArith Ascii String DecimalString.
From stdpp Require Import base option list gmap strings fin_maps.

Local Open Scope string_scope.
Local Open Scope list_scope.
Set Warnings "-clear-no-such-hyp".

(** ** Python string operations used by the wizard *)

Module PyStr.

(** [s.startswith(p)] *)
Fixpoint startswith (p s : string) : bool :=
  match p with
  | EmptyString => true
  | String a p' =>
      match s with
      | EmptyString => false
      | String b s' => if Ascii.eqb a b then startswith p' s' else false
      end
  end.

(** [sub in s]: [sub] occurs in [s] as a contiguous run of characters. *)
Fixpoint contains (sub s : string) : bool :=
  match s with
  | EmptyString => startswith sub EmptyString
  | String _ s' => startswith sub s || contains sub s'
  end.

(** [s.replace("", new)]: Python inserts [new] before every character and
    at the end. *)
Fixpoint interleave (new s : string) : string :=
  match s with
  | EmptyString => new
  | String c s' => new +:+ String c (interleave new s')
  end.

(** Left-to-right scan of [s.replace(old, new)] for a non-empty [old].
    [skip] counts the characters of the occurrence just replaced that are
    still to be passed over, so that occurrences never overlap. *)
Fixpoint replace_scan (old new : string) (skip : nat) (s : string) : string :=
  match s with
  | EmptyString => EmptyString
  | String c s' =>
      match skip with
      | S k => replace_scan old new k s'
      | O =>
          if startswith old s
          then new +:+ replace_scan old new (String.length old - 1) s'
          else String c (replace_scan old new 0 s')
      end
  end.

(** [s.replace(old, new)] *)
Definition replace (old new s : string) : string :=
  match old with
  | EmptyString => interleave new s
  | String _ _ => replace_scan old new 0 s
  end.

(** [sep.join(l)] *)
Fixpoint join (sep : string) (l : list string) : string :=
  match l with
  | [] => EmptyString
  | [x] => x
  | x :: l' => x +:+ sep +:+ join sep l'
  end.

(** [s[:-1]] *)
Fixpoint but_last (s : string) : string :=
  match s with
  | EmptyString => EmptyString
  | String c s' =>
      match s' with
      | EmptyString => EmptyString
      | String _ _ => String c (but_last s')
      end
  end.

(** The occurrences of [old] in [old.join(segs)] are exactly the ones
    written between the segments: scanning from the left, no occurrence
    starts inside a segment. *)
Fixpoint separated (old : string) (segs : list string) : bool :=
  match segs with
  | [] => true
  | x :: rest =>
      match rest with
      | [] => negb (contains old x)
      | _ :: _ => negb (contains old (x +:+ but_last old)) && separated old rest
      end
  end.

(** Python truthiness of a value that is a [str] or [None]. *)
Definition truthy (v : option string) : bool :=
  match v with
  | None => false
  | Some EmptyString => false
  | Some (String _ _) => true
  end.

End PyStr.

(** ** Exceptions and the state-and-error monad *)

(** The exception classes that occur in the wizard.  [KeyboardInterrupt]
    and [SystemExit] derive from [BaseException] only, so a clause
    [except Exception] does not catch them. *)
Inductive exn_class :=
| TankError | KeyError | AttributeError | TypeError | OSError
| OtherException | KeyboardInterrupt | SystemExit.

Record exn := Exn { exn_cls : exn_class; exn_msg : string }.

Definition is_Exception (e : exn) : bool :=
  match exn_cls e with
  | KeyboardInterrupt | SystemExit => false
  | _ => true
  end.

Inductive result (A : Type) :=
| Ok (a : A)
| Raise (e : exn).
Arguments Ok {A} a.
Arguments Raise {A} e.

Inductive log_level := Debug | Info | Warning.

(** Calls into collaborators, in the order they are made. *)
Inductive event :=
| EvConnectSg
| EvConnectAppStore
| EvValidateDiskName (name : string)
| EvStoreDiskName (name : string)
| EvMakedirs (path : string) (mode umask_in_effect : N)
| EvSetCorePath (linux_path windows_path mac_path : option string)
| EvPreSetupValidation
| EvRunProjectSetup
| EvLocalize (config_path : option string) (suppress_prompts : bool).

(** The process and everything outside it: the umask of the process, the
    state [X] of the collaborators (parameter store, file system, remote
    services), the records written to the logger and the trace of calls. *)
Record World (X : Type) := mkWorld {
  w_umask : N;
  w_ext : X;
  w_log : list (log_level * string);
  w_calls : list event
}.
Arguments mkWorld {X}.
Arguments w_umask {X}.
Arguments w_ext {X}.
Arguments w_log {X}.
Arguments w_calls {X}.

(** A computation returns a value or raises; the state it leaves behind is
    kept in both cases (nothing is rolled back when an exception
    propagates). *)
Definition M (X A : Type) : Type := World X -> result A * World X.

Definition ret {X A} (a : A) : M X A := fun w => (Ok a, w).

Definition bind {X A B} (m : M X A) (k : A -> M X B) : M X B :=
  fun w => match m w with
           | (Ok a, w') => k a w'
           | (Raise e, w') => (Raise e, w')
           end.

Definition raise {X A} (e : exn) : M X A := fun w => (Raise e, w).

Definition lift {X A} (r : result A) : M X A := fun w => (r, w).

Declare Scope py_scope.
Delimit Scope py_scope with py.
Notation "x <- m ;; k" := (bind m (fun x => k))
  (at level 100, m at next level, right associativity,
   format "'[v' x  <-  m  ;;  '/' k ']'") : py_scope.
Notation "m ;;; k" := (bind m (fun _ => k))
  (at level 100, right associativity,
   format "'[v' m  ;;;  '/' k ']'") : py_scope.
Local Open Scope py_scope.

(** [try: body except Exception, e: handler(e)] *)
Definition try_except {X A} (body : M X A) (handler : exn -> M X A) : M X A :=
  fun w => match body w with
           | (Ok a, w') => (Ok a, w')
           | (Raise e, w') => if is_Exception e then handler e w' else (Raise e, w')
           end.

(** [try: body finally: cleanup]: the cleanup runs on every exit of the
    body; an exception of the body is re-raised after it. *)
Definition try_finally {X A} (body : M X A) (cleanup : M X unit) : M X A :=
  fun w => match body w with
           | (r, w') =>
               match cleanup w' with
               | (Ok _, w'') => (r, w'')
               | (Raise e, w'') => (Raise e, w'')
               end
           end.

(** A collaborator that only reads the external state. *)
Definition read {X A} (f : X -> result A) : M X A :=
  fun w => (f (w_ext w), w).

(** A collaborator that may change the external state; the call is
    recorded before it runs. *)
Definition call {X A} (ev : event) (f : X -> result A * X) : M X A :=
  fun w => match f (w_ext w) with
           | (r, x') => (r, mkWorld (w_umask w) x' (w_log w) (w_calls w ++ [ev]))
           end.

Definition log_msg {X} (lvl : log_level) (msg : string) : M X unit :=
  fun w => (Ok tt, mkWorld (w_umask w) (w_ext w) (w_log w ++ [(lvl, msg)]) (w_calls w)).

(** [for x in l: body(x)] *)
Fixpoint for_each {X A} (l : list A) (body : A -> M X unit) : M X unit :=
  match l with
  | [] => ret tt
  | x :: l' => body x ;;; for_each l' body
  end.

(** ** The factory: [SetupProjectFactoryAction._shotgun_connect] *)

(** An API handle; [server_info] is the dictionary the server reports. *)
Record Shotgun := mkShotgun {
  sg_base_url : string;
  server_info : gmap string (list N)
}.

(** The script user dictionary (name, id and type). *)
Record ScriptUser := mkScriptUser {
  su_name : string;
  su_id : Z;
  su_type : string
}.

(** [util.shotgun]: the two connection routines. *)
Class ShotgunConnector (X : Type) := {
  create_sg_connection : X -> result Shotgun * X;
  create_sg_app_store_connection : X -> result (Shotgun * ScriptUser) * X
}.

(** [d[k]] on a dictionary. *)
Definition getitem {V} (d : gmap string V) (k : string) : result V :=
  match d !! k with
  | Some v => Ok v
  | None => Raise (Exn KeyError k)
  end.

(** [str(x)] for a non-negative integer. *)
Definition str_of_N (n : N) : string :=
  NilEmpty.string_of_uint (N.to_uint n).

(** [".".join([str(x) for x in sg.server_info["version"]])] *)
Definition server_version {X} (sg : Shotgun) : M X string :=
  v <- lift (getitem (server_info sg) "version") ;;
  ret (PyStr.join "." (map str_of_N v)).

Section Factory.
Context {X : Type} `{!ShotgunConnector X}.

Definition _shotgun_connect : M X (Shotgun * option Shotgun * option ScriptUser) :=
  sg <- try_except
          (log_msg Info "Connecting to Shotgun..." ;;;
           sg <- call EvConnectSg create_sg_connection ;;
           sg_version <- server_version sg ;;
           log_msg Debug ("Connected to target Shotgun server! (v" +:+ sg_version +:+ ")") ;;;
           ret sg)
          (fun e => raise (Exn TankError ("Could not connect to Shotgun server: " +:+ exn_msg e))) ;;
  app <- try_except
           (log_msg Info "Connecting to the App Store..." ;;;
            conn <- call EvConnectAppStore create_sg_app_store_connection ;;
            sg_version <- server_version (fst conn) ;;
            log_msg Debug ("Connected to App Store! (v" +:+ sg_version +:+ ")") ;;;
            ret (Some (fst conn), Some (snd conn)))
           (fun e =>
              log_msg Warning
                ("Could not establish a connection to the app store! You can "
                 +:+ "still create new projects, but you have to base them on "
                 +:+ "configurations that reside on your local disk.") ;;;
              log_msg Debug ("The following error was raised: " +:+ exn_msg e) ;;;
              ret (None, None)) ;;
  ret (sg, fst app, snd app).

End Factory.

(** ** The wizard: data and collaborators *)

(** A [PipelineConfiguration] record as the service returns it for the
    fields the wizard asks for; a field the service has no value for is
    [None]. *)
Record PcRecord := mkPc {
  pc_id : Z;
  mac_path : option string;
  windows_path : option string;
  linux_path : option string;
  project : option Z;
  project_tank_name : option string
}.

(** A dictionary with the three keys [darwin], [linux2] and [win32], as
    [pipelineconfig_utils.resolve_all_os_paths_to_core] returns it. *)
Record PlatformPaths := mkPaths {
  darwin : option string;
  linux2 : option string;
  win32 : option string
}.

(** The arguments of [sg.find_one]. *)
Record sg_query := mkQuery {
  q_entity : string;
  q_filters : list (string * string * string);
  q_fields : list string;
  q_order : list (string * string)
}.

(** The wizard object: its connection handles.  The logger and the
    parameter store it owns live in the [World]. *)
Record SetupProjectWizard := mkWizard {
  _sg : Shotgun;
  _sg_app_store : option Shotgun;
  _sg_app_store_script_user : option ScriptUser
}.

(** [ProjectSetupParameters] (setup_project_params.py), the object behind
    [self._params].  [store_project_disk_name] is the assignment of the
    name to the store's field. *)
Class ParameterStore (X : Type) := {
  get_required_storages : X -> result (list string);
  preview_project_path : string -> string -> string -> X -> result (option string);
  validate_project_disk_name : string -> X -> result unit * X;
  store_project_disk_name : string -> X -> X;
  get_project_disk_name : X -> result (option string);
  get_configuration_shotgun_info : X -> result (option PcRecord);
  set_associated_core_path :
    option string -> option string -> option string -> X -> result unit * X;
  pre_setup_validation : X -> result unit * X;
  get_configuration_location : string -> X -> result (option string)
}.

(** [sys.platform], [os.path.exists] and [os.makedirs]; the latter is
    given the mode and the umask in effect when it is called. *)
Class OsInterface (X : Type) := {
  sys_platform : string;
  os_path_exists : string -> X -> bool;
  os_makedirs : string -> N -> N -> X -> result unit * X
}.

(** The remote service behind [self._sg]; [str_of_data] is ["%s" % data]
    for a record of the service. *)
Class ShotgunApi (X : Type) := {
  find_one : Shotgun -> sg_query -> X -> result (option PcRecord);
  str_of_data : PcRecord -> string
}.

(** [pipelineconfig_utils]; a path argument is passed as the Python value
    the wizard holds (a [str] or [None]). *)
Class PipelineConfigUtils (X : Type) := {
  get_path_to_current_core : X -> result string;
  resolve_all_os_paths_to_core : option string -> X -> result PlatformPaths;
  get_core_path_for_config : option string -> X -> result (option string);
  is_localized : option string -> X -> result bool
}.

(** [setup_project_core.run_project_setup] and [core.do_localize] *)
Class SetupRoutines (X : Type) := {
  run_project_setup :
    Shotgun -> option Shotgun -> option ScriptUser -> X -> result unit * X;
  do_localize : option string -> bool -> X -> result unit * X
}.

(** The receiver of a method call: calling a [str] method on [None]
    raises [AttributeError]. *)
Definition receiver (v : option string) (method : string) : result string :=
  match v with
  | Some s => Ok s
  | None =>
      Raise (Exn AttributeError
               ("'NoneType' object has no attribute '" +:+ method +:+ "'"))
  end.

(** [sub in v]; the right operand must be iterable. *)
Definition py_in (sub : string) (v : option string) : result bool :=
  match v with
  | Some s => Ok (PyStr.contains sub s)
  | None => Raise (Exn TypeError "argument of type 'NoneType' is not iterable")
  end.

(** [v and sub in v], as the condition of an [if]: the membership test is
    only evaluated when [v] is truthy. *)
Definition present_and_contains (v : option string) (sub : string) : result bool :=
  if PyStr.truthy v then py_in sub v else Ok false.

(** ["%s" % v] for a value that is a [str] or [None]. *)
Definition str_of (v : option string) : string :=
  match v with Some s => s | None => "None" end.

(** [os.umask(mask)]: sets the umask and returns the previous one. *)
Definition os_umask {X} (mask : N) : M X N :=
  fun w => (Ok (w_umask w), mkWorld mask (w_ext w) (w_log w) (w_calls w)).

Definition path_type_error : exn :=
  Exn TypeError "coercing to Unicode: need string or buffer, NoneType found".

(** The query both [get_default_configuration_location] and [execute]
    send for the most recent primary configuration. *)
Definition primary_query : sg_query :=
  mkQuery "PipelineConfiguration"
          [("code", "is", "primary")]
          ["id"; "mac_path"; "windows_path"; "linux_path"; "project";
           "project.Project.tank_name"]
          [("created_at", "desc")].

(** [data[key]] for the path fields of a record. *)
Definition pc_getitem (data : PcRecord) (key : string) : result (option string) :=
  if String.eqb key "mac_path" then Ok (mac_path data)
  else if String.eqb key "windows_path" then Ok (windows_path data)
  else if String.eqb key "linux_path" then Ok (linux_path data)
  else if String.eqb key "project.Project.tank_name" then Ok (project_tank_name data)
  else Raise (Exn KeyError key).

(** The dictionary [lookup] of [execute]. *)
Definition lookup : gmap string string :=
  <["darwin" := "mac_path"]> (<["linux2" := "linux_path"]> (<["win32" := "windows_path"]> ∅)).

(** The literal [{"darwin": None, "linux2": None, "win32": None}]. *)
Definition all_none : gmap string (option string) :=
  <["darwin" := None]> (<["linux2" := None]> (<["win32" := None]> ∅)).

(** ** The wizard: methods *)

Section Wizard.
Context {X : Type}.
Context `{!ParameterStore X, !OsInterface X, !ShotgunApi X,
          !PipelineConfigUtils X, !SetupRoutines X}.

(** [os.path.exists(p)]: raises [TypeError] on [None]. *)
Definition path_exists (p : option string) : M X bool :=
  match p with
  | Some s => fun w => (Ok (os_path_exists s (w_ext w)), w)
  | None => raise path_type_error
  end.

(** [os.makedirs(p, mode)] under the umask of the process. *)
Definition makedirs (p : option string) (mode : N) : M X unit :=
  match p with
  | Some s =>
      fun w => call (EvMakedirs s mode (w_umask w)) (os_makedirs s mode (w_umask w)) w
  | None => raise path_type_error
  end.

(** Modelled from the spec: [ProjectSetupParameters.set_project_disk_name]
    (setup_project_params.py is not among the sources).  The spec has the
    parameter store hold and validate all wizard inputs, and every setter
    validate and then mutate the store immediately. *)
Definition params_set_project_disk_name (project_disk_name : string) : M X unit :=
  call (EvValidateDiskName project_disk_name)
       (validate_project_disk_name project_disk_name) ;;;
  call (EvStoreDiskName project_disk_name)
       (fun x => (Ok tt, store_project_disk_name project_disk_name x)).

(** Body of the loop of [preview_project_paths] for one storage. *)
Definition preview_storage (project_disk_name s : string)
    (return_data : gmap string (gmap string (option string)))
  : M X (gmap string (gmap string (option string))) :=
  let return_data := <[s := ∅]> return_data in
  v <- read (preview_project_path s project_disk_name "darwin") ;;
  let return_data := alter (<["darwin" := v]>) s return_data in
  v <- read (preview_project_path s project_disk_name "win32") ;;
  let return_data := alter (<["win32" := v]>) s return_data in
  v <- read (preview_project_path s project_disk_name "linux2") ;;
  let return_data := alter (<["linux2" := v]>) s return_data in
  ret return_data.

Fixpoint preview_loop (project_disk_name : string) (storages : list string)
    (return_data : gmap string (gmap string (option string)))
  : M X (gmap string (gmap string (option string))) :=
  match storages with
  | [] => ret return_data
  | s :: rest =>
      return_data <- preview_storage project_disk_name s return_data ;;
      preview_loop project_disk_name rest return_data
  end.

Definition preview_project_paths (self : SetupProjectWizard)
    (project_disk_name : string)
  : M X (gmap string (gmap string (option string))) :=
  storages <- read get_required_storages ;;
  preview_loop project_disk_name storages ∅.

(** Body of the loop of [set_project_disk_name] for one storage. *)
Definition create_project_folder (project_disk_name s : string) : M X unit :=
  proj_path <- read (preview_project_path s project_disk_name sys_platform) ;;
  e <- path_exists proj_path ;;
  if negb e then
    log_msg Info ("Creating project folder '" +:+ str_of proj_path +:+ "'...") ;;;
    old_umask <- os_umask 0 ;;
    try_finally (makedirs proj_path 511)
                (_ <- os_umask old_umask ;; ret tt) ;;;
    log_msg Debug "...done!"
  else
    log_msg Debug ("Storage '" +:+ s +:+ "' - project folder '"
                   +:+ str_of proj_path +:+ "' - already exists!").

Definition set_project_disk_name (self : SetupProjectWizard)
    (project_disk_name : string) (create_folders : bool) : M X unit :=
  (if create_folders then
     call (EvValidateDiskName project_disk_name)
          (validate_project_disk_name project_disk_name) ;;;
     log_msg Debug "Will try to create project folders on disk..." ;;;
     storages <- read get_required_storages ;;
     for_each storages (create_project_folder project_disk_name)
   else ret tt) ;;;
  params_set_project_disk_name project_disk_name.

(** The first two tiers shared by [get_default_configuration_location]
    and [execute]: the record the template is linked to, else the most
    recent primary configuration of the service. *)
Definition basis_record (self : SetupProjectWizard) : M X (option PcRecord) :=
  data <- read get_configuration_shotgun_info ;;
  match data with
  | Some _ => ret data
  | None => read (find_one (_sg self) primary_query)
  end.

(** One of the three [if] statements that fill [suggested_defaults]. *)
Definition suggest (key : string) (path : option string) (old new : string)
    (suggested_defaults : gmap string (option string))
  : M X (gmap string (option string)) :=
  c <- lift (present_and_contains path old) ;;
  if c then
    p <- lift (receiver path "replace") ;;
    ret (<[key := Some (PyStr.replace old new p)]> suggested_defaults)
  else ret suggested_defaults.

Definition get_default_configuration_location (self : SetupProjectWizard)
  : M X (gmap string (option string)) :=
  v <- read get_project_disk_name ;;
  new_proj_disk_name <- lift (receiver v "replace") ;;
  let new_proj_disk_name_win := PyStr.replace "/" "\" new_proj_disk_name in
  data <- basis_record self ;;
  match data with
  | None =>
      log_msg Debug
        "No configs available to generate preview config values. Returning None." ;;;
      ret all_none
  | Some data =>
      log_msg Debug ("Basing config values on the following shotgun pipeline config: "
                     +:+ str_of_data data) ;;;
      old_project_disk_name <- lift (receiver (project_tank_name data) "replace") ;;
      let old_project_disk_name_win := PyStr.replace "/" "\" old_project_disk_name in
      let suggested_defaults := all_none in
      suggested_defaults <-
        suggest "darwin" (mac_path data)
                old_project_disk_name new_proj_disk_name suggested_defaults ;;
      suggested_defaults <-
        suggest "linux2" (linux_path data)
                old_project_disk_name new_proj_disk_name suggested_defaults ;;
      suggested_defaults <-
        suggest "win32" (windows_path data)
                old_project_disk_name_win new_proj_disk_name_win suggested_defaults ;;
      ret suggested_defaults
  end.

(** The first part of [execute]: which core the new project is associated
    with and whether it is localized. *)
Definition resolve_core (self : SetupProjectWizard) : M X (PlatformPaths * bool) :=
  log_msg Debug "Start preparing for project setup!" ;;;
  let localize_api := true in
  curr_core_path <- read get_path_to_current_core ;;
  core_path_dict <- read (resolve_all_os_paths_to_core (Some curr_core_path)) ;;
  data <- read get_configuration_shotgun_info ;;
  data <-
    match data with
    | Some d =>
        log_msg Debug ("Will try to inherit core from the config template: "
                       +:+ str_of_data d) ;;;
        ret data
    | None =>
        data <- read (find_one (_sg self) primary_query) ;;
        match data with
        | None =>
            log_msg Debug
              "No existing projects in shotgun. Will try to inherit the core from the running code."
        | Some d =>
            log_msg Debug ("Will try to inherit the core from the most recent project: "
                           +:+ str_of_data d)
        end ;;;
        ret data
    end ;;
  match data with
  | None => ret (core_path_dict, localize_api)
  | Some data =>
      field <- lift (getitem lookup sys_platform) ;;
      pipeline_config_root_path <- lift (pc_getitem data field) ;;
      e <- (if PyStr.truthy pipeline_config_root_path
            then path_exists pipeline_config_root_path else ret false) ;;
      if e then
        core_api_root <-
          read (get_core_path_for_config pipeline_config_root_path) ;;
        if PyStr.truthy core_api_root then
          core_path_dict <-
            read (resolve_all_os_paths_to_core core_api_root) ;;
          log_msg Debug ("Will use pipeline configuration here: "
                         +:+ str_of pipeline_config_root_path) ;;;
          log_msg Debug ("This has an associated core here: "
                         +:+ str_of core_api_root) ;;;
          l <- read (is_localized pipeline_config_root_path) ;;
          let localize_api := if l then true else false in
          ret (core_path_dict, localize_api)
        else ret (core_path_dict, localize_api)
      else ret (core_path_dict, localize_api)
  end.

Definition execute (self : SetupProjectWizard) : M X unit :=
  r <- resolve_core self ;;
  let core_path_dict := fst r in
  let localize_api := snd r in
  call (EvSetCorePath (linux2 core_path_dict) (win32 core_path_dict)
                      (darwin core_path_dict))
       (set_associated_core_path (linux2 core_path_dict) (win32 core_path_dict)
                                 (darwin core_path_dict)) ;;;
  call EvPreSetupValidation pre_setup_validation ;;;
  call EvRunProjectSetup
       (run_project_setup (_sg self) (_sg_app_store self)
                          (_sg_app_store_script_user self)) ;;;
  if localize_api then
    location <- read (get_configuration_location sys_platform) ;;
    call (EvLocalize location true) (do_localize location true)
  else ret tt.

End Wizard.

(** ** Vocabulary of the specification *)

(** The three platforms, in [sys.platform] jargon. *)
Definition platforms : list string := ["darwin"; "linux2"; "win32"].

(** The field of a record that holds its root path for a platform. *)
Definition stored_path (data : PcRecord) (platform : string) : option string :=
  if String.eqb platform "darwin" then mac_path data
  else if String.eqb platform "linux2" then linux_path data
  else if String.eqb platform "win32" then windows_path data
  else None.

(** The form a disk name takes in the paths of a platform: forward
    slashes on mac and linux, backslashes on windows. *)
Definition platform_form (platform name : string) : string :=
  if String.eqb platform "win32" then PyStr.replace "/" "\" name else name.

(** [sub] occurs in [s] as a literal substring. *)
Definition occurs_in (sub s : string) : Prop :=
  exists a b, s = a +:+ sub +:+ b.

(** The characters of a string, each as a string of its own. *)
Definition chars (s : string) : list string :=
  map (fun c => String c EmptyString) (list_ascii_of_string s).

(** What the specification asks of the suggestion [out] for one platform,
    given the stored path of the basis record and the old and new name in
    the form of that platform.  An absent path, or one in which the old
    name does not occur, gets no suggestion.  A path in which it occurs is
    cut at the occurrences, found from the left and not overlapping, and
    the pieces are put together again with the new name between them.  The
    empty name occurs before every character and at the end. *)
Definition substituted (stored : option string) (old new : string)
    (out : option string) : Prop :=
  match stored with
  | None => out = None
  | Some p =>
      (p = "" \/ ~ occurs_in old p -> out = None) /\
      (p <> "" -> old <> "" -> occurs_in old p ->
       (exists segs,
          2 <= length segs /\ p = PyStr.join old segs /\
          PyStr.separated old segs = true) /\
       (forall segs,
          p = PyStr.join old segs -> PyStr.separated old segs = true ->
          out = Some (PyStr.join new segs))) /\
      (p <> "" -> old = "" ->
       out = Some (PyStr.join new ([""] ++ chars p ++ [""])))
  end.

(** The value one of the three [if] statements leaves under its key,
    computed from the stored path alone. *)
Definition suggested (path : option string) (old new : string) : option string :=
  match path with
  | Some p =>
      if negb (String.eqb p "") && PyStr.contains old p
      then Some (PyStr.replace old new p) else None
  | None => None
  end.

(** The dictionary with exactly the three platform keys. *)
Definition platform_dict (v_darwin v_win32 v_linux2 : option string)
  : gmap string (option string) :=
  <["linux2" := v_linux2]> (<["win32" := v_win32]> (<["darwin" := v_darwin]> ∅)).

(** A stored path is absent when it is [None] or empty. *)
Definition absent (stored : option string) : Prop :=
  stored = None \/ stored = Some "".

(** A [makedirs] call is made with mode [0777] under a cleared umask. *)
Definition makedirs_cleared (ev : event) : Prop :=
  match ev with
  | EvMakedirs _ mode u => mode = 511%N /\ u = 0%N
  | _ => True
  end.

Definition is_makedirs (ev : event) : Prop :=
  match ev with
  | EvMakedirs _ _ _ => True
  | _ => False
  end.

(** The call does not write a disk name into the parameter store. *)
Definition not_store (ev : event) : Prop :=
  forall n, ev <> EvStoreDiskName n.

(** [w'] is reached from [w] by calls that all satisfy [P]. *)
Definition extends_calls {X} (P : event -> Prop) (w w' : World X) : Prop :=
  exists evs, w_calls w' = (w_calls w ++ evs)%list /\ Forall P evs.

(** The umask is what it was and directories were only created under a
    cleared umask. *)
Definition umask_kept {X} (w w' : World X) : Prop :=
  w_umask w' = w_umask w /\ extends_calls makedirs_cleared w w'.

(** Every run of [m] relates the world it starts in to the world it
    leaves, whether it returns or raises. *)
Definition preserves {X A} (I : World X -> World X -> Prop) (m : M X A) : Prop :=
  forall w, I w (snd (m w)).

(** Only the logger was written to. *)
Definition only_logs {X} (w w' : World X) : Prop :=
  w_ext w' = w_ext w /\ w_calls w' = w_calls w /\ w_umask w' = w_umask w.

(** A run from [w] ended with result [r], left the collaborators in state
    [x] and made exactly the calls [evs]. *)
Definition outcome {X A} (run : result A * World X) (w : World X)
    (r : result A) (x : X) (evs : list event) : Prop :=
  fst run = r /\ w_ext (snd run) = x /\ w_calls (snd run) = w_calls w ++ evs.

(** The first call of a run from [w] commits the core paths [d]. *)
Definition commits_core {X A} (run : result A * World X) (w : World X)
    (d : PlatformPaths) : Prop :=
  exists evs,
    w_calls (snd run)
    = w_calls w ++ EvSetCorePath (linux2 d) (win32 d) (darwin d) :: evs.

(** ** A concrete studio

    One instance of every collaborator, small enough to run the wizard
    on. *)

Module Studio.

Record State := mkState {
  st_storages : list string;
  st_disk_name : option string;
  st_template_link : option PcRecord;
  st_core_path : option (option string * option string * option string);
  st_configurations : list (string * N * PcRecord);
  st_dirs : list string;
  st_cores : list (string * (string * bool));
  st_sg_up : bool;
  st_app_store_up : bool;
  st_provisioning_ok : bool;
  st_localize_ok : bool
}.

Definition with_disk_name (v : option string) (x : State) : State :=
  mkState (st_storages x) v (st_template_link x) (st_core_path x)
          (st_configurations x) (st_dirs x) (st_cores x) (st_sg_up x)
          (st_app_store_up x) (st_provisioning_ok x) (st_localize_ok x).

Definition with_core_path (v : option (option string * option string * option string))
    (x : State) : State :=
  mkState (st_storages x) (st_disk_name x) (st_template_link x) v
          (st_configurations x) (st_dirs x) (st_cores x) (st_sg_up x)
          (st_app_store_up x) (st_provisioning_ok x) (st_localize_ok x).

Definition with_dirs (v : list string) (x : State) : State :=
  mkState (st_storages x) (st_disk_name x) (st_template_link x) (st_core_path x)
          (st_configurations x) v (st_cores x) (st_sg_up x)
          (st_app_store_up x) (st_provisioning_ok x) (st_localize_ok x).

Definition mem (p : string) (l : list string) : bool :=
  existsb (String.eqb p) l.

(** Disk names are non-empty and have no blanks. *)
Definition valid_name (name : string) : bool :=
  negb (String.eqb name "") && negb (PyStr.contains " " name).

Definition project_path (s name platform : string) : string :=
  if String.eqb platform "win32"
  then "P:\" +:+ s +:+ "\" +:+ PyStr.replace "/" "\" name
  else "/mnt/" +:+ s +:+ "/" +:+ name.

#[global] Instance params : ParameterStore State := {|
  get_required_storages x := Ok (st_storages x);
  preview_project_path s name platform x := Ok (Some (project_path s name platform));
  validate_project_disk_name name x :=
    if valid_name name then (Ok tt, x)
    else (Raise (Exn TankError ("Invalid project folder '" +:+ name +:+ "'!")), x);
  store_project_disk_name name x := with_disk_name (Some name) x;
  get_project_disk_name x := Ok (st_disk_name x);
  get_configuration_shotgun_info x := Ok (st_template_link x);
  set_associated_core_path l w m x := (Ok tt, with_core_path (Some (l, w, m)) x);
  pre_setup_validation x :=
    match st_disk_name x with
    | Some _ => (Ok tt, x)
    | None => (Raise (Exn TankError "Missing project disk name!"), x)
    end;
  get_configuration_location platform x :=
    Ok (Some (project_path "configs" (str_of (st_disk_name x)) platform))
|}.

(** Directories below a read-only mount cannot be created. *)
#[global] Instance os : OsInterface State := {|
  sys_platform := "linux2";
  os_path_exists p x := mem p (st_dirs x);
  os_makedirs p mode u x :=
    if PyStr.contains "readonly" p
    then (Raise (Exn OSError ("Permission denied: '" +:+ p +:+ "'")), x)
    else (Ok tt, with_dirs (p :: st_dirs x) x)
|}.

(** The row with the latest [created_at] among those with the given code. *)
Fixpoint newest (code : string) (rows : list (string * N * PcRecord))
    (best : option (N * PcRecord)) : option PcRecord :=
  match rows with
  | [] => snd <$> best
  | (c, t, r) :: rest =>
      if String.eqb c code then
        match best with
        | Some (t', _) =>
            if (t' <? t)%N then newest code rest (Some (t, r))
            else newest code rest best
        | None => newest code rest (Some (t, r))
        end
      else newest code rest best
  end.

#[global] Instance service : ShotgunApi State := {|
  find_one sg q x :=
    if st_sg_up x then
      match q_filters q with
      | [("code", "is", code)] => Ok (newest code (st_configurations x) None)
      | _ => Ok None
      end
    else Raise (Exn OtherException "connection refused");
  str_of_data data := "{'id': " +:+ str_of_N (Z.to_N (pc_id data)) +:+ "}"
|}.

Definition core_of (p : string) (x : State) : option (string * bool) :=
  snd <$> find (fun e => String.eqb (fst e) p) (st_cores x).

#[global] Instance utils : PipelineConfigUtils State := {|
  get_path_to_current_core x := Ok "/studio/core";
  resolve_all_os_paths_to_core p x :=
    match p with
    | Some s =>
        Ok (mkPaths (Some ("/Volumes" +:+ s)) (Some s)
                    (Some ("P:" +:+ PyStr.replace "/" "\" s)))
    | None => Raise path_type_error
    end;
  get_core_path_for_config p x :=
    match p with
    | Some s => Ok (fst <$> core_of s x)
    | None => Raise path_type_error
    end;
  is_localized p x :=
    match p with
    | Some s => Ok (match core_of s x with Some (_, l) => l | None => false end)
    | None => Raise path_type_error
    end
|}.

#[global] Instance routines : SetupRoutines State := {|
  run_project_setup sg app user x :=
    if st_provisioning_ok x
    then (Ok tt, with_dirs (project_path "configs" (str_of (st_disk_name x)) "linux2"
                            :: st_dirs x) x)
    else (Raise (Exn TankError "Project setup failed."), x);
  do_localize p suppress x :=
    if st_localize_ok x
    then (Ok tt, with_dirs ((str_of p +:+ "/install/core") :: st_dirs x) x)
    else (Raise (Exn TankError "Could not localize."), x)
|}.

Definition site : Shotgun :=
  mkShotgun "https://studio.example.com"
            (<["version" := [5; 3; 10]%N]> ∅).

Definition app_store : Shotgun :=
  mkShotgun "https://store.example.com"
            (<["version" := [6; 0; 0]%N]> ∅).

Definition store_user : ScriptUser := mkScriptUser "app_store_script" 42 "ApiUser".

#[global] Instance connector : ShotgunConnector State := {|
  create_sg_connection x :=
    if st_sg_up x then (Ok site, x)
    else (Raise (Exn OtherException "connection refused"), x);
  create_sg_app_store_connection x :=
    if st_app_store_up x then (Ok (app_store, store_user), x)
    else (Raise (Exn OtherException "app store unreachable"), x)
|}.

(** The primary configuration of an earlier project, [foo/bar]. *)
Definition earlier : PcRecord :=
  mkPc 7 (Some "/mnt/foo/bar/configs") (Some "P:\foo\bar\configs")
       (Some "/mnt/foobar/configs") (Some 3%Z) (Some "foo/bar").

(** An older one whose mac path names the project twice and which has no
    linux path. *)
Definition older : PcRecord :=
  mkPc 5 (Some "/mnt/proj/proj/configs") (Some "") None (Some 2%Z) (Some "proj").

Definition studio : State :=
  mkState ["primary"; "textures"] (Some "baz/qux") None None
          [("primary", 10%N, older); ("dev", 30%N, older); ("primary", 20%N, earlier)]
          ["/mnt/foobar/configs"; "/mnt/primary/baz/qux"]
          [("/mnt/foobar/configs", ("/mnt/foobar/configs/install/core", false))]
          true true true true.

(** The same studio with a template taken from the older project. *)
Definition linked : State :=
  mkState ["primary"; "textures"] (Some "baz/qux") (Some older) None
          (st_configurations studio) (st_dirs studio) (st_cores studio)
          true true true true.

(** A studio that has never set up a project. *)
Definition fresh : State :=
  mkState ["primary"] (Some "first") None None [] [] [] true false true true.

(** A studio whose second storage is on a read-only mount. *)
Definition locked : State :=
  mkState ["primary"; "readonly"; "textures"] None None None [] [] []
          true true true true.

(** A studio that cannot reach its site. *)
Definition offline : State :=
  mkState ["primary"] None None None [] [] [] false true true true.

(** The core of the running code and the core of the earlier project. *)
Definition running_core : PlatformPaths :=
  mkPaths (Some "/Volumes/studio/core") (Some "/studio/core") (Some "P:\studio\core").

Definition earlier_core : PlatformPaths :=
  mkPaths (Some "/Volumes/mnt/foobar/configs/install/core")
          (Some "/mnt/foobar/configs/install/core")
          (Some "P:\mnt\foobar\configs\install\core").

(** The states [execute] goes through from [linked]. *)
Definition committed : State :=
  with_core_path
    (Some (Some "/studio/core", Some "P:\studio\core", Some "/Volumes/studio/core"))
    linked.

Definition provisioned : State :=
  with_dirs ("/mnt/configs/baz/qux" :: st_dirs committed) committed.

Definition localized : State :=
  with_dirs ("/mnt/configs/baz/qux/install/core" :: st_dirs provisioned) provisioned.

Definition world (x : State) : World State := mkWorld 18 x [] [].

Definition wizard : SetupProjectWizard := mkWizard site (Some app_store) (Some store_user).

End Studio.

(** ** The factory: [run_noninteractive] and the constructor of the wizard *)

(** The constructor of [ProjectSetupParameters]. *)
Class ParameterStoreClass (X : Type) := {
  new_ProjectSetupParameters :
    Shotgun -> option Shotgun -> option ScriptUser -> X -> result unit * X
}.

(** A collaborator that may change the external state, run without an
    entry in the trace of calls. *)
Definition step {X A} (f : X -> result A * X) : M X A :=
  fun w => match f (w_ext w) with
           | (r, x') => (r, mkWorld (w_umask w) x' (w_log w) (w_calls w))
           end.

Section FactoryRun.
Context {X : Type} `{!ShotgunConnector X, !ParameterStoreClass X}.

(** [SetupProjectWizard.__init__]: keeps the handles and builds the
    parameter store from them. *)
Definition SetupProjectWizard_init (sg : Shotgun) (sg_app_store : option Shotgun)
    (sg_app_store_script_user : option ScriptUser) : M X SetupProjectWizard :=
  step (new_ProjectSetupParameters sg sg_app_store sg_app_store_script_user) ;;;
  ret (mkWizard sg sg_app_store sg_app_store_script_user).

Definition run_noninteractive : M X SetupProjectWizard :=
  conn <- _shotgun_connect ;;
  SetupProjectWizard_init (fst (fst conn)) (snd (fst conn)) (snd conn).

End FactoryRun.

(** ** A scripted host

    Collaborators that answer as a script says, on a host whose
    [sys.platform] is a parameter. *)

Module Scripted.

Record Script := mkScript {
  sc_site : result Shotgun;
  sc_app_store : result (Shotgun * ScriptUser);
  sc_required : result (list string);
  sc_preview : string -> string -> result (option string);
  sc_disk_name : option string;
  sc_template : option PcRecord;
  sc_primary : result (option PcRecord);
  sc_location : result (option string)
}.

Record Host (platform : string) := mkHost {
  script : Script;
  dirs : list string;
  stored_name : option string
}.
Arguments mkHost {platform}.
Arguments script {platform}.
Arguments dirs {platform}.
Arguments stored_name {platform}.

#[global] Instance params platform : ParameterStore (Host platform) := {|
  get_required_storages h := sc_required (script h);
  preview_project_path s name plat h := sc_preview (script h) s plat;
  validate_project_disk_name name h := (Ok tt, h);
  store_project_disk_name name h := mkHost (script h) (dirs h) (Some name);
  get_project_disk_name h := Ok (sc_disk_name (script h));
  get_configuration_shotgun_info h := Ok (sc_template (script h));
  set_associated_core_path l w m h := (Ok tt, h);
  pre_setup_validation h := (Ok tt, h);
  get_configuration_location plat h := sc_location (script h)
|}.

#[global] Instance os platform : OsInterface (Host platform) := {|
  sys_platform := platform;
  os_path_exists p h := Studio.mem p (dirs h);
  os_makedirs p mode u h := (Ok tt, mkHost (script h) (p :: dirs h) (stored_name h))
|}.

#[global] Instance service platform : ShotgunApi (Host platform) := {|
  find_one sg q h := sc_primary (script h);
  str_of_data data := "{...}"
|}.

#[global] Instance utils platform : PipelineConfigUtils (Host platform) := {|
  get_path_to_current_core h := Ok "/opt/core";
  resolve_all_os_paths_to_core p h := Ok (mkPaths p p p);
  get_core_path_for_config p h := Ok p;
  is_localized p h := Ok false
|}.

#[global] Instance routines platform : SetupRoutines (Host platform) := {|
  run_project_setup sg app user h := (Ok tt, h);
  do_localize p suppress h := (Ok tt, h)
|}.

#[global] Instance connector platform : ShotgunConnector (Host platform) := {|
  create_sg_connection h := (sc_site (script h), h);
  create_sg_app_store_connection h := (sc_app_store (script h), h)
|}.

#[global] Instance store_class platform : ParameterStoreClass (Host platform) := {|
  new_ProjectSetupParameters sg app user h := (Ok tt, mkHost (script h) (dirs h) None)
|}.

(** A handle whose server reports no version. *)
Definition mute : Shotgun := mkShotgun "https://mute.example.com" ∅.

Definition plain_preview (s platform : string) : result (option string) :=
  Ok (Some ("/" +:+ s)).

Definition base : Script :=
  mkScript (Ok Studio.site) (Ok (Studio.app_store, Studio.store_user))
           (Ok ["primary"; "scratch"]) plain_preview (Some "show") None
           (Ok (Some Studio.earlier)) (Ok (Some "/configs/show")).

(** The app store connection is interrupted from the keyboard. *)
Definition interrupted : Script :=
  mkScript (Ok Studio.site) (Raise (Exn KeyboardInterrupt ""))
           (sc_required base) plain_preview (Some "show") None
           (sc_primary base) (sc_location base).

(** The app store answers with a handle that reports no version. *)
Definition mute_store : Script :=
  mkScript (Ok Studio.site) (Ok (mute, Studio.store_user))
           (sc_required base) plain_preview (Some "show") None
           (sc_primary base) (sc_location base).

(** The site answers with a handle that reports no version. *)
Definition mute_site : Script :=
  mkScript (Ok mute) (sc_app_store base)
           (sc_required base) plain_preview (Some "show") None
           (sc_primary base) (sc_location base).

(** The app store cannot be reached. *)
Definition no_store : Script :=
  mkScript (Ok Studio.site) (Raise (Exn OtherException "app store unreachable"))
           (sc_required base) plain_preview (Some "show") None
           (sc_primary base) (sc_location base).

(** The storage [scratch] has no path on any platform. *)
Definition pathless : Script :=
  mkScript (sc_site base) (sc_app_store base) (sc_required base)
           (fun s platform =>
              if String.eqb s "scratch" then Ok None else plain_preview s platform)
           (Some "show") None (sc_primary base) (sc_location base).

(** The storage [scratch] cannot be previewed on windows. *)
Definition unpreviewable : Script :=
  mkScript (sc_site base) (sc_app_store base) (sc_required base)
           (fun s platform =>
              if String.eqb s "scratch" && String.eqb platform "win32"
              then Raise (Exn TankError "Storage 'scratch' has no windows path!")
              else plain_preview s platform)
           (Some "show") None (sc_primary base) (sc_location base).

(** The configuration location cannot be read. *)
Definition unlocated : Script :=
  mkScript (sc_site base) (sc_app_store base) (sc_required base) plain_preview
           (Some "show") None (Ok None)
           (Raise (Exn TankError "No configuration location has been set!")).

Definition host (platform : string) (sc : Script) (on_disk : list string)
  : World (Host platform) :=
  mkWorld 18 (mkHost sc on_disk None) [] [].

End Scripted.

(** ** More states of the studio *)

Module Cases.

(** A configuration whose project has lost its disk name. *)
Definition nameless : PcRecord :=
  mkPc 9 (Some "/mnt/foo/configs") None None (Some 4%Z) None.

(** A configuration whose project has the empty disk name. *)
Definition unnamed : PcRecord :=
  mkPc 11 (Some "/ab") None (Some "") (Some 6%Z) (Some "").

Definition linked_to (data : PcRecord) (disk_name : option string) : Studio.State :=
  Studio.mkState ["primary"; "textures"] disk_name (Some data) None [] [] []
                 true true true true.

(** Both project folders of [baz/qux] are on disk. *)
Definition settled : Studio.State :=
  Studio.mkState ["primary"; "textures"] None None None []
                 ["/mnt/primary/baz/qux"; "/mnt/textures/baz/qux"] []
                 true true true true.

(** The first project folder of [show] is on disk, the second lies on a
    read-only mount. *)
Definition half_locked : Studio.State :=
  Studio.mkState ["primary"; "readonly"; "textures"] None None None []
                 ["/mnt/primary/show"] [] true true true true.

#[global] Instance store_class : ParameterStoreClass Studio.State := {|
  new_ProjectSetupParameters sg app user x := (Ok tt, Studio.with_disk_name None x)
|}.

End Cases.

(** ** Vocabulary of the further properties *)

(** The call creates no directory. *)
Definition not_makedirs (ev : event) : Prop :=
  match ev with
  | EvMakedirs _ _ _ => False
  | _ => True
  end.

(** The directories of [evs] are created one after the other from state
    [x]: each call is [os.makedirs(p, 0777)] under umask [0] for the path [p]
    that the parameter store previews, in the state the call is made in,
    for one of the storages [storages] on the current platform and under
    the disk name [name]; that path is not on disk then; and the next
    call is made in the state this call leaves. *)
Inductive made_in_turn {X} `{!ParameterStore X, !OsInterface X}
    (name : string) (storages : list string) : X -> list event -> Prop :=
| made_nil x : made_in_turn name storages x []
| made_cons x s p r x' evs :
    s ∈ storages ->
    preview_project_path s name sys_platform x = Ok (Some p) ->
    os_path_exists p x = false ->
    os_makedirs p 511 0 x = (r, x') ->
    made_in_turn name storages x' evs ->
    made_in_turn name storages x (EvMakedirs p 511 0 :: evs).

(** The project folder of a storage is on disk in state [x]. *)
Definition folder_on_disk {X} `{!ParameterStore X, !OsInterface X}
    (name : string) (x : X) (s : string) : Prop :=
  exists p,
    preview_project_path s name sys_platform x = Ok (Some p) /\
    os_path_exists p x = true.

(** * Properties *)

(** ** Python strings *)

Module PyStrFacts.
Import PyStr.

Lemma app_cons c s t : String c s +:+ t = String c (s +:+ t).
Proof. reflexivity. Qed.

Lemma app_nil_l s : "" +:+ s = s.
Proof. reflexivity. Qed.

Lemma app_nil_r s : s +:+ "" = s.
Proof. induction s as [|c s IH]; [reflexivity|]. rewrite app_cons. by f_equal. Qed.

Lemma app_assoc s t u : (s +:+ t) +:+ u = s +:+ t +:+ u.
Proof.
  induction s as [|c s IH]; [reflexivity|].
  rewrite !app_cons. by f_equal.
Qed.

Lemma length_app s t : String.length (s +:+ t) = String.length s + String.length t.
Proof.
  induction s as [|c s IH]; [reflexivity|].
  rewrite app_cons. simpl. by rewrite IH.
Qed.

Lemma startswith_app p r : startswith p (p +:+ r) = true.
Proof.
  induction p as [|c p IH]; [reflexivity|].
  rewrite app_cons. simpl. by rewrite Ascii.eqb_refl.
Qed.

Lemma startswith_inv p s : startswith p s = true -> exists r, s = p +:+ r.
Proof.
  revert s. induction p as [|c p IH]; intros s H.
  - by exists s.
  - destruct s as [|b s]; simpl in H; [discriminate|].
    destruct (Ascii.eqb c b) eqn:E; [|discriminate].
    apply Ascii.eqb_eq in E as ->.
    destruct (IH _ H) as [r ->]. by exists r.
Qed.

(** [startswith] only looks at the first [length p] characters. *)
Lemma startswith_app_long p u v :
  String.length p <= String.length u -> startswith p (u +:+ v) = startswith p u.
Proof.
  revert u. induction p as [|c p IH]; intros u H; [reflexivity|].
  destruct u as [|b u]; simpl in H; [lia|].
  rewrite app_cons. simpl. destruct (Ascii.eqb c b); [|reflexivity].
  apply IH. lia.
Qed.

Lemma contains_cons sub c s :
  contains sub (String c s) = startswith sub (String c s) || contains sub s.
Proof. reflexivity. Qed.

(** [sub in s] holds exactly when [s] splits around a copy of [sub]. *)
Lemma contains_iff sub s :
  contains sub s = true <-> exists a b, s = a +:+ sub +:+ b.
Proof.
  split.
  - induction s as [|c s IH]; simpl; intros H.
    + apply startswith_inv in H as [r Hr]. exists "", r. exact Hr.
    + apply orb_true_iff in H as [H|H].
      * apply startswith_inv in H as [r Hr]. exists "", r. exact Hr.
      * destruct (IH H) as (a & b & ->). by exists (String c a), b.
  - intros (a & b & ->). induction a as [|c a IH].
    + rewrite app_nil_l. destruct sub as [|c sub].
      * by destruct b.
      * rewrite app_cons, contains_cons, <- app_cons.
        by rewrite startswith_app.
    + rewrite app_cons, contains_cons, IH. by rewrite orb_true_r.
Qed.

Lemma contains_false_iff sub s :
  contains sub s = false <-> ~ exists a b, s = a +:+ sub +:+ b.
Proof.
  rewrite <- contains_iff. destruct (contains sub s); split; congruence.
Qed.

Lemma but_last_snoc s : s <> "" -> exists c, s = but_last s +:+ String c "".
Proof.
  induction s as [|c s IH]; [done|]. intros _.
  destruct s as [|c' s].
  - by exists c.
  - destruct IH as [l Hl]; [done|]. exists l.
    change (but_last (String c (String c' s))) with (String c (but_last (String c' s))).
    rewrite app_cons. by rewrite <- Hl.
Qed.

Lemma length_but_last s : s <> "" -> S (String.length (but_last s)) = String.length s.
Proof.
  intros H. destruct (but_last_snoc s H) as [c Hc].
  rewrite Hc at 2. rewrite length_app. simpl. lia.
Qed.

(** Passing over the rest of a replaced occurrence. *)
Lemma replace_scan_skip old new a s :
  replace_scan old new (String.length a) (a +:+ s) = replace_scan old new 0 s.
Proof.
  induction a as [|c a IH]; [reflexivity|].
  rewrite app_cons. simpl. apply IH.
Qed.

Lemma replace_scan_cons old new c s :
  replace_scan old new 0 (String c s) =
  if startswith old (String c s)
  then new +:+ replace_scan old new (String.length old - 1) s
  else String c (replace_scan old new 0 s).
Proof. reflexivity. Qed.

(** The three equations of [str.replace] for a non-empty [old]. *)
Lemma replace_nil old new : replace old new "" = match old with "" => new | _ => "" end.
Proof. by destruct old. Qed.

Lemma replace_match old new rest :
  old <> "" -> replace old new (old +:+ rest) = new +:+ replace old new rest.
Proof.
  intros H. destruct old as [|c old]; [done|]. unfold replace.
  rewrite app_cons, replace_scan_cons, <- app_cons, startswith_app.
  assert (String.length (String c old) - 1 = String.length old) as -> by (simpl; lia).
  by rewrite replace_scan_skip.
Qed.

Lemma replace_step old new c s :
  old <> "" -> startswith old (String c s) = false ->
  replace old new (String c s) = String c (replace old new s).
Proof.
  intros H Hs. destruct old as [|c' old]; [done|]. unfold replace.
  by rewrite replace_scan_cons, Hs.
Qed.

Lemma replace_absent old new s :
  old <> "" -> contains old s = false -> replace old new s = s.
Proof.
  intros H. induction s as [|c s IH]; intros Hc.
  - by destruct old.
  - simpl in Hc. apply orb_false_iff in Hc as [H1 H2].
    rewrite replace_step by done. by rewrite IH.
Qed.

(** The leftmost occurrence is replaced and the scan goes on behind it. *)
Lemma replace_first old new a rest :
  old <> "" -> contains old (a +:+ but_last old) = false ->
  replace old new (a +:+ old +:+ rest) = a +:+ new +:+ replace old new rest.
Proof.
  intros H. induction a as [|c a IH]; intros Hc.
  - rewrite !app_nil_l. by apply replace_match.
  - rewrite !app_cons. rewrite app_cons in Hc. simpl in Hc.
    apply orb_false_iff in Hc as [H1 H2].
    rewrite replace_step; [by rewrite IH|done|].
    destruct (but_last_snoc old H) as [l Hl].
    rewrite Hl at 2. rewrite app_assoc, <- (app_assoc a), <- app_cons.
    rewrite startswith_app_long; [done|].
    simpl. rewrite length_app. pose proof (length_but_last old H). lia.
Qed.

(** Every occurrence written between the segments is replaced. *)
Lemma replace_join old new segs :
  old <> "" -> separated old segs = true ->
  replace old new (join old segs) = join new segs.
Proof.
  intros H. induction segs as [|x rest IH]; intros Hs.
  - by destruct old.
  - destruct rest as [|y rest].
    + simpl in *. apply replace_absent; [done|]. by apply negb_true_iff.
    + change (join old (x :: y :: rest)) with (x +:+ old +:+ join old (y :: rest)).
      change (join new (x :: y :: rest)) with (x +:+ new +:+ join new (y :: rest)).
      change (separated old (x :: y :: rest))
        with (negb (contains old (x +:+ but_last old)) && separated old (y :: rest)) in Hs.
      apply andb_true_iff in Hs as [H1 H2]. apply negb_true_iff in H1.
      rewrite replace_first by done. by rewrite IH.
Qed.

Example replace_disk_name :
  replace "foo/bar" "baz/qux" "/mnt/foo/bar/configs" = "/mnt/baz/qux/configs".
Proof. reflexivity. Qed.

Example contains_needs_separator : contains "foo/bar" "/mnt/foobar/configs" = false.
Proof. reflexivity. Qed.

Example replace_no_overlap : replace "aa" "b" "aaa" = "ba".
Proof. reflexivity. Qed.

Example replace_empty_old : replace "" "-" "abc" = "-a-b-c-".
Proof. reflexivity. Qed.

Example replace_separators : replace "/" "\" "foo/bar/baz" = "foo\bar\baz".
Proof. reflexivity. Qed.

End PyStrFacts.

(** ** The state-and-error monad *)

Section MonadFacts.
Context {X : Type}.

Lemma bind_Ok {A B} (m : M X A) (k : A -> M X B) w a w' :
  m w = (Ok a, w') -> bind m k w = k a w'.
Proof. unfold bind. by intros ->. Qed.

Lemma bind_Raise {A B} (m : M X A) (k : A -> M X B) w e w' :
  m w = (Raise e, w') -> bind m k w = (Raise e, w').
Proof. unfold bind. by intros ->. Qed.

Lemma bind_read {A B} (f : X -> result A) (k : A -> M X B) w :
  bind (read f) k w =
  match f (w_ext w) with Ok a => k a w | Raise e => (Raise e, w) end.
Proof. reflexivity. Qed.

Lemma bind_lift {A B} (r : result A) (k : A -> M X B) w :
  bind (lift r) k w = match r with Ok a => k a w | Raise e => (Raise e, w) end.
Proof. reflexivity. Qed.

Lemma bind_log {B} lvl msg (k : unit -> M X B) (w : World X) :
  bind (log_msg lvl msg) k w =
  k tt (mkWorld (w_umask w) (w_ext w) (w_log w ++ [(lvl, msg)]) (w_calls w)).
Proof. reflexivity. Qed.

Lemma bind_ret {A B} (a : A) (k : A -> M X B) w : bind (ret a) k w = k a w.
Proof. reflexivity. Qed.

Lemma bind_assoc {A B C} (m : M X A) (k1 : A -> M X B) (k2 : B -> M X C) w :
  bind (bind m k1) k2 w = bind m (fun a => bind (k1 a) k2) w.
Proof. unfold bind. by destruct (m w) as [[a|e] w1]. Qed.

End MonadFacts.

Lemma elem_of_platforms (platform : string) :
  platform ∈ platforms ->
  platform = "darwin" \/ platform = "linux2" \/ platform = "win32".
Proof.
  unfold platforms. rewrite !elem_of_cons, elem_of_nil. tauto.
Qed.

(** ** [get_default_configuration_location] *)

Section LocationFacts.
Context {X : Type}.
Context `{!ParameterStore X, !OsInterface X, !ShotgunApi X,
          !PipelineConfigUtils X, !SetupRoutines X}.

(** The condition of the [if] never raises: an absent path is falsy and
    ends the test before the membership operator sees it. *)
Lemma present_and_contains_run (path : option string) (old : string) :
  present_and_contains path old =
  Ok (match path with
      | Some p => negb (String.eqb p "") && PyStr.contains old p
      | None => false
      end).
Proof. destruct path as [[|c p]|]; reflexivity. Qed.

Lemma suggest_run key (path : option string) old new
    (sd : gmap string (option string)) (w : World X) :
  sd !! key = Some None ->
  suggest key path old new sd w =
  (Ok (<[key := suggested path old new]> sd), w).
Proof.
  intros Hk. unfold suggest, suggested.
  rewrite bind_lift, present_and_contains_run.
  destruct path as [p|]; [|by rewrite insert_id].
  destruct (negb (String.eqb p "") && PyStr.contains old p); [reflexivity|].
  by rewrite insert_id.
Qed.

Lemma basis_record_state self (w : World X) : snd (basis_record self w) = w.
Proof.
  unfold basis_record. rewrite bind_read.
  destruct (get_configuration_shotgun_info (w_ext w)) as [[d|]|e]; reflexivity.
Qed.

(** The dictionary the function returns when a basis record is found. *)
Lemma location_from_basis self (w : World X) new data old :
  get_project_disk_name (w_ext w) = Ok (Some new) ->
  fst (basis_record self w) = Ok (Some data) ->
  project_tank_name data = Some old ->
  exists w',
    get_default_configuration_location self w =
    (Ok (<["win32" := suggested (windows_path data)
                        (PyStr.replace "/" "\" old) (PyStr.replace "/" "\" new)]>
         (<["linux2" := suggested (linux_path data) old new]>
          (<["darwin" := suggested (mac_path data) old new]> all_none))), w')
    /\ w_ext w' = w_ext w /\ w_umask w' = w_umask w /\ w_calls w' = w_calls w.
Proof.
  intros Hnew Hbasis Hold.
  pose proof (basis_record_state self w) as Hst.
  destruct (basis_record self w) as [r wb] eqn:Hb. simpl in Hbasis, Hst. subst r wb.
  unfold get_default_configuration_location.
  rewrite bind_read, Hnew. simpl receiver. rewrite bind_lift.
  rewrite (bind_Ok _ _ _ _ _ Hb). rewrite bind_log, Hold.
  simpl receiver. rewrite bind_lift.
  erewrite bind_Ok; [|by apply suggest_run].
  erewrite bind_Ok; [|apply suggest_run; by rewrite lookup_insert_ne].
  erewrite bind_Ok; [|apply suggest_run; by rewrite !lookup_insert_ne].
  eexists. split; [reflexivity|done].
Qed.

Lemma location_lookup self (w : World X) new data old :
  get_project_disk_name (w_ext w) = Ok (Some new) ->
  fst (basis_record self w) = Ok (Some data) ->
  project_tank_name data = Some old ->
  exists d w',
    get_default_configuration_location self w = (Ok d, w') /\
    forall platform, platform ∈ platforms ->
      d !! platform =
      Some (suggested (stored_path data platform)
                      (platform_form platform old) (platform_form platform new)).
Proof.
  intros Hnew Hbasis Hold.
  destruct (location_from_basis self w new data old Hnew Hbasis Hold)
    as (w' & Hrun & _).
  eexists _, w'. split; [exact Hrun|].
  intros platform Hp.
  apply elem_of_platforms in Hp as [Hp|[Hp|Hp]]; subst platform;
    unfold stored_path, platform_form; simpl String.eqb; cbv iota.
  - rewrite !lookup_insert_ne by done. by rewrite lookup_insert_eq.
  - rewrite lookup_insert_ne by done. by rewrite lookup_insert_eq.
  - by rewrite lookup_insert_eq.
Qed.

(** C2: the basis record is resolved in three tiers.  The record the
    template is linked to is the basis; without one, the basis is what
    [find_one] returns for the primary pipeline configurations sorted by
    creation date, latest first; and with no basis at all the function
    returns the dictionary that maps the three platform keys to [None].
    With a basis, the result is computed from that record. *)
Theorem default_location_three_tiers self (w : World X) :
  (forall data,
     get_configuration_shotgun_info (w_ext w) = Ok (Some data) ->
     basis_record self w = (Ok (Some data), w)) /\
  (get_configuration_shotgun_info (w_ext w) = Ok None ->
   basis_record self w =
   (find_one (_sg self)
      (mkQuery "PipelineConfiguration" [("code", "is", "primary")]
               ["id"; "mac_path"; "windows_path"; "linux_path"; "project";
                "project.Project.tank_name"]
               [("created_at", "desc")])
      (w_ext w), w)) /\
  (forall new,
     get_project_disk_name (w_ext w) = Ok (Some new) ->
     fst (basis_record self w) = Ok None ->
     exists d w',
       get_default_configuration_location self w = (Ok d, w') /\
       dom d = list_to_set platforms /\
       forall platform, platform ∈ platforms -> d !! platform = Some None) /\
  (forall new data old,
     get_project_disk_name (w_ext w) = Ok (Some new) ->
     fst (basis_record self w) = Ok (Some data) ->
     project_tank_name data = Some old ->
     exists d w',
       get_default_configuration_location self w = (Ok d, w') /\
       forall platform, platform ∈ platforms ->
         d !! platform =
         Some (suggested (stored_path data platform)
                         (platform_form platform old) (platform_form platform new))).
Proof.
  repeat split.
  - intros data H. unfold basis_record. by rewrite bind_read, H.
  - intros H. unfold basis_record. by rewrite bind_read, H.
  - intros new Hnew Hbasis.
    pose proof (basis_record_state self w) as Hst.
    destruct (basis_record self w) as [r wb] eqn:Hb. simpl in Hbasis, Hst. subst r wb.
    unfold get_default_configuration_location.
    rewrite bind_read, Hnew. simpl receiver. rewrite bind_lift.
    rewrite (bind_Ok _ _ _ _ _ Hb). rewrite bind_log.
    eexists _, _. split; [reflexivity|]. split.
    + unfold all_none, platforms. rewrite !dom_insert_L, dom_empty_L. simpl. set_solver.
    + intros platform Hp.
      apply elem_of_platforms in Hp as [Hp|[Hp|Hp]]; subst platform; reflexivity.
  - intros new data old. apply location_lookup.
Qed.

(** C9: when the stored path of a platform is made of segments joined by
    the old disk name, so that the name occurs once between every two
    segments, every one of these occurrences is replaced: the suggestion is
    the same segments joined by the new name. *)
Theorem default_location_replaces_every_occurrence
    self (w : World X) new data old platform segs :
  get_project_disk_name (w_ext w) = Ok (Some new) ->
  fst (basis_record self w) = Ok (Some data) ->
  project_tank_name data = Some old ->
  platform ∈ platforms ->
  platform_form platform old <> "" ->
  2 <= length segs ->
  PyStr.separated (platform_form platform old) segs = true ->
  stored_path data platform = Some (PyStr.join (platform_form platform old) segs) ->
  exists d w',
    get_default_configuration_location self w = (Ok d, w') /\
    d !! platform = Some (Some (PyStr.join (platform_form platform new) segs)).
Proof.
  intros Hnew Hbasis Hold Hp Hne Hlen Hsep Hpath.
  destruct (location_lookup self w new data old Hnew Hbasis Hold)
    as (d & w' & Hrun & Hd).
  exists d, w'. split; [exact Hrun|].
  rewrite (Hd platform Hp), Hpath. unfold suggested.
  destruct segs as [|x [|y rest]]; simpl in Hlen; [lia..|].
  set (o := platform_form platform old) in *.
  assert (PyStr.contains o (PyStr.join o (x :: y :: rest)) = true) as Hc.
  { apply PyStrFacts.contains_iff. by exists x, (PyStr.join o (y :: rest)). }
  assert (PyStr.join o (x :: y :: rest) <> "") as Hj.
  { change (PyStr.join o (x :: y :: rest)) with (x +:+ o +:+ PyStr.join o (y :: rest)).
    destruct x; [|done]. rewrite PyStrFacts.app_nil_l. by destruct o. }
  apply String.eqb_neq in Hj. rewrite Hj, Hc. simpl andb. cbv iota.
  by rewrite PyStrFacts.replace_join.
Qed.

(** C10: with a basis record whose stored path for a platform is absent
    ([None] or empty), the function returns normally and the suggestion
    for that platform is [None].  The condition of the [if] is false
    without raising, although the membership test alone raises on [None]:
    the presence check comes first and ends the test. *)
Theorem default_location_absent_path self (w : World X) new data old platform :
  get_project_disk_name (w_ext w) = Ok (Some new) ->
  fst (basis_record self w) = Ok (Some data) ->
  project_tank_name data = Some old ->
  platform ∈ platforms ->
  absent (stored_path data platform) ->
  (exists d w',
     get_default_configuration_location self w = (Ok d, w') /\
     d !! platform = Some None) /\
  present_and_contains (stored_path data platform) (platform_form platform old)
  = Ok false /\
  (stored_path data platform = None ->
   exists e, py_in (platform_form platform old) (stored_path data platform) = Raise e).
Proof.
  intros Hnew Hbasis Hold Hp Habs.
  destruct (location_lookup self w new data old Hnew Hbasis Hold)
    as (d & w' & Hrun & Hd).
  repeat split.
  - exists d, w'. split; [exact Hrun|].
    rewrite (Hd platform Hp). by destruct Habs as [-> | ->].
  - by destruct Habs as [-> | ->].
  - intros ->. by eexists.
Qed.

End LocationFacts.

(** ** [preview_project_paths] *)

Section PreviewFacts.
Context {X : Type}.
Context `{!ParameterStore X, !OsInterface X, !ShotgunApi X,
          !PipelineConfigUtils X, !SetupRoutines X}.

Lemma preview_storage_state name s rd (w : World X) :
  snd (preview_storage name s rd w) = w.
Proof.
  unfold preview_storage. rewrite bind_read.
  destruct (preview_project_path s name "darwin" (w_ext w)); [|reflexivity].
  rewrite bind_read.
  destruct (preview_project_path s name "win32" (w_ext w)); [|reflexivity].
  rewrite bind_read.
  by destruct (preview_project_path s name "linux2" (w_ext w)).
Qed.

Lemma preview_loop_state name storages rd (w : World X) :
  snd (preview_loop name storages rd w) = w.
Proof.
  revert rd. induction storages as [|s rest IH]; intros rd; [reflexivity|].
  simpl. unfold bind.
  pose proof (preview_storage_state name s rd w) as Hs.
  destruct (preview_storage name s rd w) as [[rd'|e] w1]; simpl in Hs; subst w1.
  - apply IH.
  - reflexivity.
Qed.

Lemma preview_project_paths_state self name (w : World X) :
  snd (preview_project_paths self name w) = w.
Proof.
  unfold preview_project_paths. rewrite bind_read.
  destruct (get_required_storages (w_ext w)); [|reflexivity].
  apply preview_loop_state.
Qed.

Lemma preview_storage_run name s rd (w : World X) v1 v2 v3 :
  preview_project_path s name "darwin" (w_ext w) = Ok v1 ->
  preview_project_path s name "win32" (w_ext w) = Ok v2 ->
  preview_project_path s name "linux2" (w_ext w) = Ok v3 ->
  preview_storage name s rd w = (Ok (<[s := platform_dict v1 v2 v3]> rd), w).
Proof.
  intros H1 H2 H3. unfold preview_storage.
  rewrite bind_read, H1, bind_read, H2, bind_read, H3.
  unfold ret, platform_dict. by rewrite !alter_insert_eq.
Qed.

Lemma preview_loop_run name storages
    (paths : string -> string -> option string) rd (w : World X) :
  (forall s platform, s ∈ storages -> platform ∈ platforms ->
     preview_project_path s name platform (w_ext w) = Ok (paths s platform)) ->
  exists d,
    preview_loop name storages rd w = (Ok d, w) /\
    forall s,
      d !! s =
      if decide (s ∈ storages)
      then Some (platform_dict (paths s "darwin") (paths s "win32") (paths s "linux2"))
      else rd !! s.
Proof.
  revert rd. induction storages as [|s0 rest IH]; intros rd Hp.
  - exists rd. split; [reflexivity|]. intros s. by rewrite decide_False by set_solver.
  - assert (forall platform, platform ∈ platforms ->
              preview_project_path s0 name platform (w_ext w) = Ok (paths s0 platform))
      as H0 by (intros; apply Hp; [set_solver|done]).
    destruct (IH (<[s0 := platform_dict (paths s0 "darwin") (paths s0 "win32")
                             (paths s0 "linux2")]> rd)) as (d & Hrun & Hd).
    { intros s platform Hs Hpl. apply Hp; [set_solver|done]. }
    exists d. split.
    + simpl. erewrite bind_Ok; [exact Hrun|].
      apply preview_storage_run; apply H0; unfold platforms; set_solver.
    + intros s. rewrite Hd.
      destruct (decide (s ∈ rest)) as [Hin|Hout].
      * by rewrite decide_True by set_solver.
      * destruct (decide (s = s0)) as [->|Hne].
        -- rewrite decide_True by set_solver. by rewrite lookup_insert_eq.
        -- rewrite decide_False by set_solver. by rewrite lookup_insert_ne.
Qed.

Lemma dom_platform_dict v1 v2 v3 : dom (platform_dict v1 v2 v3) = list_to_set platforms.
Proof.
  unfold platform_dict, platforms. rewrite !dom_insert_L, dom_empty_L. simpl. set_solver.
Qed.

(** C6: when the template has the required storages [storages] and the
    parameter store previews a path for each of them on each platform, the
    result has exactly one entry per storage, each with exactly the keys
    [darwin], [win32] and [linux2] and the previewed paths as values.  In
    every case the call leaves the world as it found it, so that a second
    call gives the same result. *)
Theorem preview_project_paths_entries self name (w : World X) storages
    (paths : string -> string -> option string) :
  get_required_storages (w_ext w) = Ok storages ->
  (forall s platform, s ∈ storages -> platform ∈ platforms ->
     preview_project_path s name platform (w_ext w) = Ok (paths s platform)) ->
  (exists d,
     preview_project_paths self name w = (Ok d, w) /\
     dom d = list_to_set storages /\
     (NoDup storages -> size d = length storages) /\
     forall s, s ∈ storages ->
       exists inner,
         d !! s = Some inner /\
         dom inner = list_to_set platforms /\
         forall platform, platform ∈ platforms ->
           inner !! platform = Some (paths s platform)) /\
  (forall w0 : World X, snd (preview_project_paths self name w0) = w0) /\
  (forall w0 : World X,
     preview_project_paths self name (snd (preview_project_paths self name w0))
     = preview_project_paths self name w0).
Proof.
  intros Hs Hp. split; [|split].
  - destruct (preview_loop_run name storages paths ∅ w Hp) as (d & Hrun & Hd).
    exists d.
    assert (dom d = list_to_set storages) as Hdom.
    { apply set_eq. intros s. rewrite elem_of_dom, Hd, elem_of_list_to_set.
      destruct (decide (s ∈ storages)) as [Hin|Hout].
      - split; [done|]. by eexists.
      - rewrite lookup_empty. split; [by intros [? ?]|done]. }
    split; [|split; [exact Hdom|split]].
    + unfold preview_project_paths. by rewrite bind_read, Hs.
    + intros Hnd. rewrite <- size_dom, Hdom. by apply size_list_to_set.
    + intros s Hin. eexists. split; [by rewrite Hd, decide_True|].
      split; [apply dom_platform_dict|].
      intros platform Hpl.
      apply elem_of_platforms in Hpl as [Hpl|[Hpl|Hpl]]; subst platform; reflexivity.
  - intros w0. apply preview_project_paths_state.
  - intros w0. by rewrite preview_project_paths_state.
Qed.

End PreviewFacts.

(** ** Relations kept by every run *)

Section Preserves.
Context {X : Type} (I : World X -> World X -> Prop).
Context (I_refl : forall w, I w w).
Context (I_trans : forall w1 w2 w3, I w1 w2 -> I w2 w3 -> I w1 w3).

Lemma preserves_ret {A} (a : A) : preserves I (ret a).
Proof. intros w. apply I_refl. Qed.

Lemma preserves_raise {A} e : preserves I (@raise X A e).
Proof. intros w. apply I_refl. Qed.

Lemma preserves_lift {A} (r : result A) : preserves I (lift r).
Proof. intros w. apply I_refl. Qed.

Lemma preserves_read {A} (f : X -> result A) : preserves I (read f).
Proof. intros w. apply I_refl. Qed.

Lemma preserves_bind {A B} (m : M X A) (k : A -> M X B) :
  preserves I m -> (forall a, preserves I (k a)) -> preserves I (bind m k).
Proof.
  intros Hm Hk w. unfold bind. specialize (Hm w).
  destruct (m w) as [[a|e] w1]; simpl in *; [|done].
  eapply I_trans; [exact Hm|apply Hk].
Qed.

Lemma preserves_for_each {A} (l : list A) (body : A -> M X unit) :
  (forall a, preserves I (body a)) -> preserves I (for_each l body).
Proof.
  intros Hb. induction l as [|a l IH]; simpl.
  - apply preserves_ret.
  - apply preserves_bind; [apply Hb|by intros _].
Qed.

End Preserves.

Section CallFacts.
Context {X : Type}.

Lemma extends_calls_refl (P : event -> Prop) (w : World X) : extends_calls P w w.
Proof. exists []. by rewrite List.app_nil_r. Qed.

Lemma extends_calls_trans (P : event -> Prop) (w1 w2 w3 : World X) :
  extends_calls P w1 w2 -> extends_calls P w2 w3 -> extends_calls P w1 w3.
Proof.
  intros (e1 & H1 & F1) (e2 & H2 & F2). exists (e1 ++ e2).
  split; [by rewrite H2, H1, List.app_assoc|by apply Forall_app].
Qed.

Lemma umask_kept_refl (w : World X) : umask_kept w w.
Proof. split; [done|apply extends_calls_refl]. Qed.

Lemma umask_kept_trans (w1 w2 w3 : World X) :
  umask_kept w1 w2 -> umask_kept w2 w3 -> umask_kept w1 w3.
Proof.
  intros [U1 C1] [U2 C2]. split; [congruence|by eapply extends_calls_trans].
Qed.

Lemma extends_calls_log (P : event -> Prop) lvl msg :
  preserves (extends_calls P) (@log_msg X lvl msg).
Proof. intros w. exists []. simpl. by rewrite List.app_nil_r. Qed.

Lemma umask_kept_log lvl msg : preserves umask_kept (@log_msg X lvl msg).
Proof. intros w. split; [done|apply extends_calls_log]. Qed.

Lemma extends_calls_call {A} (P : event -> Prop) ev (f : X -> result A * X) :
  P ev -> preserves (extends_calls P) (call ev f).
Proof.
  intros HP w. unfold call. destruct (f (w_ext w)) as [r x'].
  exists [ev]. simpl. split; [done|by constructor].
Qed.

Lemma umask_kept_call {A} ev (f : X -> result A * X) :
  makedirs_cleared ev -> preserves umask_kept (call ev f).
Proof.
  intros HP w. split; [|by apply extends_calls_call].
  unfold call. by destruct (f (w_ext w)).
Qed.

End CallFacts.

(** ** [set_project_disk_name] *)

Section DiskNameFacts.
Context {X : Type}.
Context `{!ParameterStore X, !OsInterface X, !ShotgunApi X,
          !PipelineConfigUtils X, !SetupRoutines X}.

Lemma path_exists_state p (w : World X) : snd (path_exists p w) = w.
Proof. by destruct p. Qed.

(** The guarded block: the umask is cleared, the directory is created and
    the umask is put back, whether [os.makedirs] returns or raises. *)
Lemma guarded_makedirs_umask p (k : M X unit) :
  preserves umask_kept k ->
  preserves umask_kept
    (old_umask <- os_umask 0 ;;
     try_finally (makedirs p 511) (_ <- os_umask old_umask ;; ret tt) ;;; k).
Proof.
  intros Hk [u x l c]. unfold bind at 1, os_umask at 1. simpl.
  unfold bind at 1, try_finally, makedirs.
  destruct p as [s|].
  - unfold call. simpl. destruct (os_makedirs s 511 0 x) as [[[]|e] x']; simpl.
    + destruct (Hk (mkWorld u x' l (c ++ [EvMakedirs s 511 0])))
        as [Hu (evs & Hc & Hf)]. simpl in *.
      split; [exact Hu|]. exists (EvMakedirs s 511 0 :: evs). simpl.
      split; [by rewrite Hc, <- List.app_assoc|].
      constructor; [by split|done].
    + split; [done|]. exists [EvMakedirs s 511 0]. simpl.
      split; [done|]. constructor; [by split|done].
  - simpl. apply umask_kept_refl.
Qed.

Lemma guarded_makedirs_calls p (k : M X unit) :
  preserves (extends_calls is_makedirs) k ->
  preserves (extends_calls is_makedirs)
    (old_umask <- os_umask 0 ;;
     try_finally (makedirs p 511) (_ <- os_umask old_umask ;; ret tt) ;;; k).
Proof.
  intros Hk [u x l c]. unfold bind at 1, os_umask at 1. simpl.
  unfold bind at 1, try_finally, makedirs.
  destruct p as [s|].
  - unfold call. simpl. destruct (os_makedirs s 511 0 x) as [[[]|e] x']; simpl.
    + destruct (Hk (mkWorld u x' l (c ++ [EvMakedirs s 511 0]))) as (evs & Hc & Hf).
      simpl in *. exists (EvMakedirs s 511 0 :: evs). simpl.
      split; [by rewrite Hc, <- List.app_assoc|]. by constructor.
    + exists [EvMakedirs s 511 0]. simpl. split; [done|]. by constructor.
  - simpl. apply extends_calls_refl.
Qed.

Lemma path_exists_preserves (I : World X -> World X -> Prop) p :
  (forall w, I w w) -> preserves I (path_exists p).
Proof. intros Hr w. rewrite path_exists_state. apply Hr. Qed.

Lemma create_project_folder_umask name s :
  preserves umask_kept (create_project_folder name s).
Proof.
  unfold create_project_folder.
  apply (preserves_bind _ umask_kept_trans);
    [apply (preserves_read _ umask_kept_refl)|intros proj_path].
  apply (preserves_bind _ umask_kept_trans);
    [apply path_exists_preserves, umask_kept_refl|intros e].
  destruct (negb e).
  - apply (preserves_bind _ umask_kept_trans); [apply umask_kept_log|intros _].
    apply guarded_makedirs_umask, umask_kept_log.
  - apply umask_kept_log.
Qed.

Lemma create_project_folder_calls name s :
  preserves (extends_calls is_makedirs) (create_project_folder name s).
Proof.
  unfold create_project_folder.
  apply (preserves_bind _ (extends_calls_trans _));
    [apply (preserves_read _ (extends_calls_refl _))|intros proj_path].
  apply (preserves_bind _ (extends_calls_trans _));
    [apply path_exists_preserves, extends_calls_refl|intros e].
  destruct (negb e).
  - apply (preserves_bind _ (extends_calls_trans _));
      [apply extends_calls_log|intros _].
    apply guarded_makedirs_calls, extends_calls_log.
  - apply extends_calls_log.
Qed.

Lemma params_set_project_disk_name_umask name :
  preserves umask_kept (params_set_project_disk_name name).
Proof.
  unfold params_set_project_disk_name.
  apply (preserves_bind _ umask_kept_trans); [by apply umask_kept_call|intros _].
  by apply umask_kept_call.
Qed.

(** C4: whatever [set_project_disk_name] does and however it ends, with
    a value or with an exception of [os.makedirs] or of any other call,
    the umask of the process afterwards is the umask before the call, and
    every [os.makedirs] it made ran with mode [0777] under umask [0]. *)
Theorem set_project_disk_name_restores_umask
    self name create_folders (w : World X) :
  w_umask (snd (set_project_disk_name self name create_folders w)) = w_umask w /\
  exists evs,
    w_calls (snd (set_project_disk_name self name create_folders w))
    = w_calls w ++ evs /\
    Forall makedirs_cleared evs.
Proof.
  assert (preserves umask_kept (set_project_disk_name self name create_folders))
    as Hp; [|exact (Hp w)].
  unfold set_project_disk_name.
  apply (preserves_bind _ umask_kept_trans);
    [|intros _; apply params_set_project_disk_name_umask].
  destruct create_folders; [|apply (preserves_ret _ umask_kept_refl)].
  apply (preserves_bind _ umask_kept_trans); [by apply umask_kept_call|intros _].
  apply (preserves_bind _ umask_kept_trans); [apply umask_kept_log|intros _].
  apply (preserves_bind _ umask_kept_trans);
    [apply (preserves_read _ umask_kept_refl)|intros storages].
  apply (preserves_for_each _ umask_kept_refl umask_kept_trans).
  intros s. apply create_project_folder_umask.
Qed.

Lemma extends_calls_mono (P Q : event -> Prop) (w w' : World X) :
  (forall ev, P ev -> Q ev) -> extends_calls P w w' -> extends_calls Q w w'.
Proof.
  intros HPQ (evs & Hc & Hf). exists evs. split; [done|].
  eapply Forall_impl; [exact Hf|exact HPQ].
Qed.

Lemma is_makedirs_not_store ev : is_makedirs ev -> not_store ev.
Proof. by destruct ev. Qed.

Lemma call_run {A} ev (f : X -> result A * X) (w : World X) :
  call ev f w =
  (fst (f (w_ext w)),
   mkWorld (w_umask w) (snd (f (w_ext w))) (w_log w) (w_calls w ++ [ev])).
Proof. unfold call. by destruct (f (w_ext w)). Qed.

(** The setter of the parameter store, run from [w]. *)
Lemma params_set_project_disk_name_run name (w : World X) :
  params_set_project_disk_name name w =
  match fst (validate_project_disk_name name (w_ext w)) with
  | Ok _ =>
      (Ok tt,
       mkWorld (w_umask w)
         (store_project_disk_name name
            (snd (validate_project_disk_name name (w_ext w))))
         (w_log w)
         (w_calls w ++ [EvValidateDiskName name; EvStoreDiskName name]))
  | Raise e =>
      (Raise e,
       mkWorld (w_umask w) (snd (validate_project_disk_name name (w_ext w)))
         (w_log w) (w_calls w ++ [EvValidateDiskName name]))
  end.
Proof.
  unfold params_set_project_disk_name, bind. rewrite call_run.
  destruct (fst (validate_project_disk_name name (w_ext w))); [|reflexivity].
  rewrite call_run. simpl. by rewrite <- List.app_assoc.
Qed.

(** The folder creation of [set_project_disk_name] stores no name. *)
Lemma create_folders_calls name :
  preserves (extends_calls not_store)
    (log_msg Debug "Will try to create project folders on disk..." ;;;
     storages <- read get_required_storages ;;
     for_each storages (create_project_folder name)).
Proof.
  apply (preserves_bind _ (extends_calls_trans _)); [apply extends_calls_log|intros _].
  apply (preserves_bind _ (extends_calls_trans _));
    [apply (preserves_read _ (extends_calls_refl _))|intros storages].
  apply (preserves_for_each _ (extends_calls_refl _) (extends_calls_trans _)).
  intros s w. eapply extends_calls_mono; [apply is_makedirs_not_store|].
  apply create_project_folder_calls.
Qed.

(** [set_project_disk_name] with [create_folders] set, run from [w]. *)
Lemma set_project_disk_name_folders self name (w : World X) :
  set_project_disk_name self name true w =
  match fst (validate_project_disk_name name (w_ext w)) with
  | Ok _ =>
      match
        (log_msg Debug "Will try to create project folders on disk..." ;;;
         storages <- read get_required_storages ;;
         for_each storages (create_project_folder name))
          (mkWorld (w_umask w) (snd (validate_project_disk_name name (w_ext w)))
                   (w_log w) (w_calls w ++ [EvValidateDiskName name]))
      with
      | (Ok _, w2) => params_set_project_disk_name name w2
      | (Raise e, w2) => (Raise e, w2)
      end
  | Raise e =>
      (Raise e,
       mkWorld (w_umask w) (snd (validate_project_disk_name name (w_ext w)))
               (w_log w) (w_calls w ++ [EvValidateDiskName name]))
  end.
Proof.
  unfold set_project_disk_name. unfold bind at 1. unfold bind at 1.
  rewrite call_run.
  by destruct (fst (validate_project_disk_name name (w_ext w))).
Qed.

(** C7: with either value of [create_folders], a disk name reaches the
    parameter store only through a validation of that name that returned
    normally, made immediately before the store; a run that raises stores
    nothing; and a name whose validation raises makes the call raise that
    error after this one validation call. *)
Theorem set_project_disk_name_validates_first
    self name create_folders (w : World X) :
  exists evs,
    w_calls (snd (set_project_disk_name self name create_folders w))
    = w_calls w ++ evs /\
    ((fst (set_project_disk_name self name create_folders w) = Ok tt /\
      (exists pre,
         evs = pre ++ [EvValidateDiskName name; EvStoreDiskName name] /\
         Forall not_store pre) /\
      exists x,
        fst (validate_project_disk_name name x) = Ok tt /\
        w_ext (snd (set_project_disk_name self name create_folders w))
        = store_project_disk_name name (snd (validate_project_disk_name name x)))
     \/
     (exists e,
        fst (set_project_disk_name self name create_folders w) = Raise e /\
        Forall not_store evs)) /\
    (forall e,
       fst (validate_project_disk_name name (w_ext w)) = Raise e ->
       fst (set_project_disk_name self name create_folders w) = Raise e /\
       evs = [EvValidateDiskName name]).
Proof.
  assert (forall (w1 : World X) pre,
            w_calls w1 = w_calls w ++ pre -> Forall not_store pre ->
            exists evs,
              w_calls (snd (params_set_project_disk_name name w1)) = w_calls w ++ evs /\
              ((fst (params_set_project_disk_name name w1) = Ok tt /\
                (exists pre,
                   evs = pre ++ [EvValidateDiskName name; EvStoreDiskName name] /\
                   Forall not_store pre) /\
                exists x,
                  fst (validate_project_disk_name name x) = Ok tt /\
                  w_ext (snd (params_set_project_disk_name name w1))
                  = store_project_disk_name name
                      (snd (validate_project_disk_name name x)))
               \/
               (exists e,
                  fst (params_set_project_disk_name name w1) = Raise e /\
                  Forall not_store evs)) /\
              (forall e,
                 fst (validate_project_disk_name name (w_ext w1)) = Raise e ->
                 fst (params_set_project_disk_name name w1) = Raise e /\
                 evs = pre ++ [EvValidateDiskName name])) as Hset.
  { intros w1 pre Hc Hpre. rewrite params_set_project_disk_name_run.
    destruct (fst (validate_project_disk_name name (w_ext w1))) as [[]|e] eqn:Ev.
    - exists (pre ++ [EvValidateDiskName name; EvStoreDiskName name]). simpl.
      split; [by rewrite Hc, List.app_assoc|]. split; [|done].
      left. split; [done|]. split; [by exists pre|]. by exists (w_ext w1).
    - exists (pre ++ [EvValidateDiskName name]). simpl.
      split; [by rewrite Hc, List.app_assoc|]. split.
      + right. exists e. split; [done|]. apply Forall_app. split; [done|].
        by repeat constructor.
      + by intros e' [= <-]. }
  destruct create_folders.
  - rewrite set_project_disk_name_folders.
    destruct (fst (validate_project_disk_name name (w_ext w))) as [[]|e] eqn:Ev.
    + set (w1 := mkWorld _ _ _ _).
      destruct (create_folders_calls name w1) as (evs1 & Hc1 & Hf1).
      match type of Hc1 with
      | w_calls (snd (?m w1)) = _ => destruct (m w1) as [[[]|e] w2] eqn:ER
      end; simpl in Hc1.
      * destruct (Hset w2 (EvValidateDiskName name :: evs1)) as (evs & Hc & Hcase & _).
        { by rewrite Hc1, <- List.app_assoc. }
        { constructor; [done|exact Hf1]. }
        exists evs. split; [exact Hc|]. split; [exact Hcase|]. by intros e.
      * exists (EvValidateDiskName name :: evs1). simpl.
        split; [by rewrite Hc1, <- List.app_assoc|]. split; [|by intros e'].
        right. exists e. split; [done|]. constructor; [done|exact Hf1].
    + exists [EvValidateDiskName name]. simpl. split; [done|]. split.
      * right. exists e. split; [done|]. by repeat constructor.
      * by intros e' [= <-].
  - unfold set_project_disk_name. rewrite bind_ret.
    destruct (Hset w []) as (evs & Hc & Hcase & Hv);
      [by rewrite List.app_nil_r|done|].
    exists evs. split; [exact Hc|]. split; [exact Hcase|exact Hv].
Qed.

End DiskNameFacts.

(** ** [execute] *)

Section ExecuteFacts.
Context {X : Type}.
Context `{!ParameterStore X, !OsInterface X, !ShotgunApi X,
          !PipelineConfigUtils X, !SetupRoutines X}.

Lemma only_logs_refl (w : World X) : only_logs w w.
Proof. done. Qed.

Lemma only_logs_trans (w1 w2 w3 : World X) :
  only_logs w1 w2 -> only_logs w2 w3 -> only_logs w1 w3.
Proof. intros (?&?&?) (?&?&?). repeat split; congruence. Qed.

Lemma only_logs_log lvl msg : preserves only_logs (@log_msg X lvl msg).
Proof. by intros w. Qed.

Local Ltac logs_only :=
  repeat first
    [ apply only_logs_log
    | apply (preserves_ret _ only_logs_refl)
    | apply (preserves_read _ only_logs_refl)
    | apply (preserves_lift _ only_logs_refl)
    | apply (preserves_raise _ only_logs_refl)
    | apply (path_exists_preserves _ _ only_logs_refl)
    | apply (preserves_bind _ only_logs_trans); [|intros ?]
    | match goal with
      | |- preserves _ (match ?v with _ => _ end) => destruct v
      | |- preserves _ (if ?v then _ else _) => destruct v
      end ].

Lemma resolve_core_only_logs self : preserves only_logs (resolve_core self).
Proof. unfold resolve_core. logs_only. Qed.

(** The root path field that [lookup] selects on a supported platform. *)
Lemma lookup_platform (data : PcRecord) (platform : string) :
  platform ∈ platforms ->
  exists field,
    lookup !! platform = Some field /\
    pc_getitem data field = Ok (stored_path data platform).
Proof.
  intros Hp. apply elem_of_platforms in Hp as [Hp|[Hp|Hp]]; subst platform;
    eexists; (split; [reflexivity|reflexivity]).
Qed.

Lemma basis_record_inv self (w : World X) basis :
  fst (basis_record self w) = Ok basis ->
  (exists d, get_configuration_shotgun_info (w_ext w) = Ok (Some d) /\ basis = Some d) \/
  (get_configuration_shotgun_info (w_ext w) = Ok None /\
   find_one (_sg self) primary_query (w_ext w) = Ok basis).
Proof.
  unfold basis_record. rewrite bind_read.
  destruct (get_configuration_shotgun_info (w_ext w)) as [[d|]|e]; simpl.
  - intros [= <-]. left. by exists d.
  - intros H. by right.
  - done.
Qed.

(** The decision [resolve_core] takes, once the running core and the
    basis record are known. *)
Lemma resolve_core_run self (w : World X) cur d0 basis :
  get_path_to_current_core (w_ext w) = Ok cur ->
  resolve_all_os_paths_to_core (Some cur) (w_ext w) = Ok d0 ->
  fst (basis_record self w) = Ok basis ->
  sys_platform ∈ platforms ->
  fst (resolve_core self w) =
  match basis with
  | None => Ok (d0, true)
  | Some data =>
      let root := stored_path data sys_platform in
      if PyStr.truthy root &&
         match root with Some p => os_path_exists p (w_ext w) | None => false end
      then
        match get_core_path_for_config root (w_ext w) with
        | Ok core =>
            if PyStr.truthy core then
              match resolve_all_os_paths_to_core core (w_ext w) with
              | Ok d1 =>
                  match is_localized root (w_ext w) with
                  | Ok l => Ok (d1, l)
                  | Raise e => Raise e
                  end
              | Raise e => Raise e
              end
            else Ok (d0, true)
        | Raise e => Raise e
        end
      else Ok (d0, true)
  end.
Proof.
  intros Hcur Hd0 Hbasis Hp.
  unfold resolve_core. rewrite bind_log, bind_read. simpl w_ext. rewrite Hcur.
  rewrite bind_read. simpl w_ext. rewrite Hd0.
  rewrite bind_read. simpl w_ext.
  assert (forall d (w1 : World X), w_ext w1 = w_ext w ->
    fst ((field <- lift (getitem lookup sys_platform) ;;
          pipeline_config_root_path <- lift (pc_getitem d field) ;;
          e <- (if PyStr.truthy pipeline_config_root_path
                then path_exists pipeline_config_root_path else ret false) ;;
          if e then
            core_api_root <-
              read (get_core_path_for_config pipeline_config_root_path) ;;
            if PyStr.truthy core_api_root then
              core_path_dict <-
                read (resolve_all_os_paths_to_core core_api_root) ;;
              log_msg Debug ("Will use pipeline configuration here: "
                             +:+ str_of pipeline_config_root_path) ;;;
              log_msg Debug ("This has an associated core here: "
                             +:+ str_of core_api_root) ;;;
              l <- read (is_localized pipeline_config_root_path) ;;
              let localize_api := if l then true else false in
              ret (core_path_dict, localize_api)
            else ret (d0, true)
          else ret (d0, true)) w1) =
    let root := stored_path d sys_platform in
    if PyStr.truthy root &&
       match root with Some p => os_path_exists p (w_ext w) | None => false end
    then
      match get_core_path_for_config root (w_ext w) with
      | Ok core =>
          if PyStr.truthy core then
            match resolve_all_os_paths_to_core core (w_ext w) with
            | Ok d1 =>
                match is_localized root (w_ext w) with
                | Ok l => Ok (d1, l)
                | Raise e => Raise e
                end
            | Raise e => Raise e
            end
          else Ok (d0, true)
      | Raise e => Raise e
      end
    else Ok (d0, true)) as Htail.
  { intros d w1 Hw1.
    destruct (lookup_platform d sys_platform Hp) as (field & Hf & Hg).
    rewrite bind_lift. unfold getitem. rewrite Hf. rewrite bind_lift, Hg.
    cbv zeta. destruct (stored_path d sys_platform) as [p|]; [|reflexivity].
    destruct p as [|c p]; [reflexivity|].
    simpl PyStr.truthy. cbv iota. rewrite andb_true_l.
    unfold bind at 1. unfold path_exists. rewrite Hw1.
    destruct (os_path_exists (String c p) (w_ext w)); [|reflexivity].
    rewrite bind_read, Hw1.
    destruct (get_core_path_for_config (Some (String c p)) (w_ext w))
      as [core|e]; [|reflexivity].
    destruct (PyStr.truthy core); [|reflexivity].
    rewrite bind_read, Hw1.
    destruct (resolve_all_os_paths_to_core core (w_ext w)) as [d1|e]; [|reflexivity].
    rewrite !bind_log, bind_read. simpl w_ext. rewrite Hw1.
    destruct (is_localized (Some (String c p)) (w_ext w)) as [l|e]; [|reflexivity].
    by destruct l. }
  apply basis_record_inv in Hbasis as [(d & Hinfo & ->)|[Hinfo Hfind]];
    rewrite Hinfo.
  - cbv beta iota. rewrite bind_assoc, bind_log, bind_ret. by apply Htail.
  - cbv beta iota. rewrite bind_assoc, bind_read. simpl w_ext. rewrite Hfind.
    destruct basis as [d|].
    + rewrite bind_assoc, bind_log, bind_ret. by apply Htail.
    + by rewrite bind_assoc, bind_log, bind_ret.
Qed.

(** The steps of [execute] behind the resolution of the core, each on
    the state left by the step before. *)
Lemma execute_run self (w : World X) paths loc :
  fst (resolve_core self w) = Ok (paths, loc) ->
  exists u l,
    execute self w =
    let commit := EvSetCorePath (linux2 paths) (win32 paths) (darwin paths) in
    let s1 := set_associated_core_path (linux2 paths) (win32 paths) (darwin paths)
                (w_ext w) in
    match fst s1 with
    | Raise e => (Raise e, mkWorld u (snd s1) l (w_calls w ++ [commit]))
    | Ok _ =>
        let s2 := pre_setup_validation (snd s1) in
        match fst s2 with
        | Raise e =>
            (Raise e,
             mkWorld u (snd s2) l (w_calls w ++ [commit; EvPreSetupValidation]))
        | Ok _ =>
            let s3 := run_project_setup (_sg self) (_sg_app_store self)
                        (_sg_app_store_script_user self) (snd s2) in
            match fst s3 with
            | Raise e =>
                (Raise e,
                 mkWorld u (snd s3) l
                   (w_calls w ++ [commit; EvPreSetupValidation; EvRunProjectSetup]))
            | Ok _ =>
                if loc then
                  match get_configuration_location sys_platform (snd s3) with
                  | Raise e =>
                      (Raise e,
                       mkWorld u (snd s3) l
                         (w_calls w ++
                          [commit; EvPreSetupValidation; EvRunProjectSetup]))
                  | Ok location =>
                      let s4 := do_localize location true (snd s3) in
                      (fst s4,
                       mkWorld u (snd s4) l
                         (w_calls w ++
                          [commit; EvPreSetupValidation; EvRunProjectSetup;
                           EvLocalize location true]))
                  end
                else
                  (Ok tt,
                   mkWorld u (snd s3) l
                     (w_calls w ++ [commit; EvPreSetupValidation; EvRunProjectSetup]))
            end
        end
    end.
Proof.
  intros Hres.
  pose proof (resolve_core_only_logs self w) as (Hx & Hc & _).
  destruct (resolve_core self w) as [r w0] eqn:E. simpl in Hres, Hx, Hc. subst r.
  exists (w_umask w0), (w_log w0).
  unfold execute. rewrite (bind_Ok _ _ _ _ _ E). simpl fst. simpl snd. cbv zeta.
  unfold bind at 1. rewrite call_run, Hx, Hc.
  destruct (fst (set_associated_core_path _ _ _ _)) as [[]|e]; [|reflexivity].
  unfold bind at 1. rewrite call_run. simpl w_ext.
  destruct (fst (pre_setup_validation _)) as [[]|e];
    [|simpl; by rewrite <- !List.app_assoc].
  unfold bind at 1. rewrite call_run. simpl w_ext.
  destruct (fst (run_project_setup _ _ _ _)) as [[]|e];
    [|simpl; by rewrite <- !List.app_assoc].
  destruct loc.
  - rewrite bind_read. simpl w_ext.
    destruct (get_configuration_location _ _) as [location|e];
      [|simpl; by rewrite <- !List.app_assoc].
    rewrite call_run. simpl. by rewrite <- !List.app_assoc.
  - simpl. by rewrite <- !List.app_assoc.
Qed.

(** C8: once the core is resolved, [execute] commits the core paths,
    runs the pre-flight validation, runs the project setup and, only when
    the localize flag is set, localizes the configuration location of the
    current platform with prompts suppressed, in this order, each on the
    state the step before left.  A step that raises ends the run with its
    exception: no later step is called, and the state is left as the
    failing step left it. *)
Theorem execute_step_order self (w : World X) paths loc r1 x1 :
  fst (resolve_core self w) = Ok (paths, loc) ->
  set_associated_core_path (linux2 paths) (win32 paths) (darwin paths) (w_ext w)
  = (r1, x1) ->
  (forall e, r1 = Raise e ->
     outcome (execute self w) w (Raise e) x1
       [EvSetCorePath (linux2 paths) (win32 paths) (darwin paths)]) /\
  (r1 = Ok tt ->
   forall r2 x2, pre_setup_validation x1 = (r2, x2) ->
   (forall e, r2 = Raise e ->
      outcome (execute self w) w (Raise e) x2
        [EvSetCorePath (linux2 paths) (win32 paths) (darwin paths);
         EvPreSetupValidation]) /\
   (r2 = Ok tt ->
    forall r3 x3,
      run_project_setup (_sg self) (_sg_app_store self)
                        (_sg_app_store_script_user self) x2 = (r3, x3) ->
      (forall e, r3 = Raise e ->
         outcome (execute self w) w (Raise e) x3
           [EvSetCorePath (linux2 paths) (win32 paths) (darwin paths);
            EvPreSetupValidation; EvRunProjectSetup]) /\
      (r3 = Ok tt ->
       (loc = false ->
        outcome (execute self w) w (Ok tt) x3
          [EvSetCorePath (linux2 paths) (win32 paths) (darwin paths);
           EvPreSetupValidation; EvRunProjectSetup]) /\
       (loc = true ->
        forall location r4 x4,
          get_configuration_location sys_platform x3 = Ok location ->
          do_localize location true x3 = (r4, x4) ->
          outcome (execute self w) w r4 x4
            [EvSetCorePath (linux2 paths) (win32 paths) (darwin paths);
             EvPreSetupValidation; EvRunProjectSetup;
             EvLocalize location true])))).
Proof.
  intros Hres Hset.
  destruct (execute_run self w paths loc Hres) as (u & l & Hrun).
  unfold outcome. rewrite Hrun, Hset. clear Hrun. simpl fst. simpl snd.
  split; [by intros e ->|]. intros -> r2 x2 H2. rewrite H2. simpl fst. simpl snd.
  split; [by intros e ->|]. intros -> r3 x3 H3. rewrite H3. simpl fst. simpl snd.
  split; [by intros e ->|]. intros ->.
  split; intros ->; [done|].
  intros location r4 x4 Hloc H4. by rewrite Hloc, H4.
Qed.

Lemma execute_commits self (w : World X) paths loc :
  fst (resolve_core self w) = Ok (paths, loc) ->
  commits_core (execute self w) w paths.
Proof.
  intros Hres.
  pose proof (resolve_core_only_logs self w) as (Hx & Hc & _).
  destruct (resolve_core self w) as [r w0] eqn:E. simpl in Hres, Hx, Hc. subst r.
  unfold execute. rewrite (bind_Ok _ _ _ _ _ E). simpl fst. simpl snd.
  match goal with
  | |- commits_core (bind (call ?ev ?f) ?k w0) _ _ =>
      assert (extends_calls (fun _ => True) (snd (call ev f w0))
                (snd (bind (call ev f) k w0))) as (evs & Hevs & _)
  end.
  { unfold bind at 1. destruct (call _ _ w0) as [[[]|e] w1]; simpl.
    - assert (preserves (extends_calls (fun _ : event => True))
                (call EvPreSetupValidation pre_setup_validation ;;;
                 call EvRunProjectSetup
                   (run_project_setup (_sg self) (_sg_app_store self)
                      (_sg_app_store_script_user self)) ;;;
                 if loc
                 then location <- read (get_configuration_location sys_platform) ;;
                      call (EvLocalize location true) (do_localize location true)
                 else ret tt)) as Hp; [|exact (Hp w1)].
      repeat first
        [ by apply extends_calls_call
        | apply (preserves_ret _ (extends_calls_refl _))
        | apply (preserves_read _ (extends_calls_refl _))
        | apply (preserves_bind _ (extends_calls_trans _)); [|intros ?]
        | destruct loc ].
    - apply extends_calls_refl. }
  exists evs. rewrite Hevs, call_run. simpl. by rewrite Hc, <- List.app_assoc.
Qed.

(** C3: [execute] starts from the core of the running code and
    localize=true.  When a basis record exists, its root path for the
    current platform is present and exists on disk and the core of that
    configuration resolves, the core paths and the localization flag of
    that configuration are adopted instead; when there is no basis record,
    or its root path is absent or not on disk, or no core is found for
    it, the defaults stand and nothing is raised.  The paths resolved are
    the ones [execute] commits. *)
Theorem execute_core_inheritance self (w : World X) cur d0 basis :
  get_path_to_current_core (w_ext w) = Ok cur ->
  resolve_all_os_paths_to_core (Some cur) (w_ext w) = Ok d0 ->
  fst (basis_record self w) = Ok basis ->
  sys_platform ∈ platforms ->
  (forall data p core d1 l,
     basis = Some data ->
     stored_path data sys_platform = Some p -> p <> "" ->
     os_path_exists p (w_ext w) = true ->
     get_core_path_for_config (Some p) (w_ext w) = Ok (Some core) -> core <> "" ->
     resolve_all_os_paths_to_core (Some core) (w_ext w) = Ok d1 ->
     is_localized (Some p) (w_ext w) = Ok l ->
     fst (resolve_core self w) = Ok (d1, l) /\
     commits_core (execute self w) w d1) /\
  ((basis = None \/
    exists data,
      basis = Some data /\
      (absent (stored_path data sys_platform) \/
       (exists p, stored_path data sys_platform = Some p /\
                  os_path_exists p (w_ext w) = false) \/
       (exists core,
          get_core_path_for_config (stored_path data sys_platform) (w_ext w)
          = Ok core /\ absent core))) ->
   fst (resolve_core self w) = Ok (d0, true) /\
   commits_core (execute self w) w d0).
Proof.
  intros Hcur Hd0 Hbasis Hp.
  pose proof (resolve_core_run self w cur d0 basis Hcur Hd0 Hbasis Hp) as Hrun.
  split.
  - intros data p core d1 l -> Hroot Hne Hex Hcore Hcne Hd1 Hl.
    assert (fst (resolve_core self w) = Ok (d1, l)) as Hres.
    { rewrite Hrun. cbv zeta. rewrite Hroot, Hex, Hcore, Hd1, Hl.
      destruct p; [done|]. by destruct core. }
    split; [exact Hres|by eapply execute_commits].
  - intros Hcase.
    assert (fst (resolve_core self w) = Ok (d0, true)) as Hres.
    { rewrite Hrun. destruct Hcase as [->|(data & -> & Hcase)]; [done|].
      cbv zeta. destruct Hcase as [[-> | ->]|[(p & -> & Hex)|(core & Hcore & Hc)]].
      - done.
      - done.
      - rewrite Hex. by rewrite andb_false_r.
      - destruct (_ && _); [|done]. rewrite Hcore.
        by destruct Hc as [-> | ->]. }
    split; [exact Hres|by eapply execute_commits].
Qed.

End ExecuteFacts.

(** ** The connection step of the factory *)

Section FactoryFacts.
Context {X : Type} `{!ShotgunConnector X}.

Local Ltac run_connect :=
  unfold _shotgun_connect, outcome, bind, try_except, call, log_msg,
    server_version, lift, ret, raise, getitem; simpl.

(** C5: the two connections are treated differently.  When the
    connection to the site raises, [_shotgun_connect] raises (a
    [TankError] that carries the message of the failure) after this one
    attempt and without trying the app store.  When the connection to the
    app store fails, a warning is logged and the call returns the site
    handle with the app store handle and its script user both [None].
    Whenever the call returns, the first component is the handle the site
    connection returned, and its server version could be read. *)
Theorem shotgun_connect_policy (w : World X) :
  (forall e x1,
     create_sg_connection (w_ext w) = (Raise e, x1) ->
     exists e',
       outcome (_shotgun_connect w) w (Raise e') x1 [EvConnectSg] /\
       (is_Exception e = true ->
        e' = Exn TankError ("Could not connect to Shotgun server: " +:+ exn_msg e)) /\
       (is_Exception e = false -> e' = e)) /\
  (forall sg v x1 e x2,
     create_sg_connection (w_ext w) = (Ok sg, x1) ->
     server_info sg !! "version" = Some v ->
     create_sg_app_store_connection x1 = (Raise e, x2) ->
     is_Exception e = true ->
     outcome (_shotgun_connect w) w (Ok (sg, None, None)) x2
       [EvConnectSg; EvConnectAppStore] /\
     exists msg, (Warning, msg) ∈ w_log (snd (_shotgun_connect w))) /\
  (forall sg app user,
     fst (_shotgun_connect w) = Ok (sg, app, user) ->
     fst (create_sg_connection (w_ext w)) = Ok sg /\
     is_Some (server_info sg !! "version") /\
     (app = None <-> user = None)).
Proof.
  split; [|split].
  - intros e x1 H. run_connect. rewrite H. simpl.
    destruct (is_Exception e) eqn:He; simpl.
    + eexists. split; [done|]. split; [done|]. done.
    + eexists. split; [done|]. split; [done|]. done.
  - intros sg v x1 e x2 H1 Hv H2 He. run_connect.
    rewrite H1. simpl. rewrite Hv. simpl. rewrite H2. simpl. rewrite He. simpl.
    split; [split; [done|split; [done|by rewrite <- List.app_assoc]]|].
    eexists. apply list_elem_of_In.
    rewrite in_app_iff. left. rewrite in_app_iff. right. by left.
  - intros sg app user. run_connect.
    destruct (create_sg_connection (w_ext w)) as [[sg0|e] x1]; simpl.
    + destruct (server_info sg0 !! "version") as [v|] eqn:Hv; simpl.
      * destruct (create_sg_app_store_connection x1) as [[[a u]|e] x2]; simpl.
        -- destruct (server_info a !! "version") as [va|]; simpl.
           ++ intros [= <- <- <-]. rewrite Hv. by repeat split.
           ++ intros [= <- <- <-]. rewrite Hv. by repeat split.
        -- destruct (is_Exception e); simpl; [|done].
           intros [= <- <- <-]. rewrite Hv. by repeat split.
      * done.
    + by destruct (is_Exception e).
Qed.

End FactoryFacts.

(** ** Runs of [get_default_configuration_location] on the studio *)

Lemma default_location_three_tiers_witness :
  basis_record Studio.wizard (Studio.world Studio.linked)
  = (Ok (Some Studio.older), Studio.world Studio.linked) /\
  basis_record Studio.wizard (Studio.world Studio.studio)
  = (Ok (Some Studio.earlier), Studio.world Studio.studio) /\
  (exists d w',
     get_default_configuration_location Studio.wizard (Studio.world Studio.fresh)
     = (Ok d, w') /\
     dom d = list_to_set platforms /\
     forall platform, platform ∈ platforms -> d !! platform = Some None) /\
  (exists d w',
     get_default_configuration_location Studio.wizard (Studio.world Studio.studio)
     = (Ok d, w') /\
     forall platform, platform ∈ platforms ->
       d !! platform =
       Some (suggested (stored_path Studio.earlier platform)
                       (platform_form platform "foo/bar")
                       (platform_form platform "baz/qux"))).
Proof.
  split; [|split; [|split]].
  - apply (proj1 (default_location_three_tiers Studio.wizard
                    (Studio.world Studio.linked))).
    reflexivity.
  - etrans;
      [apply (proj1 (proj2 (default_location_three_tiers Studio.wizard
                              (Studio.world Studio.studio)))); reflexivity
      |reflexivity].
  - apply (proj1 (proj2 (proj2 (default_location_three_tiers Studio.wizard
                                  (Studio.world Studio.fresh)))) "first");
      reflexivity.
  - apply (proj2 (proj2 (proj2 (default_location_three_tiers Studio.wizard
                                  (Studio.world Studio.studio))))
             "baz/qux" Studio.earlier "foo/bar");
      reflexivity.
Defined.

Lemma default_location_replaces_every_occurrence_witness :
  get_project_disk_name (w_ext (Studio.world Studio.linked)) = Ok (Some "baz/qux") /\
  fst (basis_record Studio.wizard (Studio.world Studio.linked)) = Ok (Some Studio.older) /\
  project_tank_name Studio.older = Some "proj" /\
  "darwin" ∈ platforms /\
  platform_form "darwin" "proj" <> "" /\
  2 <= length ["/mnt/"; "/"; "/configs"] /\
  PyStr.separated (platform_form "darwin" "proj") ["/mnt/"; "/"; "/configs"] = true /\
  stored_path Studio.older "darwin"
  = Some (PyStr.join (platform_form "darwin" "proj") ["/mnt/"; "/"; "/configs"]) /\
  exists d w',
    get_default_configuration_location Studio.wizard (Studio.world Studio.linked)
    = (Ok d, w') /\
    d !! "darwin"
    = Some (Some (PyStr.join (platform_form "darwin" "baz/qux")
                             ["/mnt/"; "/"; "/configs"])).
Proof.
  assert ("darwin" ∈ platforms) as Hp by (unfold platforms; set_solver).
  repeat (split; [first [reflexivity | exact Hp | done | simpl; lia]|]).
  apply (default_location_replaces_every_occurrence
           Studio.wizard (Studio.world Studio.linked) "baz/qux" Studio.older "proj"
           "darwin" ["/mnt/"; "/"; "/configs"]);
    first [reflexivity | exact Hp | done | simpl; lia].
Defined.

Lemma default_location_absent_path_witness :
  get_project_disk_name (w_ext (Studio.world Studio.linked)) = Ok (Some "baz/qux") /\
  fst (basis_record Studio.wizard (Studio.world Studio.linked)) = Ok (Some Studio.older) /\
  project_tank_name Studio.older = Some "proj" /\
  "linux2" ∈ platforms /\
  absent (stored_path Studio.older "linux2") /\
  (exists d w',
     get_default_configuration_location Studio.wizard (Studio.world Studio.linked)
     = (Ok d, w') /\
     d !! "linux2" = Some None) /\
  present_and_contains (stored_path Studio.older "linux2") (platform_form "linux2" "proj")
  = Ok false /\
  (stored_path Studio.older "linux2" = None ->
   exists e, py_in (platform_form "linux2" "proj") (stored_path Studio.older "linux2")
             = Raise e).
Proof.
  assert ("linux2" ∈ platforms) as Hp by (unfold platforms; set_solver).
  assert (absent (stored_path Studio.older "linux2")) as Ha by (by left).
  repeat (split; [first [reflexivity | exact Hp | exact Ha]|]).
  apply (default_location_absent_path
           Studio.wizard (Studio.world Studio.linked) "baz/qux" Studio.older "proj"
           "linux2");
    first [reflexivity | exact Hp | exact Ha].
Defined.

(** The suggestions for a project [baz/qux] based on the configuration of
    [foo/bar]: the linux path spells the old name without its separator
    and gets no suggestion. *)
Example default_location_studio :
  match fst (get_default_configuration_location Studio.wizard
               (Studio.world Studio.studio)) with
  | Ok d => Some (d !! "darwin", d !! "linux2", d !! "win32")
  | Raise _ => None
  end
  = Some (Some (Some "/mnt/baz/qux/configs"), Some None,
          Some (Some "P:\baz\qux\configs")).
Proof. reflexivity. Qed.

(** ** Runs of the other methods on the studio *)

Lemma preview_project_paths_entries_witness :
  get_required_storages (w_ext (Studio.world Studio.studio))
  = Ok ["primary"; "textures"] /\
  (forall s platform, s ∈ ["primary"; "textures"] -> platform ∈ platforms ->
     preview_project_path s "baz/qux" platform (w_ext (Studio.world Studio.studio))
     = Ok (Some (Studio.project_path s "baz/qux" platform))) /\
  exists d,
    preview_project_paths Studio.wizard "baz/qux" (Studio.world Studio.studio)
    = (Ok d, Studio.world Studio.studio) /\
    dom d = list_to_set ["primary"; "textures"] /\
    (NoDup ["primary"; "textures"] -> size d = 2) /\
    forall s, s ∈ ["primary"; "textures"] ->
      exists inner,
        d !! s = Some inner /\
        dom inner = list_to_set platforms /\
        forall platform, platform ∈ platforms ->
          inner !! platform = Some (Some (Studio.project_path s "baz/qux" platform)).
Proof.
  split; [reflexivity|]. split; [reflexivity|].
  pose proof (preview_project_paths_entries Studio.wizard "baz/qux"
                (Studio.world Studio.studio) ["primary"; "textures"]
                (fun s platform => Some (Studio.project_path s "baz/qux" platform)))
    as H.
  apply H; [reflexivity|intros; reflexivity].
Defined.

(** The second storage cannot be created: the call raises after the first
    folder was made, and the umask is back at [022]. *)
Example set_project_disk_name_failure_partway :
  fst (set_project_disk_name Studio.wizard "show" true (Studio.world Studio.locked))
  = Raise (Exn OSError "Permission denied: '/mnt/readonly/show'") /\
  w_umask (snd (set_project_disk_name Studio.wizard "show" true
                  (Studio.world Studio.locked))) = 18%N /\
  w_calls (snd (set_project_disk_name Studio.wizard "show" true
                  (Studio.world Studio.locked)))
  = [EvValidateDiskName "show"; EvMakedirs "/mnt/primary/show" 511 0;
     EvMakedirs "/mnt/readonly/show" 511 0].
Proof. repeat split; reflexivity. Qed.

Lemma set_project_disk_name_validates_first_witness :
  fst (validate_project_disk_name "bad name" (w_ext (Studio.world Studio.studio)))
  = Raise (Exn TankError "Invalid project folder 'bad name'!") /\
  exists evs,
    w_calls (snd (set_project_disk_name Studio.wizard "bad name" false
                    (Studio.world Studio.studio)))
    = w_calls (Studio.world Studio.studio) ++ evs /\
    fst (set_project_disk_name Studio.wizard "bad name" false
           (Studio.world Studio.studio))
    = Raise (Exn TankError "Invalid project folder 'bad name'!") /\
    evs = [EvValidateDiskName "bad name"].
Proof.
  split; [reflexivity|].
  destruct (set_project_disk_name_validates_first Studio.wizard "bad name" false
              (Studio.world Studio.studio)) as (evs & Hc & _ & Hv).
  exists evs. split; [exact Hc|]. apply Hv. reflexivity.
Defined.

Lemma execute_core_inheritance_witness :
  get_path_to_current_core (w_ext (Studio.world Studio.studio)) = Ok "/studio/core" /\
  resolve_all_os_paths_to_core (Some "/studio/core") (w_ext (Studio.world Studio.studio))
  = Ok Studio.running_core /\
  fst (basis_record Studio.wizard (Studio.world Studio.studio))
  = Ok (Some Studio.earlier) /\
  @sys_platform Studio.State Studio.os ∈ platforms /\
  stored_path Studio.earlier (@sys_platform Studio.State Studio.os)
  = Some "/mnt/foobar/configs" /\
  os_path_exists "/mnt/foobar/configs" (w_ext (Studio.world Studio.studio)) = true /\
  get_core_path_for_config (Some "/mnt/foobar/configs")
    (w_ext (Studio.world Studio.studio))
  = Ok (Some "/mnt/foobar/configs/install/core") /\
  resolve_all_os_paths_to_core (Some "/mnt/foobar/configs/install/core")
    (w_ext (Studio.world Studio.studio))
  = Ok Studio.earlier_core /\
  is_localized (Some "/mnt/foobar/configs") (w_ext (Studio.world Studio.studio))
  = Ok false /\
  (fst (resolve_core Studio.wizard (Studio.world Studio.studio))
   = Ok (Studio.earlier_core, false) /\
   commits_core (execute Studio.wizard (Studio.world Studio.studio))
     (Studio.world Studio.studio) Studio.earlier_core) /\
  fst (basis_record Studio.wizard (Studio.world Studio.linked))
  = Ok (Some Studio.older) /\
  absent (stored_path Studio.older (@sys_platform Studio.State Studio.os)) /\
  (fst (resolve_core Studio.wizard (Studio.world Studio.linked))
   = Ok (Studio.running_core, true) /\
   commits_core (execute Studio.wizard (Studio.world Studio.linked))
     (Studio.world Studio.linked) Studio.running_core).
Proof.
  assert (@sys_platform Studio.State Studio.os ∈ platforms) as Hp
    by (unfold platforms; set_solver).
  assert (absent (stored_path Studio.older (@sys_platform Studio.State Studio.os)))
    as Ha by (by left).
  repeat (split; [first [reflexivity | exact Hp | exact Ha]|]).
  split; [|split; [reflexivity|split; [exact Ha|]]].
  - pose proof (execute_core_inheritance Studio.wizard (Studio.world Studio.studio)
                  "/studio/core" Studio.running_core (Some Studio.earlier)) as H.
    destruct H as [H _]; [reflexivity..|exact Hp|].
    apply (H Studio.earlier "/mnt/foobar/configs" "/mnt/foobar/configs/install/core"
             Studio.earlier_core false);
      first [reflexivity | done].
  - pose proof (execute_core_inheritance Studio.wizard (Studio.world Studio.linked)
                  "/studio/core" Studio.running_core (Some Studio.older)) as H.
    destruct H as [_ H]; [reflexivity..|exact Hp|].
    apply H. right. exists Studio.older. split; [reflexivity|]. left. exact Ha.
Defined.

Lemma execute_step_order_witness :
  fst (resolve_core Studio.wizard (Studio.world Studio.linked))
  = Ok (Studio.running_core, true) /\
  set_associated_core_path (Some "/studio/core") (Some "P:\studio\core")
    (Some "/Volumes/studio/core") (w_ext (Studio.world Studio.linked))
  = (Ok tt, Studio.committed) /\
  pre_setup_validation Studio.committed = (Ok tt, Studio.committed) /\
  run_project_setup Studio.site (Some Studio.app_store) (Some Studio.store_user)
    Studio.committed
  = (Ok tt, Studio.provisioned) /\
  get_configuration_location (@sys_platform Studio.State Studio.os) Studio.provisioned
  = Ok (Some "/mnt/configs/baz/qux") /\
  do_localize (Some "/mnt/configs/baz/qux") true Studio.provisioned
  = (Ok tt, Studio.localized) /\
  outcome (execute Studio.wizard (Studio.world Studio.linked))
    (Studio.world Studio.linked) (Ok tt) Studio.localized
    [EvSetCorePath (Some "/studio/core") (Some "P:\studio\core")
       (Some "/Volumes/studio/core");
     EvPreSetupValidation; EvRunProjectSetup;
     EvLocalize (Some "/mnt/configs/baz/qux") true].
Proof.
  repeat (split; [reflexivity|]).
  pose proof (execute_step_order Studio.wizard (Studio.world Studio.linked)
                Studio.running_core true (Ok tt) Studio.committed) as H.
  destruct H as [_ H1]; [reflexivity..|].
  destruct (H1 ltac:(reflexivity) (Ok tt) Studio.committed) as [_ H2]; [reflexivity|].
  destruct (H2 ltac:(reflexivity) (Ok tt) Studio.provisioned) as [_ H3]; [reflexivity|].
  destruct (H3 ltac:(reflexivity)) as [_ H4].
  apply (H4 ltac:(reflexivity) (Some "/mnt/configs/baz/qux") (Ok tt) Studio.localized);
    reflexivity.
Defined.

Lemma shotgun_connect_policy_witness :
  create_sg_connection (w_ext (Studio.world Studio.offline))
  = (Raise (Exn OtherException "connection refused"), Studio.offline) /\
  outcome (_shotgun_connect (Studio.world Studio.offline))
    (Studio.world Studio.offline)
    (Raise (Exn TankError "Could not connect to Shotgun server: connection refused"))
    Studio.offline [EvConnectSg] /\
  create_sg_connection (w_ext (Studio.world Studio.fresh))
  = (Ok Studio.site, Studio.fresh) /\
  server_info Studio.site !! "version" = Some [5; 3; 10]%N /\
  create_sg_app_store_connection Studio.fresh
  = (Raise (Exn OtherException "app store unreachable"), Studio.fresh) /\
  outcome (_shotgun_connect (Studio.world Studio.fresh)) (Studio.world Studio.fresh)
    (Ok (Studio.site, None, None)) Studio.fresh [EvConnectSg; EvConnectAppStore] /\
  fst (_shotgun_connect (Studio.world Studio.studio))
  = Ok (Studio.site, Some Studio.app_store, Some Studio.store_user) /\
  fst (create_sg_connection (w_ext (Studio.world Studio.studio))) = Ok Studio.site.
Proof.
  split; [reflexivity|]. split.
  { pose proof (proj1 (shotgun_connect_policy (Studio.world Studio.offline))
                  (Exn OtherException "connection refused") Studio.offline) as H.
    destruct H as (e' & Ho & He & _); [reflexivity|].
    specialize (He ltac:(reflexivity)). subst e'. exact Ho. }
  split; [reflexivity|]. split; [reflexivity|]. split; [reflexivity|]. split.
  { pose proof (proj1 (proj2 (shotgun_connect_policy (Studio.world Studio.fresh)))
                  Studio.site [5; 3; 10]%N Studio.fresh
                  (Exn OtherException "app store unreachable") Studio.fresh) as H.
    apply H; reflexivity. }
  split; [reflexivity|].
  pose proof (proj2 (proj2 (shotgun_connect_policy (Studio.world Studio.studio)))
                Studio.site (Some Studio.app_store) (Some Studio.store_user)) as H.
  apply H. reflexivity.
Defined.

(** * Further properties *)

(** ** More on the connection step *)

Section ConnectFacts.
Context {X : Type} `{!ShotgunConnector X}.

Local Ltac connect_run :=
  unfold _shotgun_connect, outcome, bind, try_except, call, log_msg,
    server_version, lift, ret, raise, getitem; simpl.

(** X1: an exception of the app store connection that is not an
    [Exception] ([KeyboardInterrupt], [SystemExit]) is not absorbed by the
    fallback: it leaves [_shotgun_connect] as it is, and no warning is
    logged. *)
Theorem shotgun_connect_interrupt (w : World X) sg v x1 e x2 :
  create_sg_connection (w_ext w) = (Ok sg, x1) ->
  server_info sg !! "version" = Some v ->
  create_sg_app_store_connection x1 = (Raise e, x2) ->
  is_Exception e = false ->
  outcome (_shotgun_connect w) w (Raise e) x2 [EvConnectSg; EvConnectAppStore] /\
  forall msg, (Warning, msg) ∈ w_log (snd (_shotgun_connect w)) ->
              (Warning, msg) ∈ w_log w.
Proof.
  intros H1 Hv H2 He. connect_run.
  rewrite H1. simpl. rewrite Hv. simpl. rewrite H2. simpl. rewrite He. simpl.
  split; [split; [done|split; [done|by rewrite <- List.app_assoc]]|].
  intros msg Hin. apply list_elem_of_In in Hin. apply list_elem_of_In.
  rewrite !in_app_iff in Hin. simpl in Hin.
  destruct Hin as [[[Hin|[Hin|[]]]|[Hin|[]]]|[Hin|[]]]; [done|done..].
Qed.

(** X2: an app store handle whose server reports no version is thrown
    away: the read of the version is inside the guarded block, so the
    call returns the site handle with [None] twice and logs the warning,
    as if the connection had failed. *)
Theorem shotgun_connect_discards_mute_store (w : World X) sg v x1 a u x2 :
  create_sg_connection (w_ext w) = (Ok sg, x1) ->
  server_info sg !! "version" = Some v ->
  create_sg_app_store_connection x1 = (Ok (a, u), x2) ->
  server_info a !! "version" = None ->
  outcome (_shotgun_connect w) w (Ok (sg, None, None)) x2
    [EvConnectSg; EvConnectAppStore] /\
  exists msg, (Warning, msg) ∈ w_log (snd (_shotgun_connect w)).
Proof.
  intros H1 Hv H2 Ha. connect_run.
  rewrite H1. simpl. rewrite Hv. simpl. rewrite H2. simpl. rewrite Ha. simpl.
  split; [split; [done|split; [done|by rewrite <- List.app_assoc]]|].
  eexists. apply list_elem_of_In.
  rewrite in_app_iff. left. rewrite in_app_iff. right. by left.
Qed.

(** X3: a site handle whose server reports no version counts as a failed
    connection: [_shotgun_connect] raises a [TankError] and the app store
    is never tried. *)
Theorem shotgun_connect_mute_site (w : World X) sg x1 :
  create_sg_connection (w_ext w) = (Ok sg, x1) ->
  server_info sg !! "version" = None ->
  exists msg,
    outcome (_shotgun_connect w) w (Raise (Exn TankError msg)) x1 [EvConnectSg].
Proof.
  intros H1 Hv. connect_run. rewrite H1. simpl. rewrite Hv. simpl.
  by eexists.
Qed.

(** X4: when both connections succeed the call returns both handles and
    the script user, logs four records, none of them a warning, and
    reports each server version as its numbers joined by dots. *)
Theorem shotgun_connect_both (w : World X) sg v x1 a u va x2 :
  create_sg_connection (w_ext w) = (Ok sg, x1) ->
  server_info sg !! "version" = Some v ->
  create_sg_app_store_connection x1 = (Ok (a, u), x2) ->
  server_info a !! "version" = Some va ->
  outcome (_shotgun_connect w) w (Ok (sg, Some a, Some u)) x2
    [EvConnectSg; EvConnectAppStore] /\
  w_log (snd (_shotgun_connect w)) =
  w_log w ++
  [(Info, "Connecting to Shotgun...");
   (Debug, "Connected to target Shotgun server! (v"
           +:+ PyStr.join "." (map str_of_N v) +:+ ")");
   (Info, "Connecting to the App Store...");
   (Debug, "Connected to App Store! (v"
           +:+ PyStr.join "." (map str_of_N va) +:+ ")")].
Proof.
  intros H1 Hv H2 Ha. connect_run.
  rewrite H1. simpl. rewrite Hv. simpl. rewrite H2. simpl. rewrite Ha. simpl.
  split; [split; [done|split; [done|by rewrite <- List.app_assoc]]|].
  by rewrite <- !List.app_assoc.
Qed.

(** X5: the handles returned are the ones the connections gave: when the
    call returns an app store handle, the app store connection, run on the
    state the site connection left, returned that handle and that script
    user, and the version of its server could be read. *)
Theorem shotgun_connect_store_handle (w : World X) sg a user :
  fst (_shotgun_connect w) = Ok (sg, Some a, user) ->
  exists u,
    user = Some u /\
    fst (create_sg_app_store_connection (snd (create_sg_connection (w_ext w))))
    = Ok (a, u) /\
    is_Some (server_info a !! "version").
Proof.
  connect_run.
  destruct (create_sg_connection (w_ext w)) as [[sg0|e] x1]; simpl.
  - destruct (server_info sg0 !! "version") as [v|]; simpl; [|done].
    destruct (create_sg_app_store_connection x1) as [[[a0 u0]|e] x2]; simpl.
    + destruct (server_info a0 !! "version") as [va|] eqn:Hva; simpl; [|done].
      intros [= <- <- <-]. exists u0. rewrite Hva. by repeat split.
    + by destruct (is_Exception e).
  - by destruct (is_Exception e).
Qed.

End ConnectFacts.

(** ** [run_noninteractive] *)

Section FactoryRunFacts.
Context {X : Type} `{!ShotgunConnector X, !ParameterStoreClass X}.

Local Ltac factory_run :=
  unfold run_noninteractive, SetupProjectWizard_init, step, _shotgun_connect,
    bind, try_except, call, log_msg, server_version, lift, ret, raise, getitem;
  simpl.

(** X6: the factory hands out a wizard although the app store cannot be
    reached: the parameter store is built from the site handle and two
    [None], on the state the failed connection left, and the wizard holds
    the same three values.  When the site itself cannot be reached the
    factory raises and the parameter store is never built. *)
Theorem run_noninteractive_without_store (w : World X) :
  (forall sg v x1 e x2 x3,
     create_sg_connection (w_ext w) = (Ok sg, x1) ->
     server_info sg !! "version" = Some v ->
     create_sg_app_store_connection x1 = (Raise e, x2) ->
     is_Exception e = true ->
     new_ProjectSetupParameters sg None None x2 = (Ok tt, x3) ->
     fst (run_noninteractive w) = Ok (mkWizard sg None None) /\
     w_ext (snd (run_noninteractive w)) = x3) /\
  (forall e x1,
     create_sg_connection (w_ext w) = (Raise e, x1) ->
     (exists e', fst (run_noninteractive w) = Raise e') /\
     w_ext (snd (run_noninteractive w)) = x1).
Proof.
  split.
  - intros sg v x1 e x2 x3 H1 Hv H2 He H3. factory_run.
    rewrite H1. simpl. rewrite Hv. simpl. rewrite H2. simpl. rewrite He. simpl.
    by rewrite H3.
  - intros e x1 H1. factory_run. rewrite H1. simpl.
    destruct (is_Exception e); simpl; split; by eauto.
Qed.

End FactoryRunFacts.

(** ** More on Python's [str.replace] *)

Module PyStrMore.
Import PyStr PyStrFacts.

Lemma interleave_nil s : interleave "" s = s.
Proof.
  induction s as [|c s IH]; [reflexivity|].
  simpl. rewrite app_nil_l. by rewrite IH.
Qed.

Lemma replace_same_bounded old n s :
  old <> "" -> String.length s <= n -> replace old old s = s.
Proof.
  intros Hne. revert s. induction n as [|n IH]; intros s Hlen.
  - destruct s; [|simpl in Hlen; lia]. by destruct old.
  - destruct s as [|c s]; [by destruct old|].
    destruct (startswith old (String c s)) eqn:Hs.
    + apply startswith_inv in Hs as [r Hr]. rewrite Hr.
      rewrite replace_match by done. rewrite IH; [done|].
      assert (String.length (String c s) = String.length old + String.length r)
        as Hl by (by rewrite Hr, length_app).
      destruct old; [done|]. simpl in Hl, Hlen. lia.
    + rewrite replace_step by done. rewrite IH; [done|]. simpl in Hlen. lia.
Qed.

(** Replacing a string by itself changes nothing. *)
Lemma replace_same old s : replace old old s = s.
Proof.
  destruct (decide (old = "")) as [->|Hne].
  - apply interleave_nil.
  - by apply (replace_same_bounded old (String.length s)).
Qed.

Lemma contains_nil s : contains "" s = true.
Proof. by destruct s. Qed.

(** Occurrences of a single character. *)
Lemma contains_char_cons a c s :
  contains (String a "") (String c s) = Ascii.eqb a c || contains (String a "") s.
Proof.
  rewrite contains_cons. simpl. by destruct (Ascii.eqb a c).
Qed.

Lemma contains_char_app a s t :
  contains (String a "") (s +:+ t) = contains (String a "") s || contains (String a "") t.
Proof.
  induction s as [|c s IH]; [reflexivity|].
  rewrite app_cons, !contains_char_cons, IH. by rewrite orb_assoc.
Qed.

(** The characters of [s.replace(old, new)] come from [s] and [new]. *)
Lemma replace_scan_no_char a old new skip s :
  contains (String a "") s = false -> contains (String a "") new = false ->
  contains (String a "") (replace_scan old new skip s) = false.
Proof.
  intros Hs Hn. revert skip Hs. induction s as [|c s IH]; intros skip Hs.
  - reflexivity.
  - rewrite contains_char_cons in Hs. apply orb_false_iff in Hs as [Hc Hs].
    destruct skip as [|k]; [|simpl; by apply IH].
    rewrite replace_scan_cons. destruct (startswith old (String c s)).
    + rewrite contains_char_app, Hn. by apply IH.
    + rewrite contains_char_cons, Hc. by apply IH.
Qed.

Lemma interleave_no_char a new s :
  contains (String a "") s = false -> contains (String a "") new = false ->
  contains (String a "") (interleave new s) = false.
Proof.
  intros Hs Hn. induction s as [|c s IH]; [exact Hn|].
  rewrite contains_char_cons in Hs. apply orb_false_iff in Hs as [Hc Hs].
  simpl. rewrite contains_char_app, Hn, contains_char_cons, Hc. by apply IH.
Qed.

Lemma replace_no_char a old new s :
  contains (String a "") s = false -> contains (String a "") new = false ->
  contains (String a "") (replace old new s) = false.
Proof.
  intros Hs Hn. destruct old; [by apply interleave_no_char|].
  by apply replace_scan_no_char.
Qed.

(** Replacing a character by another one leaves no occurrence of it. *)
Lemma replace_char_gone a b s :
  a <> b -> contains (String a "") (replace (String a "") (String b "") s) = false.
Proof.
  intros Hab. unfold replace. induction s as [|c s IH]; [reflexivity|].
  rewrite replace_scan_cons. simpl startswith.
  destruct (Ascii.eqb a c) eqn:Hc.
  - change (String.length (String a "") - 1) with 0.
    rewrite app_cons, app_nil_l, contains_char_cons, IH.
    apply Ascii.eqb_neq in Hab. by rewrite Hab.
  - by rewrite contains_char_cons, Hc, IH.
Qed.

End PyStrMore.

(** ** More on [get_default_configuration_location] *)

Section LocationMore.
Context {X : Type}.
Context `{!ParameterStore X, !OsInterface X, !ShotgunApi X,
          !PipelineConfigUtils X, !SetupRoutines X}.

(** The result of the function in each of its cases. *)
Lemma location_cases self (w : World X) :
  match get_project_disk_name (w_ext w) with
  | Ok (Some new) =>
      match fst (basis_record self w) with
      | Ok (Some data) =>
          match project_tank_name data with
          | Some old =>
              fst (get_default_configuration_location self w) =
              Ok (<["win32" := suggested (windows_path data)
                                 (PyStr.replace "/" "\" old)
                                 (PyStr.replace "/" "\" new)]>
                  (<["linux2" := suggested (linux_path data) old new]>
                   (<["darwin" := suggested (mac_path data) old new]> all_none)))
          | None =>
              fst (get_default_configuration_location self w) =
              Raise (Exn AttributeError "'NoneType' object has no attribute 'replace'")
          end
      | Ok None => fst (get_default_configuration_location self w) = Ok all_none
      | Raise e => fst (get_default_configuration_location self w) = Raise e
      end
  | Ok None =>
      get_default_configuration_location self w =
      (Raise (Exn AttributeError "'NoneType' object has no attribute 'replace'"), w)
  | Raise e => get_default_configuration_location self w = (Raise e, w)
  end.
Proof.
  destruct (get_project_disk_name (w_ext w)) as [[new|]|e] eqn:Hnew;
    [|unfold get_default_configuration_location; by rewrite bind_read, Hnew..].
  destruct (fst (basis_record self w)) as [[data|]|e] eqn:Hbasis.
  - destruct (project_tank_name data) as [old|] eqn:Hold.
    + destruct (location_from_basis self w new data old Hnew Hbasis Hold)
        as (w' & Hrun & _). by rewrite Hrun.
    + pose proof (basis_record_state self w) as Hst.
      destruct (basis_record self w) as [r wb] eqn:Hb. simpl in Hbasis, Hst.
      subst r wb. unfold get_default_configuration_location.
      rewrite bind_read, Hnew. simpl receiver. rewrite bind_lift.
      rewrite (bind_Ok _ _ _ _ _ Hb), bind_log, Hold. reflexivity.
  - pose proof (basis_record_state self w) as Hst.
    destruct (basis_record self w) as [r wb] eqn:Hb. simpl in Hbasis, Hst.
    subst r wb. unfold get_default_configuration_location.
    rewrite bind_read, Hnew. simpl receiver. rewrite bind_lift.
    by rewrite (bind_Ok _ _ _ _ _ Hb), bind_log.
  - pose proof (basis_record_state self w) as Hst.
    destruct (basis_record self w) as [r wb] eqn:Hb. simpl in Hbasis, Hst.
    subst r wb. unfold get_default_configuration_location.
    rewrite bind_read, Hnew. simpl receiver. rewrite bind_lift.
    by rewrite (bind_Raise _ _ _ _ _ Hb).
Qed.

(** X7: the function needs both disk names.  When no project disk name
    has been set in the parameter store it raises [AttributeError] at
    once, leaving the world as it was; when the project of the basis
    record has no disk name it raises [AttributeError] as well, whatever
    the paths of the record are. *)
Theorem default_location_needs_names self (w : World X) :
  (get_project_disk_name (w_ext w) = Ok None ->
   get_default_configuration_location self w =
   (Raise (Exn AttributeError "'NoneType' object has no attribute 'replace'"), w)) /\
  (forall new data,
     get_project_disk_name (w_ext w) = Ok (Some new) ->
     fst (basis_record self w) = Ok (Some data) ->
     project_tank_name data = None ->
     fst (get_default_configuration_location self w) =
     Raise (Exn AttributeError "'NoneType' object has no attribute 'replace'")).
Proof.
  pose proof (location_cases self w) as H. split.
  - intros Hnew. by rewrite Hnew in H.
  - intros new data Hnew Hbasis Hold. by rewrite Hnew, Hbasis, Hold in H.
Qed.

(** X8: whenever the function returns, the dictionary has exactly the keys
    [darwin], [linux2] and [win32], whether a basis record was found or
    not and whichever paths were substituted. *)
Theorem default_location_keys self (w : World X) d :
  fst (get_default_configuration_location self w) = Ok d ->
  dom d = list_to_set platforms.
Proof.
  intros Hd. pose proof (location_cases self w) as H.
  destruct (get_project_disk_name (w_ext w)) as [[new|]|e];
    [|rewrite H in Hd; done..].
  destruct (fst (basis_record self w)) as [[data|]|e].
  - destruct (project_tank_name data) as [old|]; [|congruence].
    rewrite H in Hd. injection Hd as <-.
    unfold all_none, platforms. rewrite !dom_insert_L, dom_empty_L. simpl. set_solver.
  - rewrite H in Hd. injection Hd as <-.
    unfold all_none, platforms. rewrite !dom_insert_L, dom_empty_L. simpl. set_solver.
  - congruence.
Qed.

(** X9: the function only reads: in every case, also when it raises, it
    leaves the state of the collaborators, the umask and the trace of
    calls as they were; its only effect is on the logger. *)
Theorem default_location_reads_only self (w : World X) :
  only_logs w (snd (get_default_configuration_location self w)).
Proof.
  assert (preserves only_logs (get_default_configuration_location self)) as Hp;
    [|exact (Hp w)].
  unfold get_default_configuration_location, basis_record, suggest.
  repeat first
    [ apply only_logs_log
    | apply (preserves_ret _ only_logs_refl)
    | apply (preserves_read _ only_logs_refl)
    | apply (preserves_lift _ only_logs_refl)
    | apply (preserves_bind _ only_logs_trans); [|intros ?]
    | match goal with
      | |- preserves _ (match ?v with _ => _ end) => destruct v
      | |- preserves _ (if ?v then _ else _) => destruct v
      end ].
Qed.

(** X10: setting up a project under the disk name of the project the
    basis record belongs to suggests the stored paths themselves: every
    present path that contains the name is returned unchanged. *)
Theorem default_location_same_name self (w : World X) name data :
  get_project_disk_name (w_ext w) = Ok (Some name) ->
  fst (basis_record self w) = Ok (Some data) ->
  project_tank_name data = Some name ->
  exists d w',
    get_default_configuration_location self w = (Ok d, w') /\
    forall platform p,
      platform ∈ platforms ->
      stored_path data platform = Some p -> p <> "" ->
      occurs_in (platform_form platform name) p ->
      d !! platform = Some (Some p).
Proof.
  intros Hnew Hbasis Hold.
  destruct (location_lookup self w name data name Hnew Hbasis Hold)
    as (d & w' & Hrun & Hd).
  exists d, w'. split; [exact Hrun|].
  intros platform p Hp Hs Hne Hocc. rewrite (Hd platform Hp), Hs.
  unfold suggested. apply PyStrFacts.contains_iff in Hocc.
  apply String.eqb_neq in Hne. rewrite Hne, Hocc. simpl.
  by rewrite PyStrMore.replace_same.
Qed.

(** X11: an empty disk name on the basis record's project is found in
    every path: each present path gets a suggestion, in which the new name
    (in the form of the platform) stands before every character of the
    stored path and after the last one. *)
Theorem default_location_empty_old_name self (w : World X) new data :
  get_project_disk_name (w_ext w) = Ok (Some new) ->
  fst (basis_record self w) = Ok (Some data) ->
  project_tank_name data = Some "" ->
  exists d w',
    get_default_configuration_location self w = (Ok d, w') /\
    forall platform p,
      platform ∈ platforms ->
      stored_path data platform = Some p -> p <> "" ->
      d !! platform = Some (Some (PyStr.interleave (platform_form platform new) p)).
Proof.
  intros Hnew Hbasis Hold.
  destruct (location_lookup self w new data "" Hnew Hbasis Hold)
    as (d & w' & Hrun & Hd).
  exists d, w'. split; [exact Hrun|].
  intros platform p Hp Hs Hne. rewrite (Hd platform Hp), Hs.
  assert (platform_form platform "" = "") as ->.
  { unfold platform_form. by destruct (String.eqb platform "win32"). }
  unfold suggested. apply String.eqb_neq in Hne.
  by rewrite Hne, PyStrMore.contains_nil.
Qed.

(** X21: the suggestion for windows does not mix separators: when the
    stored windows path has no forward slash, the suggested path has none
    either, whatever slashes the new disk name is written with. *)
Theorem default_location_windows_separators self (w : World X) new data old p d out :
  get_project_disk_name (w_ext w) = Ok (Some new) ->
  fst (basis_record self w) = Ok (Some data) ->
  project_tank_name data = Some old ->
  windows_path data = Some p ->
  PyStr.contains "/" p = false ->
  fst (get_default_configuration_location self w) = Ok d ->
  d !! "win32" = Some (Some out) ->
  PyStr.contains "/" out = false.
Proof.
  intros Hnew Hbasis Hold Hp Hslash Hd Hout.
  destruct (location_lookup self w new data old Hnew Hbasis Hold)
    as (d' & w' & Hrun & Hd').
  rewrite Hrun in Hd. injection Hd as ->.
  rewrite (Hd' "win32") in Hout by (unfold platforms; set_solver).
  unfold stored_path, platform_form in Hout. simpl String.eqb in Hout.
  cbv iota in Hout. rewrite Hp in Hout. unfold suggested in Hout.
  destruct (_ && _); [|done]. injection Hout as <-.
  apply PyStrMore.replace_no_char; [exact Hslash|].
  by apply (PyStrMore.replace_char_gone "/" "\").
Qed.

End LocationMore.

(** ** More on [set_project_disk_name] *)

Section DiskNameMore.
Context {X : Type}.
Context `{!ParameterStore X, !OsInterface X, !ShotgunApi X,
          !PipelineConfigUtils X, !SetupRoutines X}.

Lemma bind_ext {A B} (m : M X A) (k1 k2 : A -> M X B) (w : World X) :
  (forall a w1, k1 a w1 = k2 a w1) -> bind m k1 w = bind m k2 w.
Proof. intros H. unfold bind. destruct (m w) as [[a|e] w1]; [apply H|done]. Qed.

Lemma for_each_app {A} (l1 l2 : list A) (body : A -> M X unit) (w : World X) :
  for_each (l1 ++ l2) body w = bind (for_each l1 body) (fun _ => for_each l2 body) w.
Proof.
  revert w. induction l1 as [|a l1 IH]; intros w; [reflexivity|].
  simpl. rewrite bind_assoc. apply bind_ext. intros _ w1. apply IH.
Qed.

(** A storage whose folder is on disk is passed over with a log record. *)
Lemma create_project_folder_on_disk name s (w : World X) :
  folder_on_disk name (w_ext w) s ->
  exists l, create_project_folder name s w
            = (Ok tt, mkWorld (w_umask w) (w_ext w) l (w_calls w)).
Proof.
  intros (p & Hp & He). unfold create_project_folder.
  rewrite bind_read, Hp. unfold bind at 1, path_exists. rewrite He. simpl.
  by eexists.
Qed.

Lemma for_each_on_disk name storages (w : World X) :
  Forall (folder_on_disk name (w_ext w)) storages ->
  exists l, for_each storages (create_project_folder name) w
            = (Ok tt, mkWorld (w_umask w) (w_ext w) l (w_calls w)).
Proof.
  revert w. induction storages as [|s rest IH]; intros w Hall.
  - exists (w_log w). by destruct w.
  - apply Forall_cons in Hall as [Hs Hrest]. simpl.
    destruct (create_project_folder_on_disk name s w Hs) as (l1 & H1).
    rewrite (bind_Ok _ _ _ _ _ H1).
    destruct (IH (mkWorld (w_umask w) (w_ext w) l1 (w_calls w)) Hrest) as (l2 & H2).
    exists l2. exact H2.
Qed.

(** X12: when the project folder of every required storage is already on
    disk, [set_project_disk_name] creates nothing: once the name is
    validated the storages are passed over with log records only, and the
    setter of the parameter store runs on the state the validation left;
    no [os.makedirs] call is made. *)
Theorem set_project_disk_name_folders_on_disk self name (w : World X) x1 storages :
  validate_project_disk_name name (w_ext w) = (Ok tt, x1) ->
  get_required_storages x1 = Ok storages ->
  Forall (folder_on_disk name x1) storages ->
  (exists l,
     set_project_disk_name self name true w =
     params_set_project_disk_name name
       (mkWorld (w_umask w) x1 l (w_calls w ++ [EvValidateDiskName name]))) /\
  exists evs,
    w_calls (snd (set_project_disk_name self name true w)) = w_calls w ++ evs /\
    Forall not_makedirs evs.
Proof.
  intros Hv Hs Hall.
  assert (exists l,
            set_project_disk_name self name true w =
            params_set_project_disk_name name
              (mkWorld (w_umask w) x1 l (w_calls w ++ [EvValidateDiskName name])))
    as (l & Hrun).
  { rewrite set_project_disk_name_folders, Hv.
    simpl fst. simpl snd. cbv iota.
    rewrite bind_log, bind_read. simpl w_ext. rewrite Hs.
    match goal with
    | |- context [for_each storages _ ?w1] =>
        destruct (for_each_on_disk name storages w1 Hall) as (l & Hloop)
    end.
    rewrite Hloop. by exists l. }
  split; [by exists l|]. rewrite Hrun, params_set_project_disk_name_run.
  simpl w_ext.
  destruct (fst (validate_project_disk_name name x1)) as [[]|e]; simpl.
  - eexists. split; [by rewrite <- List.app_assoc|]. by repeat constructor.
  - eexists. split; [by rewrite <- List.app_assoc|]. by repeat constructor.
Qed.

(** The first storage whose folder is missing, after storages whose
    folders are on disk. *)
Lemma for_each_first_missing name before s after (w : World X) :
  Forall (folder_on_disk name (w_ext w)) before ->
  exists l,
    for_each (before ++ s :: after) (create_project_folder name) w =
    bind (create_project_folder name s)
         (fun _ => for_each after (create_project_folder name))
         (mkWorld (w_umask w) (w_ext w) l (w_calls w)).
Proof.
  intros Hall. destruct (for_each_on_disk name before w Hall) as (l & Hloop).
  exists l. rewrite for_each_app. by rewrite (bind_Ok _ _ _ _ _ Hloop).
Qed.

Lemma bind_path_exists {B} p (k : bool -> M X B) (w : World X) :
  bind (path_exists (Some p)) k w = k (os_path_exists p (w_ext w)) w.
Proof. reflexivity. Qed.

Lemma bind_os_umask {B} mask (k : N -> M X B) (w : World X) :
  bind (os_umask mask) k w
  = k (w_umask w) (mkWorld mask (w_ext w) (w_log w) (w_calls w)).
Proof. reflexivity. Qed.

Lemma create_project_folder_fails name s (w : World X) p e x2 :
  preview_project_path s name sys_platform (w_ext w) = Ok (Some p) ->
  os_path_exists p (w_ext w) = false ->
  os_makedirs p 511 0 (w_ext w) = (Raise e, x2) ->
  exists l,
    create_project_folder name s w =
    (Raise e, mkWorld (w_umask w) x2 l (w_calls w ++ [EvMakedirs p 511 0])).
Proof.
  intros Hp He Hm. unfold create_project_folder.
  rewrite bind_read, Hp, bind_path_exists, He. change (negb false) with true.
  cbv iota.
  rewrite bind_log, bind_os_umask. simpl.
  unfold bind at 1, try_finally, makedirs, call. simpl. rewrite Hm. simpl.
  by eexists.
Qed.

Lemma create_project_folder_pathless name s (w : World X) :
  preview_project_path s name sys_platform (w_ext w) = Ok None ->
  create_project_folder name s w = (Raise path_type_error, w).
Proof.
  intros Hp. unfold create_project_folder. by rewrite bind_read, Hp.
Qed.

(** X13: an exception of [os.makedirs] is passed on as it is and ends the
    call: when the first missing project folder cannot be created,
    [set_project_disk_name] raises that exception after this one
    [os.makedirs] call; the storages behind it are not visited, the name
    is not stored and the umask is back at its value. *)
Theorem set_project_disk_name_makedirs_fails
    self name (w : World X) x1 before s after p e x2 :
  validate_project_disk_name name (w_ext w) = (Ok tt, x1) ->
  get_required_storages x1 = Ok (before ++ s :: after) ->
  Forall (folder_on_disk name x1) before ->
  preview_project_path s name sys_platform x1 = Ok (Some p) ->
  os_path_exists p x1 = false ->
  os_makedirs p 511 0 x1 = (Raise e, x2) ->
  outcome (set_project_disk_name self name true w) w (Raise e) x2
    [EvValidateDiskName name; EvMakedirs p 511 0] /\
  w_umask (snd (set_project_disk_name self name true w)) = w_umask w.
Proof.
  intros Hv Hs Hall Hp He Hm.
  assert (exists l,
            set_project_disk_name self name true w =
            (Raise e,
             mkWorld (w_umask w) x2 l
               (w_calls w ++ [EvValidateDiskName name; EvMakedirs p 511 0])))
    as (l & ->); [|by unfold outcome].
  rewrite set_project_disk_name_folders, Hv.
  simpl fst. simpl snd. cbv iota.
  rewrite bind_log, bind_read. simpl w_ext. rewrite Hs.
  match goal with
  | |- context [for_each _ _ ?w1] =>
      destruct (for_each_first_missing name before s after w1 Hall) as (l & Hloop)
  end.
  rewrite Hloop.
  match goal with
  | |- context [bind _ _ ?w1] =>
      destruct (create_project_folder_fails name s w1 p e x2 Hp He Hm) as (l' & Hf)
  end.
  rewrite (bind_Raise _ _ _ _ _ Hf). simpl.
  eexists. by rewrite <- List.app_assoc.
Qed.

(** X14: a required storage for which the parameter store previews no
    path on the current platform stops the call: [os.path.exists] raises
    [TypeError] on [None]; nothing is created and the name is not
    stored. *)
Theorem set_project_disk_name_pathless_storage
    self name (w : World X) x1 before s after :
  validate_project_disk_name name (w_ext w) = (Ok tt, x1) ->
  get_required_storages x1 = Ok (before ++ s :: after) ->
  Forall (folder_on_disk name x1) before ->
  preview_project_path s name sys_platform x1 = Ok None ->
  outcome (set_project_disk_name self name true w) w
    (Raise (Exn TypeError "coercing to Unicode: need string or buffer, NoneType found"))
    x1 [EvValidateDiskName name].
Proof.
  intros Hv Hs Hall Hp.
  assert (exists l,
            set_project_disk_name self name true w =
            (Raise path_type_error,
             mkWorld (w_umask w) x1 l (w_calls w ++ [EvValidateDiskName name])))
    as (l & ->); [|by unfold outcome].
  rewrite set_project_disk_name_folders, Hv.
  simpl fst. simpl snd. cbv iota.
  rewrite bind_log, bind_read. simpl w_ext. rewrite Hs.
  match goal with
  | |- context [for_each _ _ ?w1] =>
      destruct (for_each_first_missing name before s after w1 Hall) as (l & Hloop)
  end.
  rewrite Hloop.
  match goal with
  | |- context [bind _ _ ?w1] =>
      rewrite (bind_Raise _ _ _ _ _ (create_project_folder_pathless name s w1 Hp))
  end.
  by eexists.
Qed.

End DiskNameMore.

(** ** More on [execute] *)

Section ExecuteMore.
Context {X : Type}.
Context `{!ParameterStore X, !OsInterface X, !ShotgunApi X,
          !PipelineConfigUtils X, !SetupRoutines X}.

Lemma lookup_unsupported (platform : string) :
  platform ∉ platforms -> lookup !! platform = None.
Proof.
  intros Hn. unfold lookup.
  rewrite !lookup_insert_ne; [apply lookup_empty|..];
    intros <-; apply Hn; unfold platforms; set_solver.
Qed.

(** [resolve_core] up to the look-up of the platform. *)
Lemma resolve_core_head self (w : World X) cur d0 basis :
  get_path_to_current_core (w_ext w) = Ok cur ->
  resolve_all_os_paths_to_core (Some cur) (w_ext w) = Ok d0 ->
  fst (basis_record self w) = Ok basis ->
  (basis = None -> fst (resolve_core self w) = Ok (d0, true)) /\
  (forall data e,
     basis = Some data -> getitem lookup sys_platform = Raise e ->
     fst (resolve_core self w) = Raise e).
Proof.
  intros Hcur Hd0 Hbasis.
  unfold resolve_core. rewrite bind_log, bind_read. simpl w_ext. rewrite Hcur.
  rewrite bind_read. simpl w_ext. rewrite Hd0.
  rewrite bind_read. simpl w_ext.
  apply basis_record_inv in Hbasis as [(d & Hinfo & ->)|[Hinfo Hfind]];
    rewrite Hinfo; cbv beta iota.
  - split; [done|]. intros data e [= <-] Hget.
    by rewrite bind_assoc, bind_log, bind_ret, bind_lift, Hget.
  - rewrite bind_assoc, bind_read. simpl w_ext. rewrite Hfind. split.
    + intros ->. by rewrite bind_assoc, bind_log, bind_ret.
    + intros data e -> Hget.
      by rewrite bind_assoc, bind_log, bind_ret, bind_lift, Hget.
Qed.

(** Nothing is run behind a failed resolution of the core. *)
Lemma execute_stops_unresolved self (w : World X) e :
  fst (resolve_core self w) = Raise e ->
  outcome (execute self w) w (Raise e) (w_ext w) [].
Proof.
  intros Hres.
  pose proof (resolve_core_only_logs self w) as (Hx & Hc & _).
  destruct (resolve_core self w) as [r w0] eqn:E. simpl in Hres, Hx, Hc. subst r.
  unfold execute, outcome. rewrite (bind_Raise _ _ _ _ _ E). simpl.
  by rewrite Hx, Hc, List.app_nil_r.
Qed.


(** X17: the platform is only looked up when there is a basis record.
    On a platform other than [darwin], [linux2] and [win32], a basis
    record makes [execute] raise [KeyError] for the platform before any
    step is run, while without a basis record the defaults are resolved
    as on any other platform. *)
Theorem execute_unsupported_platform self (w : World X) cur d0 basis :
  get_path_to_current_core (w_ext w) = Ok cur ->
  resolve_all_os_paths_to_core (Some cur) (w_ext w) = Ok d0 ->
  fst (basis_record self w) = Ok basis ->
  sys_platform ∉ platforms ->
  (forall data,
     basis = Some data ->
     outcome (execute self w) w (Raise (Exn KeyError sys_platform)) (w_ext w) []) /\
  (basis = None ->
   fst (resolve_core self w) = Ok (d0, true) /\ commits_core (execute self w) w d0).
Proof.
  intros Hcur Hd0 Hbasis Hn.
  destruct (resolve_core_head self w cur d0 basis Hcur Hd0 Hbasis) as [Hnone Hsome].
  split.
  - intros data ->. apply execute_stops_unresolved.
    apply (Hsome data); [done|]. unfold getitem.
    by rewrite (lookup_unsupported _ Hn).
  - intros ->. split; [by apply Hnone|].
    eapply execute_commits. by apply Hnone.
Qed.

(** X18: when the project is to be localized but the configuration
    location of the current platform cannot be read, [execute] raises
    after the project setup has run: the project is set up, the
    localization is never called and nothing is undone. *)
Theorem execute_location_unreadable self (w : World X) paths x1 x2 x3 e :
  fst (resolve_core self w) = Ok (paths, true) ->
  set_associated_core_path (linux2 paths) (win32 paths) (darwin paths) (w_ext w)
  = (Ok tt, x1) ->
  pre_setup_validation x1 = (Ok tt, x2) ->
  run_project_setup (_sg self) (_sg_app_store self) (_sg_app_store_script_user self) x2
  = (Ok tt, x3) ->
  get_configuration_location sys_platform x3 = Raise e ->
  outcome (execute self w) w (Raise e) x3
    [EvSetCorePath (linux2 paths) (win32 paths) (darwin paths);
     EvPreSetupValidation; EvRunProjectSetup].
Proof.
  intros Hres H1 H2 H3 Hloc.
  destruct (execute_run self w paths true Hres) as (u & l & Hrun).
  unfold outcome. rewrite Hrun. cbv zeta. rewrite H1. simpl fst. simpl snd.
  rewrite H2. simpl fst. simpl snd. rewrite H3. simpl fst. simpl snd.
  by rewrite Hloc.
Qed.

(** X19: the first project of a site.  With no template record and no
    primary configuration on the service, on whatever platform, [execute]
    commits the core of the running code, validates, sets the project up
    and localizes the configuration location of the platform with prompts
    suppressed; its result is the result of the localization. *)
Theorem execute_first_project self (w : World X) cur d0 x1 x2 x3 location r4 x4 :
  get_path_to_current_core (w_ext w) = Ok cur ->
  resolve_all_os_paths_to_core (Some cur) (w_ext w) = Ok d0 ->
  get_configuration_shotgun_info (w_ext w) = Ok None ->
  find_one (_sg self) primary_query (w_ext w) = Ok None ->
  set_associated_core_path (linux2 d0) (win32 d0) (darwin d0) (w_ext w) = (Ok tt, x1) ->
  pre_setup_validation x1 = (Ok tt, x2) ->
  run_project_setup (_sg self) (_sg_app_store self) (_sg_app_store_script_user self) x2
  = (Ok tt, x3) ->
  get_configuration_location sys_platform x3 = Ok location ->
  do_localize location true x3 = (r4, x4) ->
  outcome (execute self w) w r4 x4
    [EvSetCorePath (linux2 d0) (win32 d0) (darwin d0);
     EvPreSetupValidation; EvRunProjectSetup; EvLocalize location true].
Proof.
  intros Hcur Hd0 Hinfo Hfind H1 H2 H3 Hloc H4.
  assert (fst (basis_record self w) = Ok None) as Hbasis.
  { unfold basis_record. by rewrite bind_read, Hinfo. }
  destruct (resolve_core_head self w cur d0 None Hcur Hd0 Hbasis) as [Hres _].
  destruct (execute_run self w d0 true (Hres eq_refl)) as (u & l & Hrun).
  unfold outcome. rewrite Hrun. cbv zeta. rewrite H1. simpl fst. simpl snd.
  rewrite H2. simpl fst. simpl snd. rewrite H3. simpl fst. simpl snd.
  by rewrite Hloc, H4.
Qed.

End ExecuteMore.

(** ** More on [preview_project_paths] *)

Section PreviewMore.
Context {X : Type}.
Context `{!ParameterStore X, !OsInterface X, !ShotgunApi X,
          !PipelineConfigUtils X, !SetupRoutines X}.

Lemma preview_storage_raises name s rd (w : World X) platform e :
  platform ∈ platforms ->
  preview_project_path s name platform (w_ext w) = Raise e ->
  exists e', fst (preview_storage name s rd w) = Raise e'.
Proof.
  intros Hp He. unfold preview_storage. rewrite bind_read.
  apply elem_of_platforms in Hp as [Hp|[Hp|Hp]]; subst platform.
  - rewrite He. by eexists.
  - destruct (preview_project_path s name "darwin" (w_ext w)); [|by eexists].
    rewrite bind_read.
    destruct (preview_project_path s name "win32" (w_ext w)); [|by eexists].
    rewrite bind_read, He. by eexists.
  - destruct (preview_project_path s name "darwin" (w_ext w)); [|by eexists].
    rewrite bind_read, He. by eexists.
Qed.

Lemma preview_loop_raises name storages rd (w : World X) s platform e :
  s ∈ storages -> platform ∈ platforms ->
  preview_project_path s name platform (w_ext w) = Raise e ->
  exists e', fst (preview_loop name storages rd w) = Raise e'.
Proof.
  revert rd. induction storages as [|s0 rest IH]; intros rd Hin Hp He.
  - by apply elem_of_nil in Hin.
  - simpl. unfold bind.
    pose proof (preview_storage_state name s0 rd w) as Hst.
    destruct (preview_storage name s0 rd w) as [[rd'|e0] w1] eqn:Hs0;
      simpl in Hst; subst w1; [|by eexists].
    apply elem_of_cons in Hin as [->|Hin].
    + destruct (preview_storage_raises name s0 rd w platform e Hp He) as (e' & He').
      rewrite Hs0 in He'. done.
    + by apply IH.
Qed.

(** X20: there is no partial preview.  When the parameter store raises
    for some required storage on some platform, [preview_project_paths]
    raises and returns no dictionary; and when the required storages
    cannot be listed it raises that exception.  The world is left as it
    was. *)
Theorem preview_project_paths_raises self name (w : World X) :
  (forall storages s platform e,
     get_required_storages (w_ext w) = Ok storages ->
     s ∈ storages -> platform ∈ platforms ->
     preview_project_path s name platform (w_ext w) = Raise e ->
     exists e', preview_project_paths self name w = (Raise e', w)) /\
  (forall e,
     get_required_storages (w_ext w) = Raise e ->
     preview_project_paths self name w = (Raise e, w)).
Proof.
  split.
  - intros storages s platform e Hs Hin Hp He.
    pose proof (preview_project_paths_state self name w) as Hst.
    unfold preview_project_paths in *. rewrite bind_read, Hs in *.
    destruct (preview_loop_raises name storages ∅ w s platform e Hin Hp He)
      as (e' & He').
    exists e'. destruct (preview_loop name storages ∅ w) as [r w1].
    simpl in *. by subst.
  - intros e He. unfold preview_project_paths. by rewrite bind_read, He.
Qed.

End PreviewMore.

(** ** Runs of the connection step *)

Lemma shotgun_connect_interrupt_witness :
  create_sg_connection (w_ext (Scripted.host "linux2" Scripted.interrupted []))
  = (Ok Studio.site, w_ext (Scripted.host "linux2" Scripted.interrupted [])) /\
  server_info Studio.site !! "version" = Some [5; 3; 10]%N /\
  create_sg_app_store_connection (w_ext (Scripted.host "linux2" Scripted.interrupted []))
  = (Raise (Exn KeyboardInterrupt ""),
     w_ext (Scripted.host "linux2" Scripted.interrupted [])) /\
  is_Exception (Exn KeyboardInterrupt "") = false /\
  outcome (_shotgun_connect (Scripted.host "linux2" Scripted.interrupted []))
    (Scripted.host "linux2" Scripted.interrupted [])
    (Raise (Exn KeyboardInterrupt ""))
    (w_ext (Scripted.host "linux2" Scripted.interrupted []))
    [EvConnectSg; EvConnectAppStore].
Proof.
  repeat (split; [reflexivity|]).
  pose proof (shotgun_connect_interrupt (Scripted.host "linux2" Scripted.interrupted [])
                Studio.site [5; 3; 10]%N
                (w_ext (Scripted.host "linux2" Scripted.interrupted []))
                (Exn KeyboardInterrupt "")
                (w_ext (Scripted.host "linux2" Scripted.interrupted []))) as H.
  apply H; reflexivity.
Defined.

Lemma shotgun_connect_discards_mute_store_witness :
  create_sg_connection (w_ext (Scripted.host "linux2" Scripted.mute_store []))
  = (Ok Studio.site, w_ext (Scripted.host "linux2" Scripted.mute_store [])) /\
  server_info Studio.site !! "version" = Some [5; 3; 10]%N /\
  create_sg_app_store_connection (w_ext (Scripted.host "linux2" Scripted.mute_store []))
  = (Ok (Scripted.mute, Studio.store_user),
     w_ext (Scripted.host "linux2" Scripted.mute_store [])) /\
  server_info Scripted.mute !! "version" = None /\
  outcome (_shotgun_connect (Scripted.host "linux2" Scripted.mute_store []))
    (Scripted.host "linux2" Scripted.mute_store [])
    (Ok (Studio.site, None, None))
    (w_ext (Scripted.host "linux2" Scripted.mute_store []))
    [EvConnectSg; EvConnectAppStore].
Proof.
  repeat (split; [reflexivity|]).
  pose proof (shotgun_connect_discards_mute_store
                (Scripted.host "linux2" Scripted.mute_store [])
                Studio.site [5; 3; 10]%N
                (w_ext (Scripted.host "linux2" Scripted.mute_store []))
                Scripted.mute Studio.store_user
                (w_ext (Scripted.host "linux2" Scripted.mute_store []))) as H.
  apply H; reflexivity.
Defined.

Lemma shotgun_connect_mute_site_witness :
  create_sg_connection (w_ext (Scripted.host "linux2" Scripted.mute_site []))
  = (Ok Scripted.mute, w_ext (Scripted.host "linux2" Scripted.mute_site [])) /\
  server_info Scripted.mute !! "version" = None /\
  exists msg,
    outcome (_shotgun_connect (Scripted.host "linux2" Scripted.mute_site []))
      (Scripted.host "linux2" Scripted.mute_site [])
      (Raise (Exn TankError msg))
      (w_ext (Scripted.host "linux2" Scripted.mute_site [])) [EvConnectSg].
Proof.
  repeat (split; [reflexivity|]).
  pose proof (shotgun_connect_mute_site (Scripted.host "linux2" Scripted.mute_site [])
                Scripted.mute
                (w_ext (Scripted.host "linux2" Scripted.mute_site []))) as H.
  apply H; reflexivity.
Defined.

Lemma shotgun_connect_both_witness :
  create_sg_connection (w_ext (Studio.world Studio.studio))
  = (Ok Studio.site, Studio.studio) /\
  server_info Studio.site !! "version" = Some [5; 3; 10]%N /\
  create_sg_app_store_connection Studio.studio
  = (Ok (Studio.app_store, Studio.store_user), Studio.studio) /\
  server_info Studio.app_store !! "version" = Some [6; 0; 0]%N /\
  outcome (_shotgun_connect (Studio.world Studio.studio)) (Studio.world Studio.studio)
    (Ok (Studio.site, Some Studio.app_store, Some Studio.store_user)) Studio.studio
    [EvConnectSg; EvConnectAppStore] /\
  w_log (snd (_shotgun_connect (Studio.world Studio.studio))) =
  [(Info, "Connecting to Shotgun...");
   (Debug, "Connected to target Shotgun server! (v5.3.10)");
   (Info, "Connecting to the App Store...");
   (Debug, "Connected to App Store! (v6.0.0)")].
Proof.
  repeat (split; [reflexivity|]).
  pose proof (shotgun_connect_both (Studio.world Studio.studio)
                Studio.site [5; 3; 10]%N Studio.studio
                Studio.app_store Studio.store_user [6; 0; 0]%N Studio.studio) as H.
  apply H; reflexivity.
Defined.

Lemma shotgun_connect_store_handle_witness :
  fst (_shotgun_connect (Studio.world Studio.studio))
  = Ok (Studio.site, Some Studio.app_store, Some Studio.store_user) /\
  exists u,
    Some Studio.store_user = Some u /\
    fst (create_sg_app_store_connection
           (snd (create_sg_connection (w_ext (Studio.world Studio.studio)))))
    = Ok (Studio.app_store, u) /\
    is_Some (server_info Studio.app_store !! "version").
Proof.
  split; [reflexivity|].
  pose proof (shotgun_connect_store_handle (Studio.world Studio.studio)
                Studio.site Studio.app_store (Some Studio.store_user)) as H.
  apply H. reflexivity.
Defined.

Lemma run_noninteractive_without_store_witness :
  create_sg_connection (w_ext (Scripted.host "linux2" Scripted.no_store []))
  = (Ok Studio.site, w_ext (Scripted.host "linux2" Scripted.no_store [])) /\
  server_info Studio.site !! "version" = Some [5; 3; 10]%N /\
  create_sg_app_store_connection (w_ext (Scripted.host "linux2" Scripted.no_store []))
  = (Raise (Exn OtherException "app store unreachable"),
     w_ext (Scripted.host "linux2" Scripted.no_store [])) /\
  is_Exception (Exn OtherException "app store unreachable") = true /\
  new_ProjectSetupParameters Studio.site None None
    (w_ext (Scripted.host "linux2" Scripted.no_store []))
  = (Ok tt, w_ext (Scripted.host "linux2" Scripted.no_store [])) /\
  (fst (run_noninteractive (Scripted.host "linux2" Scripted.no_store []))
   = Ok (mkWizard Studio.site None None) /\
   w_ext (snd (run_noninteractive (Scripted.host "linux2" Scripted.no_store [])))
   = w_ext (Scripted.host "linux2" Scripted.no_store [])) /\
  create_sg_connection (w_ext (Studio.world Studio.offline))
  = (Raise (Exn OtherException "connection refused"), Studio.offline) /\
  (exists e', fst (run_noninteractive (Studio.world Studio.offline)) = Raise e') /\
  w_ext (snd (run_noninteractive (Studio.world Studio.offline))) = Studio.offline.
Proof.
  repeat (split; [reflexivity|]).
  split.
  { pose proof (proj1 (run_noninteractive_without_store
                         (Scripted.host "linux2" Scripted.no_store []))
                  Studio.site [5; 3; 10]%N
                  (w_ext (Scripted.host "linux2" Scripted.no_store []))
                  (Exn OtherException "app store unreachable")
                  (w_ext (Scripted.host "linux2" Scripted.no_store []))
                  (w_ext (Scripted.host "linux2" Scripted.no_store []))) as H.
    apply H; reflexivity. }
  split; [reflexivity|].
  pose proof (proj2 (run_noninteractive_without_store (Studio.world Studio.offline))
                (Exn OtherException "connection refused") Studio.offline) as H.
  apply H. reflexivity.
Defined.

(** ** Further runs of the wizard *)

Lemma default_location_needs_names_witness :
  get_project_disk_name (w_ext (Studio.world Studio.locked)) = Ok None /\
  get_default_configuration_location Studio.wizard (Studio.world Studio.locked) =
  (Raise (Exn AttributeError "'NoneType' object has no attribute 'replace'"),
   Studio.world Studio.locked) /\
  get_project_disk_name
    (w_ext (Studio.world (Cases.linked_to Cases.nameless (Some "new"))))
  = Ok (Some "new") /\
  fst (basis_record Studio.wizard
         (Studio.world (Cases.linked_to Cases.nameless (Some "new"))))
  = Ok (Some Cases.nameless) /\
  project_tank_name Cases.nameless = None /\
  fst (get_default_configuration_location Studio.wizard
         (Studio.world (Cases.linked_to Cases.nameless (Some "new")))) =
  Raise (Exn AttributeError "'NoneType' object has no attribute 'replace'").
Proof.
  split; [reflexivity|]. split.
  { pose proof (proj1 (default_location_needs_names Studio.wizard
                         (Studio.world Studio.locked))) as H.
    apply H. reflexivity. }
  repeat (split; [reflexivity|]).
  pose proof (proj2 (default_location_needs_names Studio.wizard
                       (Studio.world (Cases.linked_to Cases.nameless (Some "new"))))
                "new" Cases.nameless) as H.
  apply H; reflexivity.
Defined.

Lemma default_location_keys_witness :
  fst (get_default_configuration_location Studio.wizard (Studio.world Studio.fresh))
  = Ok all_none /\
  dom all_none = list_to_set platforms.
Proof.
  split; [reflexivity|].
  pose proof (default_location_keys Studio.wizard (Studio.world Studio.fresh) all_none)
    as H.
  apply H. reflexivity.
Defined.

Lemma default_location_same_name_witness :
  get_project_disk_name
    (w_ext (Studio.world (Cases.linked_to Studio.earlier (Some "foo/bar"))))
  = Ok (Some "foo/bar") /\
  fst (basis_record Studio.wizard
         (Studio.world (Cases.linked_to Studio.earlier (Some "foo/bar"))))
  = Ok (Some Studio.earlier) /\
  project_tank_name Studio.earlier = Some "foo/bar" /\
  exists d w',
    get_default_configuration_location Studio.wizard
      (Studio.world (Cases.linked_to Studio.earlier (Some "foo/bar")))
    = (Ok d, w') /\
    forall platform p,
      platform ∈ platforms ->
      stored_path Studio.earlier platform = Some p -> p <> "" ->
      occurs_in (platform_form platform "foo/bar") p ->
      d !! platform = Some (Some p).
Proof.
  repeat (split; [reflexivity|]).
  pose proof (default_location_same_name Studio.wizard
                (Studio.world (Cases.linked_to Studio.earlier (Some "foo/bar")))
                "foo/bar" Studio.earlier) as H.
  apply H; reflexivity.
Defined.

Lemma default_location_empty_old_name_witness :
  get_project_disk_name
    (w_ext (Studio.world (Cases.linked_to Cases.unnamed (Some "new"))))
  = Ok (Some "new") /\
  fst (basis_record Studio.wizard
         (Studio.world (Cases.linked_to Cases.unnamed (Some "new"))))
  = Ok (Some Cases.unnamed) /\
  project_tank_name Cases.unnamed = Some "" /\
  exists d w',
    get_default_configuration_location Studio.wizard
      (Studio.world (Cases.linked_to Cases.unnamed (Some "new")))
    = (Ok d, w') /\
    forall platform p,
      platform ∈ platforms ->
      stored_path Cases.unnamed platform = Some p -> p <> "" ->
      d !! platform = Some (Some (PyStr.interleave (platform_form platform "new") p)).
Proof.
  repeat (split; [reflexivity|]).
  pose proof (default_location_empty_old_name Studio.wizard
                (Studio.world (Cases.linked_to Cases.unnamed (Some "new")))
                "new" Cases.unnamed) as H.
  apply H; reflexivity.
Defined.

(** With the empty old name, the mac path [/ab] becomes [new/newanewbnew]. *)
Example empty_old_name_run :
  match fst (get_default_configuration_location Studio.wizard
               (Studio.world (Cases.linked_to Cases.unnamed (Some "new")))) with
  | Ok d => Some (d !! "darwin", d !! "linux2", d !! "win32")
  | Raise _ => None
  end
  = Some (Some (Some "new/newanewbnew"), Some None, Some None).
Proof. reflexivity. Qed.

Lemma set_project_disk_name_folders_on_disk_witness :
  validate_project_disk_name "baz/qux" (w_ext (Studio.world Cases.settled))
  = (Ok tt, Cases.settled) /\
  get_required_storages Cases.settled = Ok ["primary"; "textures"] /\
  Forall (folder_on_disk "baz/qux" Cases.settled) ["primary"; "textures"] /\
  exists evs,
    w_calls (snd (set_project_disk_name Studio.wizard "baz/qux" true
                    (Studio.world Cases.settled)))
    = w_calls (Studio.world Cases.settled) ++ evs /\
    Forall not_makedirs evs.
Proof.
  assert (Forall (folder_on_disk "baz/qux" Cases.settled) ["primary"; "textures"])
    as Hall.
  { repeat constructor.
    - exists "/mnt/primary/baz/qux". by split.
    - exists "/mnt/textures/baz/qux". by split. }
  split; [reflexivity|]. split; [reflexivity|]. split; [exact Hall|].
  pose proof (set_project_disk_name_folders_on_disk Studio.wizard "baz/qux"
                (Studio.world Cases.settled) Cases.settled ["primary"; "textures"])
    as H.
  apply H; [reflexivity|reflexivity|exact Hall].
Defined.

(** The folders of [baz/qux] are on disk: the name is validated twice and
    stored, and nothing is created. *)
Example folders_on_disk_run :
  w_calls (snd (set_project_disk_name Studio.wizard "baz/qux" true
                  (Studio.world Cases.settled)))
  = [EvValidateDiskName "baz/qux"; EvValidateDiskName "baz/qux";
     EvStoreDiskName "baz/qux"].
Proof. reflexivity. Qed.

Lemma set_project_disk_name_makedirs_fails_witness :
  validate_project_disk_name "show" (w_ext (Studio.world Cases.half_locked))
  = (Ok tt, Cases.half_locked) /\
  get_required_storages Cases.half_locked = Ok (["primary"] ++ ("readonly" :: ["textures"])) /\
  Forall (folder_on_disk "show" Cases.half_locked) ["primary"] /\
  preview_project_path "readonly" "show" "linux2" Cases.half_locked
  = Ok (Some "/mnt/readonly/show") /\
  os_path_exists "/mnt/readonly/show" Cases.half_locked = false /\
  os_makedirs "/mnt/readonly/show" 511 0 Cases.half_locked
  = (Raise (Exn OSError "Permission denied: '/mnt/readonly/show'"), Cases.half_locked) /\
  outcome (set_project_disk_name Studio.wizard "show" true
             (Studio.world Cases.half_locked))
    (Studio.world Cases.half_locked)
    (Raise (Exn OSError "Permission denied: '/mnt/readonly/show'"))
    Cases.half_locked
    [EvValidateDiskName "show"; EvMakedirs "/mnt/readonly/show" 511 0] /\
  w_umask (snd (set_project_disk_name Studio.wizard "show" true
                  (Studio.world Cases.half_locked))) = 18%N.
Proof.
  assert (Forall (folder_on_disk "show" Cases.half_locked) ["primary"]) as Hall.
  { repeat constructor. exists "/mnt/primary/show". by split. }
  split; [reflexivity|]. split; [reflexivity|]. split; [exact Hall|].
  repeat (split; [reflexivity|]).
  pose proof (set_project_disk_name_makedirs_fails Studio.wizard "show"
                (Studio.world Cases.half_locked) Cases.half_locked
                ["primary"] "readonly" ["textures"] "/mnt/readonly/show"
                (Exn OSError "Permission denied: '/mnt/readonly/show'")
                Cases.half_locked) as H.
  apply H; [reflexivity|reflexivity|exact Hall|reflexivity..].
Defined.

Lemma set_project_disk_name_pathless_storage_witness :
  validate_project_disk_name "show"
    (w_ext (Scripted.host "linux2" Scripted.pathless ["/primary"]))
  = (Ok tt, w_ext (Scripted.host "linux2" Scripted.pathless ["/primary"])) /\
  get_required_storages (w_ext (Scripted.host "linux2" Scripted.pathless ["/primary"]))
  = Ok (["primary"] ++ ("scratch" :: [])) /\
  Forall (folder_on_disk "show"
            (w_ext (Scripted.host "linux2" Scripted.pathless ["/primary"])))
         ["primary"] /\
  preview_project_path "scratch" "show" "linux2"
    (w_ext (Scripted.host "linux2" Scripted.pathless ["/primary"]))
  = Ok None /\
  outcome (set_project_disk_name Studio.wizard "show" true
             (Scripted.host "linux2" Scripted.pathless ["/primary"]))
    (Scripted.host "linux2" Scripted.pathless ["/primary"])
    (Raise (Exn TypeError "coercing to Unicode: need string or buffer, NoneType found"))
    (w_ext (Scripted.host "linux2" Scripted.pathless ["/primary"]))
    [EvValidateDiskName "show"].
Proof.
  assert (Forall (folder_on_disk "show"
                    (w_ext (Scripted.host "linux2" Scripted.pathless ["/primary"])))
                 ["primary"]) as Hall.
  { repeat constructor. exists "/primary". by split. }
  split; [reflexivity|]. split; [reflexivity|]. split; [exact Hall|].
  split; [reflexivity|].
  pose proof (set_project_disk_name_pathless_storage Studio.wizard "show"
                (Scripted.host "linux2" Scripted.pathless ["/primary"])
                (w_ext (Scripted.host "linux2" Scripted.pathless ["/primary"]))
                ["primary"] "scratch" []) as H.
  apply H; [reflexivity|reflexivity|exact Hall|reflexivity].
Defined.


Lemma execute_unsupported_platform_witness :
  get_path_to_current_core (w_ext (Scripted.host "freebsd9" Scripted.base []))
  = Ok "/opt/core" /\
  resolve_all_os_paths_to_core (Some "/opt/core")
    (w_ext (Scripted.host "freebsd9" Scripted.base []))
  = Ok (mkPaths (Some "/opt/core") (Some "/opt/core") (Some "/opt/core")) /\
  fst (basis_record Studio.wizard (Scripted.host "freebsd9" Scripted.base []))
  = Ok (Some Studio.earlier) /\
  ("freebsd9" ∉ platforms) /\
  outcome (execute Studio.wizard (Scripted.host "freebsd9" Scripted.base []))
    (Scripted.host "freebsd9" Scripted.base [])
    (Raise (Exn KeyError "freebsd9"))
    (w_ext (Scripted.host "freebsd9" Scripted.base [])) [] /\
  fst (basis_record Studio.wizard (Scripted.host "freebsd9" Scripted.unlocated []))
  = Ok None /\
  fst (resolve_core Studio.wizard (Scripted.host "freebsd9" Scripted.unlocated []))
  = Ok (mkPaths (Some "/opt/core") (Some "/opt/core") (Some "/opt/core"), true).
Proof.
  assert ("freebsd9" ∉ platforms) as Hn.
  { unfold platforms. rewrite !not_elem_of_cons. repeat split; [done..|].
    apply not_elem_of_nil. }
  split; [reflexivity|]. split; [reflexivity|]. split; [reflexivity|].
  split; [exact Hn|]. split.
  { pose proof (execute_unsupported_platform Studio.wizard
                  (Scripted.host "freebsd9" Scripted.base []) "/opt/core"
                  (mkPaths (Some "/opt/core") (Some "/opt/core") (Some "/opt/core"))
                  (Some Studio.earlier)) as H.
    destruct H as [H _]; [reflexivity..|exact Hn|].
    apply (H Studio.earlier). reflexivity. }
  split; [reflexivity|].
  pose proof (execute_unsupported_platform Studio.wizard
                (Scripted.host "freebsd9" Scripted.unlocated []) "/opt/core"
                (mkPaths (Some "/opt/core") (Some "/opt/core") (Some "/opt/core"))
                None) as H.
  destruct H as [_ H]; [reflexivity..|exact Hn|].
  apply H. reflexivity.
Defined.

Lemma execute_location_unreadable_witness :
  fst (resolve_core Studio.wizard (Scripted.host "linux2" Scripted.unlocated []))
  = Ok (mkPaths (Some "/opt/core") (Some "/opt/core") (Some "/opt/core"), true) /\
  set_associated_core_path (Some "/opt/core") (Some "/opt/core") (Some "/opt/core")
    (w_ext (Scripted.host "linux2" Scripted.unlocated []))
  = (Ok tt, w_ext (Scripted.host "linux2" Scripted.unlocated [])) /\
  pre_setup_validation (w_ext (Scripted.host "linux2" Scripted.unlocated []))
  = (Ok tt, w_ext (Scripted.host "linux2" Scripted.unlocated [])) /\
  run_project_setup Studio.site (Some Studio.app_store) (Some Studio.store_user)
    (w_ext (Scripted.host "linux2" Scripted.unlocated []))
  = (Ok tt, w_ext (Scripted.host "linux2" Scripted.unlocated [])) /\
  get_configuration_location "linux2"
    (w_ext (Scripted.host "linux2" Scripted.unlocated []))
  = Raise (Exn TankError "No configuration location has been set!") /\
  outcome (execute Studio.wizard (Scripted.host "linux2" Scripted.unlocated []))
    (Scripted.host "linux2" Scripted.unlocated [])
    (Raise (Exn TankError "No configuration location has been set!"))
    (w_ext (Scripted.host "linux2" Scripted.unlocated []))
    [EvSetCorePath (Some "/opt/core") (Some "/opt/core") (Some "/opt/core");
     EvPreSetupValidation; EvRunProjectSetup].
Proof.
  repeat (split; [reflexivity|]).
  pose proof (execute_location_unreadable Studio.wizard
                (Scripted.host "linux2" Scripted.unlocated [])
                (mkPaths (Some "/opt/core") (Some "/opt/core") (Some "/opt/core"))
                (w_ext (Scripted.host "linux2" Scripted.unlocated []))
                (w_ext (Scripted.host "linux2" Scripted.unlocated []))
                (w_ext (Scripted.host "linux2" Scripted.unlocated []))
                (Exn TankError "No configuration location has been set!")) as H.
  apply H; reflexivity.
Defined.

Lemma execute_first_project_witness :
  get_path_to_current_core (w_ext (Studio.world Studio.fresh)) = Ok "/studio/core" /\
  resolve_all_os_paths_to_core (Some "/studio/core") (w_ext (Studio.world Studio.fresh))
  = Ok Studio.running_core /\
  get_configuration_shotgun_info (w_ext (Studio.world Studio.fresh)) = Ok None /\
  find_one Studio.site primary_query (w_ext (Studio.world Studio.fresh)) = Ok None /\
  exists x1 x2 x3 x4,
    set_associated_core_path (Some "/studio/core") (Some "P:\studio\core")
      (Some "/Volumes/studio/core") (w_ext (Studio.world Studio.fresh))
    = (Ok tt, x1) /\
    pre_setup_validation x1 = (Ok tt, x2) /\
    run_project_setup Studio.site (Some Studio.app_store) (Some Studio.store_user) x2
    = (Ok tt, x3) /\
    get_configuration_location "linux2" x3 = Ok (Some "/mnt/configs/first") /\
    do_localize (Some "/mnt/configs/first") true x3 = (Ok tt, x4) /\
    outcome (execute Studio.wizard (Studio.world Studio.fresh))
      (Studio.world Studio.fresh) (Ok tt) x4
      [EvSetCorePath (Some "/studio/core") (Some "P:\studio\core")
         (Some "/Volumes/studio/core");
       EvPreSetupValidation; EvRunProjectSetup;
       EvLocalize (Some "/mnt/configs/first") true].
Proof.
  repeat (split; [reflexivity|]).
  eexists _, _, _, _.
  split; [reflexivity|]. split; [reflexivity|]. split; [reflexivity|].
  split; [reflexivity|]. split; [reflexivity|].
  pose proof (execute_first_project Studio.wizard (Studio.world Studio.fresh)
                "/studio/core" Studio.running_core) as H.
  eapply H; reflexivity.
Defined.

Lemma preview_project_paths_raises_witness :
  get_required_storages (w_ext (Scripted.host "linux2" Scripted.unpreviewable []))
  = Ok ["primary"; "scratch"] /\
  "scratch" ∈ ["primary"; "scratch"] /\
  "win32" ∈ platforms /\
  preview_project_path "scratch" "show" "win32"
    (w_ext (Scripted.host "linux2" Scripted.unpreviewable []))
  = Raise (Exn TankError "Storage 'scratch' has no windows path!") /\
  exists e',
    preview_project_paths Studio.wizard "show"
      (Scripted.host "linux2" Scripted.unpreviewable [])
    = (Raise e', Scripted.host "linux2" Scripted.unpreviewable []).
Proof.
  assert ("scratch" ∈ ["primary"; "scratch"]) as Hin by set_solver.
  assert ("win32" ∈ platforms) as Hp by (unfold platforms; set_solver).
  split; [reflexivity|]. split; [exact Hin|]. split; [exact Hp|].
  split; [reflexivity|].
  pose proof (proj1 (preview_project_paths_raises Studio.wizard "show"
                       (Scripted.host "linux2" Scripted.unpreviewable []))
                ["primary"; "scratch"] "scratch" "win32"
                (Exn TankError "Storage 'scratch' has no windows path!")) as H.
  apply H; [reflexivity|exact Hin|exact Hp|reflexivity].
Defined.

Lemma default_location_windows_separators_witness :
  get_project_disk_name (w_ext (Studio.world Studio.studio)) = Ok (Some "baz/qux") /\
  fst (basis_record Studio.wizard (Studio.world Studio.studio))
  = Ok (Some Studio.earlier) /\
  project_tank_name Studio.earlier = Some "foo/bar" /\
  windows_path Studio.earlier = Some "P:\foo\bar\configs" /\
  PyStr.contains "/" "P:\foo\bar\configs" = false /\
  (forall d,
     fst (get_default_configuration_location Studio.wizard (Studio.world Studio.studio))
     = Ok d ->
     d !! "win32" = Some (Some "P:\baz\qux\configs") /\
     PyStr.contains "/" "P:\baz\qux\configs" = false).
Proof.
  repeat (split; [reflexivity|]).
  intros d Hd.
  assert (d !! "win32" = Some (Some "P:\baz\qux\configs")) as Hout.
  { revert Hd. intros [= <-]. reflexivity. }
  split; [exact Hout|].
  pose proof (default_location_windows_separators Studio.wizard
                (Studio.world Studio.studio) "baz/qux" Studio.earlier "foo/bar"
                "P:\foo\bar\configs" d "P:\baz\qux\configs") as H.
  apply H; [reflexivity..|exact Hd|exact Hout].
Defined.

(** ** Cutting a string at the occurrences of another *)

Module PyStrSplit.
Import PyStr PyStrFacts.

Lemma startswith_short p s :
  String.length s < String.length p -> startswith p s = false.
Proof.
  revert s. induction p as [|a p IH]; intros s H; [simpl in H; lia|].
  destruct s as [|b s]; [reflexivity|]. simpl in *.
  destruct (Ascii.eqb a b); [|reflexivity]. apply IH. lia.
Qed.

Lemma contains_short old s :
  String.length s < String.length old -> contains old s = false.
Proof.
  induction s as [|c s IH]; intros H.
  - simpl. by apply startswith_short.
  - rewrite contains_cons, startswith_short by done.
    apply IH. simpl in H. lia.
Qed.

Lemma join_cons sep x l : l <> [] -> join sep (x :: l) = x +:+ sep +:+ join sep l.
Proof. by destruct l. Qed.

Lemma separated_cons old x l :
  l <> [] ->
  separated old (x :: l) = negb (contains old (x +:+ but_last old)) && separated old l.
Proof. by destruct l. Qed.

(** The leftmost occurrence of [old] in a string that contains it. *)
Lemma first_occurrence old p :
  old <> "" -> contains old p = true ->
  exists a rest, p = a +:+ old +:+ rest /\ contains old (a +:+ but_last old) = false.
Proof.
  intros Hne. induction p as [|c p IH]; intros Hc.
  - simpl in Hc. apply startswith_inv in Hc as [r Hr]. by destruct old.
  - destruct (startswith old (String c p)) eqn:Hs.
    + apply startswith_inv in Hs as [r Hr]. exists "", r.
      split; [exact Hr|]. rewrite app_nil_l. apply contains_short.
      pose proof (length_but_last old Hne). lia.
    + rewrite contains_cons, Hs in Hc. simpl in Hc.
      destruct (IH Hc) as (a & rest & -> & Ha).
      exists (String c a), rest. split; [by rewrite app_cons|].
      rewrite app_cons, contains_cons, Ha, orb_false_r.
      destruct (but_last_snoc old Hne) as [l Hl].
      rewrite Hl in Hs at 2.
      rewrite app_assoc, <- (app_assoc a), <- app_cons in Hs.
      rewrite startswith_app_long in Hs; [done|].
      simpl. rewrite length_app. pose proof (length_but_last old Hne). lia.
Qed.

Lemma split_bounded old n p :
  old <> "" -> String.length p <= n ->
  exists segs,
    segs <> [] /\ p = join old segs /\ separated old segs = true /\
    (contains old p = true -> 2 <= length segs).
Proof.
  intros Hne. revert p. induction n as [|n IH]; intros p Hlen.
  - exists [p]. destruct p; [|simpl in Hlen; lia].
    repeat split; [done| |].
    + simpl. destruct old; [done|reflexivity].
    + simpl. destruct old; [done|discriminate].
  - destruct (contains old p) eqn:Hc.
    + destruct (first_occurrence old p Hne Hc) as (a & rest & -> & Ha).
      destruct (IH rest) as (segs & Hsegs & -> & Hsep & _).
      { rewrite !length_app in Hlen. destruct old; [done|]. simpl in Hlen. lia. }
      exists (a :: segs). split; [done|]. split; [by rewrite join_cons|].
      split; [by rewrite separated_cons, Ha, Hsep|].
      intros _. destruct segs; [done|]. simpl. lia.
    + exists [p]. repeat split; [done| |done]. simpl. by rewrite Hc.
Qed.

(** Every string is made of pieces joined by [old], with no occurrence of
    [old] other than the ones between the pieces met from the left. *)
Lemma split_exists old p :
  old <> "" ->
  exists segs,
    segs <> [] /\ p = join old segs /\ separated old segs = true /\
    (contains old p = true -> 2 <= length segs).
Proof. intros Hne. by apply (split_bounded old (String.length p)). Qed.

(** [s.replace("", new)] puts [new] around every character of [s]. *)
Lemma interleave_join new s : interleave new s = join new ([""] ++ chars s ++ [""]).
Proof.
  assert (forall s, interleave new s = new +:+ join new (chars s ++ [""])) as H.
  { clear s. induction s as [|c s IH].
    - simpl. by rewrite app_nil_r.
    - simpl interleave. rewrite IH. f_equal.
      change (chars (String c s)) with (String c "" :: chars s).
      change ((String c "" :: chars s) ++ [""])
        with (String c "" :: (chars s ++ [""])).
      rewrite join_cons by (by destruct (chars s)).
      by rewrite app_cons, app_nil_l. }
  rewrite H. change ([""] ++ chars s ++ [""]) with ("" :: (chars s ++ [""])).
  rewrite join_cons by (by destruct (chars s)).
  by rewrite app_nil_l.
Qed.

End PyStrSplit.

(** ** The suggestion for each platform *)

Section LocationSpec.
Context {X : Type}.
Context `{!ParameterStore X, !OsInterface X, !ShotgunApi X,
          !PipelineConfigUtils X, !SetupRoutines X}.

(** What one [if] statement leaves under its key is what the
    specification asks for. *)
Lemma suggested_substituted path old new :
  substituted path old new (suggested path old new).
Proof.
  unfold substituted, suggested. destruct path as [p|]; [|reflexivity].
  split; [|split].
  - intros [-> | Hn]; [reflexivity|].
    apply PyStrFacts.contains_false_iff in Hn. by rewrite Hn, andb_false_r.
  - intros Hp Hold Hocc. apply PyStrFacts.contains_iff in Hocc.
    split.
    + destruct (PyStrSplit.split_exists old p Hold) as (segs & _ & Hj & Hs & Hl).
      exists segs. split; [by apply Hl|]. by split.
    + intros segs -> Hs. apply String.eqb_neq in Hp. rewrite Hp, Hocc. simpl.
      by rewrite PyStrFacts.replace_join.
  - intros Hp ->. apply String.eqb_neq in Hp.
    rewrite Hp, PyStrMore.contains_nil. simpl.
    by rewrite PyStrSplit.interleave_join.
Qed.

(** The specification leaves no choice. *)
Lemma substituted_functional stored old new out1 out2 :
  substituted stored old new out1 -> substituted stored old new out2 -> out1 = out2.
Proof.
  unfold substituted. destruct stored as [p|]; [|congruence].
  intros (Hn1 & Hs1 & He1) (Hn2 & Hs2 & He2).
  destruct (decide (p = "")) as [Hp|Hp]; [by rewrite Hn1, Hn2; auto|].
  destruct (decide (old = "")) as [Ho|Ho]; [by rewrite He1, He2|].
  destruct (PyStr.contains old p) eqn:Hc.
  - apply PyStrFacts.contains_iff in Hc.
    destruct (Hs1 Hp Ho Hc) as [(segs & _ & Hj & Hsep) H1].
    destruct (Hs2 Hp Ho Hc) as [_ H2].
    by rewrite (H1 segs), (H2 segs).
  - apply PyStrFacts.contains_false_iff in Hc. rewrite Hn1, Hn2; auto.
Qed.

(** C1: given a basis record, each of the three platforms gets its own
    suggestion.  When the stored path of the platform is present and
    literally contains the old disk name (in the form of the platform),
    the suggestion is the stored path cut at the occurrences of the old
    name and put together again with the new name (in the form of the
    platform) in their place; otherwise it is [None].  The suggestion of a
    platform is fixed by the stored path of that platform alone. *)
Theorem default_location_per_platform self (w : World X) new data old :
  get_project_disk_name (w_ext w) = Ok (Some new) ->
  fst (basis_record self w) = Ok (Some data) ->
  project_tank_name data = Some old ->
  exists d w',
    get_default_configuration_location self w = (Ok d, w') /\
    forall platform, platform ∈ platforms ->
      exists out,
        d !! platform = Some out /\
        substituted (stored_path data platform)
                    (platform_form platform old) (platform_form platform new) out /\
        forall out',
          substituted (stored_path data platform)
                      (platform_form platform old) (platform_form platform new) out' ->
          out' = out.
Proof.
  intros Hnew Hbasis Hold.
  destruct (location_lookup self w new data old Hnew Hbasis Hold)
    as (d & w' & Hrun & Hd).
  exists d, w'. split; [exact Hrun|].
  intros platform Hp. eexists. split; [by apply Hd|].
  split; [apply suggested_substituted|].
  intros out' H. eapply substituted_functional; [exact H|apply suggested_substituted].
Qed.

End LocationSpec.

(** The configuration of [foo/bar] as the basis of [baz/qux]: the mac path
    [/mnt/foo/bar/configs] is cut into [/mnt/] and [/configs] and becomes
    [/mnt/baz/qux/configs]; the linux path [/mnt/foobar/configs] does not
    contain [foo/bar] and gets no suggestion; the windows path is cut at
    [foo\bar]. *)
Lemma default_location_per_platform_witness :
  get_project_disk_name (w_ext (Studio.world Studio.studio)) = Ok (Some "baz/qux") /\
  fst (basis_record Studio.wizard (Studio.world Studio.studio)) = Ok (Some Studio.earlier) /\
  project_tank_name Studio.earlier = Some "foo/bar" /\
  exists d w',
    get_default_configuration_location Studio.wizard (Studio.world Studio.studio)
    = (Ok d, w') /\
    d !! "darwin" = Some (Some "/mnt/baz/qux/configs") /\
    d !! "linux2" = Some None /\
    d !! "win32" = Some (Some "P:\baz\qux\configs").
Proof.
  split; [reflexivity|]. split; [reflexivity|]. split; [reflexivity|].
  pose proof (default_location_per_platform Studio.wizard (Studio.world Studio.studio)
                "baz/qux" Studio.earlier "foo/bar") as H.
  destruct H as (d & w' & Hrun & Hd); [reflexivity..|].
  exists d, w'. split; [exact Hrun|].
  assert ("darwin" ∈ platforms) as H1 by (unfold platforms; set_solver).
  assert ("linux2" ∈ platforms) as H2 by (unfold platforms; set_solver).
  assert ("win32" ∈ platforms) as H3 by (unfold platforms; set_solver).
  destruct (Hd "darwin" H1) as (o1 & -> & (_ & S1 & _) & _).
  destruct (Hd "linux2" H2) as (o2 & -> & (N2 & _ & _) & _).
  destruct (Hd "win32" H3) as (o3 & -> & (_ & S3 & _) & _).
  split; [|split]; f_equal.
  - destruct S1 as [_ S1]; [done|done|by exists "/mnt/", "/configs"|].
    apply (S1 ["/mnt/"; "/configs"]); reflexivity.
  - apply N2. right. by apply PyStrFacts.contains_false_iff.
  - destruct S3 as [_ S3]; [done|done|by exists "P:\", "\configs"|].
    apply (S3 ["P:\"; "\configs"]); reflexivity.
Defined.

(** ** The directories [set_project_disk_name] creates *)

Section DiskNameTurn.
Context {X : Type}.
Context `{!ParameterStore X, !OsInterface X, !ShotgunApi X,
          !PipelineConfigUtils X, !SetupRoutines X}.

Lemma create_project_folder_made name s (w : World X) p x2 :
  preview_project_path s name sys_platform (w_ext w) = Ok (Some p) ->
  os_path_exists p (w_ext w) = false ->
  os_makedirs p 511 0 (w_ext w) = (Ok tt, x2) ->
  exists l,
    create_project_folder name s w =
    (Ok tt, mkWorld (w_umask w) x2 l (w_calls w ++ [EvMakedirs p 511 0])).
Proof.
  intros Hp He Hm. unfold create_project_folder.
  rewrite bind_read, Hp, bind_path_exists, He. change (negb false) with true.
  cbv iota. rewrite bind_log, bind_os_umask. simpl.
  unfold bind at 1, try_finally, makedirs, call. simpl. rewrite Hm. simpl.
  by eexists.
Qed.

Lemma create_project_folder_unpreviewed name s (w : World X) e :
  preview_project_path s name sys_platform (w_ext w) = Raise e ->
  create_project_folder name s w = (Raise e, w).
Proof.
  intros Hp. unfold create_project_folder. by rewrite bind_read, Hp.
Qed.

(** The loop over the storages creates its directories in turn. *)
Lemma for_each_made_in_turn name storages todo (w : World X) :
  (forall s, s ∈ todo -> s ∈ storages) ->
  exists mk,
    w_calls (snd (for_each todo (create_project_folder name) w)) = w_calls w ++ mk /\
    made_in_turn name storages (w_ext w) mk.
Proof.
  revert w. induction todo as [|s rest IH]; intros w Hsub.
  - exists []. simpl. split; [by rewrite List.app_nil_r|constructor].
  - assert (s ∈ storages) as Hs by (apply Hsub; set_solver).
    assert (forall s', s' ∈ rest -> s' ∈ storages) as Hrest
      by (intros s' Hin; apply Hsub; set_solver).
    simpl for_each.
    destruct (preview_project_path s name sys_platform (w_ext w)) as [[p|]|e] eqn:Hp.
    + destruct (os_path_exists p (w_ext w)) eqn:He.
      * destruct (create_project_folder_on_disk name s w) as (l & Hf);
          [by exists p|].
        rewrite (bind_Ok _ _ _ _ _ Hf).
        destruct (IH (mkWorld (w_umask w) (w_ext w) l (w_calls w)) Hrest)
          as (mk & Hc & Hm).
        exists mk. split; [exact Hc|exact Hm].
      * destruct (os_makedirs p 511 0 (w_ext w)) as [[[]|e] x2] eqn:Hmk.
        -- destruct (create_project_folder_made name s w p x2 Hp He Hmk) as (l & Hf).
           rewrite (bind_Ok _ _ _ _ _ Hf).
           destruct (IH (mkWorld (w_umask w) x2 l (w_calls w ++ [EvMakedirs p 511 0]))
                       Hrest) as (mk & Hc & Hm).
           exists (EvMakedirs p 511 0 :: mk). split.
           ++ rewrite Hc. simpl. by rewrite <- List.app_assoc.
           ++ by eapply made_cons.
        -- destruct (create_project_folder_fails name s w p e x2 Hp He Hmk) as (l & Hf).
           rewrite (bind_Raise _ _ _ _ _ Hf).
           exists [EvMakedirs p 511 0]. split; [done|].
           eapply made_cons; [done..|constructor].
    + rewrite (bind_Raise _ _ _ _ _ (create_project_folder_pathless name s w Hp)).
      exists []. split; [by rewrite List.app_nil_r|constructor].
    + rewrite (bind_Raise _ _ _ _ _ (create_project_folder_unpreviewed name s w e Hp)).
      exists []. split; [by rewrite List.app_nil_r|constructor].
Qed.

(** X15: [set_project_disk_name] creates directories nowhere else than at
    project folders.  Its calls are some that create nothing, then the
    [os.makedirs] calls, then some that create nothing; and the
    [os.makedirs] calls are made in turn from the state the validation
    left: each is for the path that the parameter store previews, in the
    very state the call is made in, for one of the storages listed as
    required in the state the validation left, on the current platform
    and under the given name, and that path is not on disk then. *)
Theorem set_project_disk_name_creates_project_folders
    self name create_folders (w : World X) :
  exists pre mk post,
    w_calls (snd (set_project_disk_name self name create_folders w))
    = w_calls w ++ pre ++ mk ++ post /\
    Forall not_makedirs pre /\ Forall not_makedirs post /\
    (mk = [] \/
     exists x1 storages,
       create_folders = true /\
       validate_project_disk_name name (w_ext w) = (Ok tt, x1) /\
       get_required_storages x1 = Ok storages /\
       made_in_turn name storages x1 mk).
Proof.
  assert (forall w1 : World X,
            exists post,
              w_calls (snd (params_set_project_disk_name name w1)) = w_calls w1 ++ post /\
              Forall not_makedirs post) as Hset.
  { intros w1. rewrite params_set_project_disk_name_run.
    destruct (fst (validate_project_disk_name name (w_ext w1))) as [[]|e]; simpl;
      eexists; (split; [reflexivity|by repeat constructor]). }
  destruct create_folders.
  - rewrite set_project_disk_name_folders.
    destruct (validate_project_disk_name name (w_ext w)) as [[[]|e] x1] eqn:Hv;
      simpl fst; simpl snd; cbv iota.
    + rewrite bind_log, bind_read. simpl w_ext.
      destruct (get_required_storages x1) as [storages|e] eqn:Hs.
      * match goal with
        | |- context [for_each storages _ ?w1] =>
            destruct (for_each_made_in_turn name storages storages w1
                        (fun s H => H)) as (mk & Hc & Hm);
              destruct (for_each storages (create_project_folder name) w1)
                as [[[]|e] w2] eqn:Hloop
        end; simpl in Hc, Hm.
        -- destruct (Hset w2) as (post & Hp & Hf).
           exists [EvValidateDiskName name], mk, post.
           split; [by rewrite Hp, Hc, <- !List.app_assoc|].
           split; [by repeat constructor|]. split; [exact Hf|].
           right. by exists x1, storages.
        -- exists [EvValidateDiskName name], mk, []. simpl.
           split; [by rewrite Hc, List.app_nil_r, <- !List.app_assoc|].
           split; [by repeat constructor|]. split; [constructor|].
           right. by exists x1, storages.
      * exists [EvValidateDiskName name], [], []. simpl.
        split; [done|]. split; [by repeat constructor|].
        split; [constructor|by left].
    + exists [EvValidateDiskName name], [], []. simpl.
      split; [done|]. split; [by repeat constructor|].
      split; [constructor|by left].
  - unfold set_project_disk_name. rewrite bind_ret.
    destruct (Hset w) as (post & Hp & Hf).
    exists [], [], post. simpl. split; [exact Hp|].
    split; [constructor|]. split; [exact Hf|by left].
Qed.

End DiskNameTurn.

(** Two folders of [show] are missing in the studio with the read-only
    mount: the first is created, the second is tried in the state the
    first call left, and the third is never reached. *)
Example creates_project_folders_run :
  w_calls (snd (set_project_disk_name Studio.wizard "show" true
                  (Studio.world Studio.locked)))
  = [EvValidateDiskName "show"; EvMakedirs "/mnt/primary/show" 511 0;
     EvMakedirs "/mnt/readonly/show" 511 0] /\
  made_in_turn "show" ["primary"; "readonly"; "textures"] Studio.locked
    [EvMakedirs "/mnt/primary/show" 511 0; EvMakedirs "/mnt/readonly/show" 511 0].
Proof.
  split; [reflexivity|].
  eapply (made_cons "show" _ Studio.locked "primary"); [set_solver|reflexivity..|].
  eapply (made_cons "show" _ _ "readonly"); [set_solver|reflexivity..|].
  constructor.
Qed.
